(** * domino-environment-automation: the reconciliation engine of scripts/main.py

    A shallow embedding of [scripts/main.py] and the properties of its
    configuration loader, content fingerprint and create / revise / restrict
    engine.

    Modelling conventions.
    - Python [str] values are [string]s of ASCII characters; [str.title] and
      [str.upper] are given on the ASCII letters (other characters are
      uncased).
    - The parsed YAML document is a record whose fields have the types that
      the constructor of [EnvironmentConfig] annotates; a key that is absent
      is [None], and [config.get(k)] is tested with Python truthiness.  The
      values on which the engine calls a method of [str], a regular
      expression or a method of [dict] ([visibility], [organizationOwnerId],
      [pluggableWorkspaceTools], its tools and their [httpProxy]) are held
      as YAML gives them, of whatever type.
    - The [logging] calls are recorded, in order, in a list of entries; the
      calls that reach the Domino client are recorded in a second list.
    - The mutable [EnvironmentConfig] object is a record threaded through the
      methods; exceptions and [sys.exit] are outcomes of a computation.
    - The Domino client is a record of methods over the state of the remote
      platform; a method returns or fails with an [Exception].
    - [main], [get_domino_host] and [get_target_directory] read the process
      environment, which is a record of its own. *)

From Stdlib Require Import List String Ascii ZArith NArith Bool Arith Lia.
From Stdlib.Strings Require Import Byte.
From Stdlib Require Import DecimalString.
Import ListNotations.
Open Scope string_scope.

(** ** Python strings *)

Module PyStr.

Definition is_lower (c : ascii) : bool :=
  let n := nat_of_ascii c in (97 <=? n)%nat && (n <=? 122)%nat.

Definition is_upper (c : ascii) : bool :=
  let n := nat_of_ascii c in (65 <=? n)%nat && (n <=? 90)%nat.

Definition to_upper (c : ascii) : ascii :=
  if is_lower c then ascii_of_nat (nat_of_ascii c - 32) else c.

Definition to_lower (c : ascii) : ascii :=
  if is_upper c then ascii_of_nat (nat_of_ascii c + 32) else c.

(** [str.upper()] *)
Fixpoint upper (s : string) : string :=
  match s with
  | EmptyString => EmptyString
  | String c r => String (to_upper c) (upper r)
  end.

(** [str.title()]: a cased character is upper-cased when the character before
    it is not cased, and lower-cased when it is. *)
Fixpoint title_from (previous_is_cased : bool) (s : string) : string :=
  match s with
  | EmptyString => EmptyString
  | String c r =>
      if is_lower c then
        String (if previous_is_cased then c else to_upper c) (title_from true r)
      else if is_upper c then
        String (if previous_is_cased then to_lower c else c) (title_from true r)
      else String c (title_from false r)
  end.

Definition title (s : string) : string := title_from false s.

(** Truthiness of a [str]: the empty string is falsy. *)
Definition truthy (s : string) : bool :=
  match s with EmptyString => false | _ => true end.

(** [x in xs] for a list of strings. *)
Definition mem (x : string) (xs : list string) : bool :=
  existsb (String.eqb x) xs.

(** [s.startswith("/")] and [s.endswith("/")], for [os.path.join]. *)
Definition starts_with_slash (s : string) : bool :=
  match s with String "/"%char _ => true | _ => false end.

Fixpoint ends_with_slash (s : string) : bool :=
  match s with
  | EmptyString => false
  | String c EmptyString => Ascii.eqb c "/"%char
  | String _ r => ends_with_slash r
  end.

End PyStr.

(** ** The regular expression of the owner id *)

Module OwnerIdRegex.

(** The character class [[0-9a-fA-F]]. *)
Definition hex_class (c : ascii) : bool :=
  let n := nat_of_ascii c in
  ((48 <=? n)%nat && (n <=? 57)%nat)
  || ((97 <=? n)%nat && (n <=? 102)%nat)
  || ((65 <=? n)%nat && (n <=? 70)%nat).

(** [[0-9a-fA-F]{n}] from the start of [s]: the rest after [n] characters of
    the class, if there are that many. *)
Fixpoint repeat_class (n : nat) (s : string) : option string :=
  match n with
  | O => Some s
  | S k =>
      match s with
      | String c r => if hex_class c then repeat_class k r else None
      | EmptyString => None
      end
  end.

(** [$] without [re.MULTILINE]: the end of the string, or just before a
    newline that is the last character. *)
Definition at_dollar (rest : string) : bool :=
  match rest with
  | EmptyString => true
  | String c EmptyString => Ascii.eqb c "010"%char
  | _ => false
  end.

(** [re.search("^[0-9a-fA-F]{24}$", s)] as a truth value; [^] anchors the only
    attempt at position 0. *)
Definition search (s : string) : bool :=
  match repeat_class 24 s with
  | Some rest => at_dollar rest
  | None => false
  end.

End OwnerIdRegex.

(** The format as the specification words it: exactly 24 hexadecimal
    characters. *)
Fixpoint all_hex (s : string) : bool :=
  match s with
  | EmptyString => true
  | String c r => OwnerIdRegex.hex_class c && all_hex r
  end.

Definition is_24_hex (s : string) : bool :=
  (String.length s =? 24)%nat && all_hex s.

(** ** hashlib: SHA-256 (FIPS 180-4) over a list of bytes *)

Module SHA256.

Local Open Scope N_scope.

Definition mask32 : N := 0xffffffff.

Definition add32 (a b : N) : N := N.land (a + b) mask32.

Definition rotr (n x : N) : N :=
  N.lor (N.shiftr x n) (N.land (N.shiftl x (32 - n)) mask32).

Definition Ch (x y z : N) : N :=
  N.lxor (N.land x y) (N.land (N.lxor x mask32) z).

Definition Maj (x y z : N) : N :=
  N.lxor (N.land x y) (N.lxor (N.land x z) (N.land y z)).

Definition bsig0 (x : N) : N := N.lxor (rotr 2 x) (N.lxor (rotr 13 x) (rotr 22 x)).
Definition bsig1 (x : N) : N := N.lxor (rotr 6 x) (N.lxor (rotr 11 x) (rotr 25 x)).
Definition ssig0 (x : N) : N := N.lxor (rotr 7 x) (N.lxor (rotr 18 x) (N.shiftr x 3)).
Definition ssig1 (x : N) : N := N.lxor (rotr 17 x) (N.lxor (rotr 19 x) (N.shiftr x 10)).

(** The constants are what the standard says they are: the first 32 bits of
    the fractional parts of the cube roots (for [K]) and of the square roots
    (for [H0]) of the first primes. *)
Definition is_prime (n : N) : bool :=
  (1 <? n) && forallb (fun d => negb (n mod d =? 0))
                      (map N.of_nat (seq 2 (N.to_nat n - 2))).

(** The first 64 primes: those up to 311. *)
Definition primes : list N := filter is_prime (map N.of_nat (seq 2 310)).

(** The integer cube root, one bit at a time from bit [i - 1] down. *)
Fixpoint cube_root_bits (i : nat) (n r : N) : N :=
  match i with
  | O => r
  | S k =>
      let c := r + N.shiftl 1 (N.of_nat k) in
      cube_root_bits k n (if c * c * c <=? n then c else r)
  end.

Definition cube_root (n : N) : N := cube_root_bits 48 n 0.

Definition K : list N :=
  Eval vm_compute in
    map (fun p => N.land (cube_root (N.shiftl p 96)) mask32) primes.

Definition H0 : list N :=
  Eval vm_compute in
    map (fun p => N.land (N.sqrt (N.shiftl p 64)) mask32) (firstn 8 primes).

(** Padding: the byte 0x80, zero bytes up to 56 modulo 64, then the length in
    bits as a 64-bit big-endian integer. *)
Definition be_bytes (width : nat) (x : N) : list N :=
  map (fun i => N.land (N.shiftr x (8 * N.of_nat i)) 0xff) (rev (seq 0 width)).

Definition pad (msg : list N) : list N :=
  let len := List.length msg in
  let zeros := ((64 - ((len + 9) mod 64)) mod 64)%nat in
  msg ++ [0x80] ++ repeat 0 zeros ++ be_bytes 8 (8 * N.of_nat len).

Fixpoint be_words (bs : list N) : list N :=
  match bs with
  | a :: b :: c :: d :: r =>
      N.lor (N.shiftl a 24) (N.lor (N.shiftl b 16) (N.lor (N.shiftl c 8) d))
      :: be_words r
  | _ => []
  end.

Fixpoint blocks (fuel : nat) (ws : list N) : list (list N) :=
  match fuel with
  | O => []
  | S f =>
      match ws with
      | [] => []
      | _ => firstn 16 ws :: blocks f (skipn 16 ws)
      end
  end.

(** The message schedule, most recent word first while it is extended. *)
Fixpoint extend (n : nat) (recent : list N) : list N :=
  match n with
  | O => recent
  | S k =>
      let w := add32 (add32 (ssig1 (nth 1 recent 0)) (nth 6 recent 0))
                     (add32 (ssig0 (nth 14 recent 0)) (nth 15 recent 0)) in
      extend k (w :: recent)
  end.

Definition schedule (block : list N) : list N := rev (extend 48 (rev block)).

Definition round (st : list N) (kw : N * N) : list N :=
  match st with
  | [a; b; c; d; e; f; g; h] =>
      let t1 := add32 (add32 (add32 h (bsig1 e)) (add32 (Ch e f g) (fst kw))) (snd kw) in
      let t2 := add32 (bsig0 a) (Maj a b c) in
      [add32 t1 t2; a; b; c; add32 d t1; e; f; g]
  | _ => st
  end.

Definition compress (h : list N) (block : list N) : list N :=
  let out := fold_left round (combine K (schedule block)) h in
  map (fun p => add32 (fst p) (snd p)) (combine h out).

Definition digest_words (msg : list N) : list N :=
  let ws := be_words (pad msg) in
  fold_left compress (blocks (List.length ws) ws) H0.

Definition hex_digit (n : N) : ascii :=
  if n <? 10 then ascii_of_N (48 + n) else ascii_of_N (87 + n).

Definition hex_of_word (w : N) : string :=
  string_of_list_ascii
    (map (fun i => hex_digit (N.land (N.shiftr w (4 * N.of_nat i)) 0xf))
         (rev (seq 0 8))).

(** [hashlib.sha256(msg).hexdigest()] *)
Definition hexdigest (msg : list Byte.byte) : string :=
  String.concat "" (map hex_of_word (digest_words (map Byte.to_N msg))).

End SHA256.

(** ** YAML values

    What [yaml.safe_load] can give to a key: an empty key is [None], an
    unquoted number an [int], [yes] or [false] a [bool].  These are the
    values of the keys that the engine uses without a look at their type.
    Of the types that YAML gives to a node without a tag, [str] alone has
    the method [title] and is accepted by [re.search]; [bytes], which YAML
    gives to a node tagged [!!binary] only, is left out. *)

Module Yaml.

Inductive value :=
| Null                                            (* an empty key: [None] *)
| Str (s : string)
| Int (n : Z)                                     (* an unquoted integer *)
| Bool (b : bool)
| Other (type_name str : string) (truth : bool).  (* a float, a list, a mapping, a date:
                                                     the name of its type, what [str] makes of
                                                     it, and its truth value *)

(** Python truthiness. *)
Definition truthy (v : value) : bool :=
  match v with
  | Null => false
  | Str s => PyStr.truthy s
  | Int n => negb (n =? 0)%Z
  | Bool b => b
  | Other _ _ truth => truth
  end.

(** [type(v).__name__] *)
Definition type_name (v : value) : string :=
  match v with
  | Null => "NoneType"
  | Str _ => "str"
  | Int _ => "int"
  | Bool _ => "bool"
  | Other name _ _ => name
  end.

(** [str(v)] *)
Definition str (v : value) : string :=
  match v with
  | Null => "None"
  | Str s => s
  | Int n => NilZero.string_of_int (Z.to_int n)
  | Bool b => if b then "True" else "False"
  | Other _ text _ => text
  end.

(** The value of a key is a string wherever it is truthy: the key is absent,
    or its value is falsy, or it is a [str]. *)
Definition str_if_truthy (v : option value) : bool :=
  match v with
  | None => true
  | Some (Str _) => true
  | Some v => negb (truthy v)
  end.

(** What a key that is read as a mapping holds: a mapping, or a value of
    another type. *)
Inductive mapping_or (A : Type) :=
| Mapping (m : A)
| NotMapping (v : value).
Arguments Mapping {A} m.
Arguments NotMapping {A} v.

End Yaml.

(** ** The declaration document

    What [yaml.safe_load] returns for [environment.yaml]: a mapping whose
    recognised keys are read with [config.get]. *)

Record EnvVar := { var_name : string; var_value : string }.

Inductive Description :=
| DescriptionText (s : string)
| DescriptionLines (l : list string).

Module Doc.

(** The mapping under [httpProxy]: the four keys that [ProxyConfig] has a
    field for, and the other keys of the mapping. *)
Record HttpProxy := {
  port : option Z;
  internalPath : option string;
  requireSubdomain : option bool;
  rewrite : option bool;
  other_keys : list string }.

(** A tool.  The engine subscripts [title], [iconUrl] and [start]: [None] is
    a key that is absent, and a key with nothing under it holds the empty
    value of its type. *)
Record Tool := {
  title : option string;
  iconUrl : option string;
  start : option (list string);
  supportedFileExtensions : option (list string);
  httpProxy : option (Yaml.mapping_or HttpProxy) }.

Record t := {
  name : option string;
  image : option string;
  dockerfileInstructions : option string;
  environmentVariables : option (list EnvVar);
  preSetupScript : option string;
  postSetupScript : option string;
  preRunScript : option string;
  postRunScript : option string;
  skipCache : option bool;
  summary : option string;
  tags : option (list string);
  useVpn : option bool;
  description : option Description;
  isRestricted : option bool;
  organizationOwnerId : option Yaml.value;
  visibility : option Yaml.value;
  supportedClusters : option (list string);
  pluggableWorkspaceTools :
    option (Yaml.mapping_or (list (string * Yaml.mapping_or Tool))) }.

(** A document with no recognised key. *)
Definition empty : t :=
  {| name := None; image := None; dockerfileInstructions := None;
     environmentVariables := None; preSetupScript := None;
     postSetupScript := None; preRunScript := None; postRunScript := None;
     skipCache := None; summary := None; tags := None; useVpn := None;
     description := None; isRestricted := None; organizationOwnerId := None;
     visibility := None; supportedClusters := None;
     pluggableWorkspaceTools := None |}.

End Doc.

(** Python truthiness of the values a document holds. *)
Definition truthy_list {A : Type} (l : list A) : bool :=
  match l with [] => false | _ => true end.

Definition truthy_description (d : Description) : bool :=
  match d with
  | DescriptionText s => PyStr.truthy s
  | DescriptionLines l => truthy_list l
  end.

Definition truthy_proxy (p : Yaml.mapping_or Doc.HttpProxy) : bool :=
  match p with
  | Yaml.Mapping p =>
      match Doc.port p, Doc.internalPath p, Doc.requireSubdomain p, Doc.rewrite p,
            Doc.other_keys p with
      | None, None, None, None, [] => false
      | _, _, _, _, _ => true
      end
  | Yaml.NotMapping v => Yaml.truthy v
  end.

(** [config.get(k)] as a condition: the key is present and its value truthy. *)
Definition get_truthy {A : Type} (truthy : A -> bool) (v : option A) : bool :=
  match v with Some a => truthy a | None => false end.

(** [config.get(k) if config.get(k) else default] *)
Definition get_or {A : Type} (truthy : A -> bool) (v : option A) (default : A) : A :=
  match v with
  | Some a => if truthy a then a else default
  | None => default
  end.

(** ** Files *)

Inductive yaml_load :=
| YamlFails (msg : string)      (* [yaml.safe_load] raises *)
| YamlNotMapping                (* an empty document or a scalar: [config.get] raises *)
| YamlMapping (d : Doc.t).

Record File := {
  content : list byte;
  safe_load : yaml_load }.

Record FileSystem := {
  files : string -> option File;
  listdir : string -> list string }.

(** [os.path.join(a, b)] on POSIX. *)
Definition path_join (a b : string) : string :=
  if PyStr.starts_with_slash b then b
  else if negb (PyStr.truthy a) || PyStr.ends_with_slash a then a ++ b
  else a ++ "/" ++ b.

(** ** Workspace tools as the engine sends them *)

Inductive PortValue := PortNumber (p : Z) | PortBlank.

Record ProxyConfigDict := {
  pc_internalPath : string;
  pc_port : PortValue;
  pc_requireSubdomain : bool;
  pc_rewrite : bool }.

Record WorkspaceToolDict := {
  wt_iconUrl : string;
  wt_name : string;
  wt_proxyConfig : ProxyConfigDict;
  wt_startScripts : list string;
  wt_supportedFileExtensions : list string;
  wt_title : string }.

(** The dataclasses [ProxyConfig] and [WorkspaceTool]. *)
Record ProxyConfig := {
  port : Z;
  internalPath : option string;
  requireSubdomain : bool;
  rewrite : bool }.

Record WorkspaceTool := {
  title : string;
  iconUrl : string;
  startScripts : list string;
  supportedFileExtensions : list string;
  proxyConfig : option ProxyConfig }.

(** ** The [EnvironmentConfig] object *)

Record EnvironmentConfig := {
  environment_config_location : string;
  environment_id : string;
  dockerfile_instructions : string;
  environment_variables : list EnvVar;
  base_image : string;
  post_run_script : string;
  post_setup_script : string;
  pre_run_script : string;
  pre_setup_script : string;
  skip_cache : bool;
  summary : string;
  supported_clusters : list string;
  tags : list string;
  use_vpn : bool;
  workspace_tools : list WorkspaceToolDict;
  add_base_dependencies : bool;
  description : option Description;
  is_restricted : bool;
  name : string;
  organization_owner_id : string;
  visibility : string;
  config_file_hash : string }.

Definition set_environment_id (v : string) (self : EnvironmentConfig) : EnvironmentConfig :=
  {| environment_config_location := environment_config_location self;
     environment_id := v;
     dockerfile_instructions := dockerfile_instructions self;
     environment_variables := environment_variables self;
     base_image := base_image self;
     post_run_script := post_run_script self;
     post_setup_script := post_setup_script self;
     pre_run_script := pre_run_script self;
     pre_setup_script := pre_setup_script self;
     skip_cache := skip_cache self;
     summary := summary self;
     supported_clusters := supported_clusters self;
     tags := tags self;
     use_vpn := use_vpn self;
     workspace_tools := workspace_tools self;
     add_base_dependencies := add_base_dependencies self;
     description := description self;
     is_restricted := is_restricted self;
     name := name self;
     organization_owner_id := organization_owner_id self;
     visibility := visibility self;
     config_file_hash := config_file_hash self |}.

Definition set_supported_clusters (v : list string) (self : EnvironmentConfig) : EnvironmentConfig :=
  {| environment_config_location := environment_config_location self;
     environment_id := environment_id self;
     dockerfile_instructions := dockerfile_instructions self;
     environment_variables := environment_variables self;
     base_image := base_image self;
     post_run_script := post_run_script self;
     post_setup_script := post_setup_script self;
     pre_run_script := pre_run_script self;
     pre_setup_script := pre_setup_script self;
     skip_cache := skip_cache self;
     summary := summary self;
     supported_clusters := v;
     tags := tags self;
     use_vpn := use_vpn self;
     workspace_tools := workspace_tools self;
     add_base_dependencies := add_base_dependencies self;
     description := description self;
     is_restricted := is_restricted self;
     name := name self;
     organization_owner_id := organization_owner_id self;
     visibility := visibility self;
     config_file_hash := config_file_hash self |}.

Definition set_tags (v : list string) (self : EnvironmentConfig) : EnvironmentConfig :=
  {| environment_config_location := environment_config_location self;
     environment_id := environment_id self;
     dockerfile_instructions := dockerfile_instructions self;
     environment_variables := environment_variables self;
     base_image := base_image self;
     post_run_script := post_run_script self;
     post_setup_script := post_setup_script self;
     pre_run_script := pre_run_script self;
     pre_setup_script := pre_setup_script self;
     skip_cache := skip_cache self;
     summary := summary self;
     supported_clusters := supported_clusters self;
     tags := v;
     use_vpn := use_vpn self;
     workspace_tools := workspace_tools self;
     add_base_dependencies := add_base_dependencies self;
     description := description self;
     is_restricted := is_restricted self;
     name := name self;
     organization_owner_id := organization_owner_id self;
     visibility := visibility self;
     config_file_hash := config_file_hash self |}.

Definition set_workspace_tools (v : list WorkspaceToolDict) (self : EnvironmentConfig) : EnvironmentConfig :=
  {| environment_config_location := environment_config_location self;
     environment_id := environment_id self;
     dockerfile_instructions := dockerfile_instructions self;
     environment_variables := environment_variables self;
     base_image := base_image self;
     post_run_script := post_run_script self;
     post_setup_script := post_setup_script self;
     pre_run_script := pre_run_script self;
     pre_setup_script := pre_setup_script self;
     skip_cache := skip_cache self;
     summary := summary self;
     supported_clusters := supported_clusters self;
     tags := tags self;
     use_vpn := use_vpn self;
     workspace_tools := v;
     add_base_dependencies := add_base_dependencies self;
     description := description self;
     is_restricted := is_restricted self;
     name := name self;
     organization_owner_id := organization_owner_id self;
     visibility := visibility self;
     config_file_hash := config_file_hash self |}.

Definition set_organization_owner_id (v : string) (self : EnvironmentConfig) : EnvironmentConfig :=
  {| environment_config_location := environment_config_location self;
     environment_id := environment_id self;
     dockerfile_instructions := dockerfile_instructions self;
     environment_variables := environment_variables self;
     base_image := base_image self;
     post_run_script := post_run_script self;
     post_setup_script := post_setup_script self;
     pre_run_script := pre_run_script self;
     pre_setup_script := pre_setup_script self;
     skip_cache := skip_cache self;
     summary := summary self;
     supported_clusters := supported_clusters self;
     tags := tags self;
     use_vpn := use_vpn self;
     workspace_tools := workspace_tools self;
     add_base_dependencies := add_base_dependencies self;
     description := description self;
     is_restricted := is_restricted self;
     name := name self;
     organization_owner_id := v;
     visibility := visibility self;
     config_file_hash := config_file_hash self |}.

Definition set_visibility (v : string) (self : EnvironmentConfig) : EnvironmentConfig :=
  {| environment_config_location := environment_config_location self;
     environment_id := environment_id self;
     dockerfile_instructions := dockerfile_instructions self;
     environment_variables := environment_variables self;
     base_image := base_image self;
     post_run_script := post_run_script self;
     post_setup_script := post_setup_script self;
     pre_run_script := pre_run_script self;
     pre_setup_script := pre_setup_script self;
     skip_cache := skip_cache self;
     summary := summary self;
     supported_clusters := supported_clusters self;
     tags := tags self;
     use_vpn := use_vpn self;
     workspace_tools := workspace_tools self;
     add_base_dependencies := add_base_dependencies self;
     description := description self;
     is_restricted := is_restricted self;
     name := name self;
     organization_owner_id := organization_owner_id self;
     visibility := v;
     config_file_hash := config_file_hash self |}.

Definition set_config_file_hash (v : string) (self : EnvironmentConfig) : EnvironmentConfig :=
  {| environment_config_location := environment_config_location self;
     environment_id := environment_id self;
     dockerfile_instructions := dockerfile_instructions self;
     environment_variables := environment_variables self;
     base_image := base_image self;
     post_run_script := post_run_script self;
     post_setup_script := post_setup_script self;
     pre_run_script := pre_run_script self;
     pre_setup_script := pre_setup_script self;
     skip_cache := skip_cache self;
     summary := summary self;
     supported_clusters := supported_clusters self;
     tags := tags self;
     use_vpn := use_vpn self;
     workspace_tools := workspace_tools self;
     add_base_dependencies := add_base_dependencies self;
     description := description self;
     is_restricted := is_restricted self;
     name := name self;
     organization_owner_id := organization_owner_id self;
     visibility := visibility self;
     config_file_hash := v |}.

(** [EnvironmentConfig(environment_config_location=...)]: the defaults of
    [__init__]. *)
Definition new_EnvironmentConfig (location : string) : EnvironmentConfig :=
  {| environment_config_location := location;
     environment_id := "";
     dockerfile_instructions := "";
     environment_variables := [];
     base_image := "";
     post_run_script := "";
     post_setup_script := "";
     pre_run_script := "";
     pre_setup_script := "";
     skip_cache := false;
     summary := "";
     supported_clusters := [];
     tags := [];
     use_vpn := false;
     workspace_tools := [];
     add_base_dependencies := true;
     description := None;
     is_restricted := true;
     name := "";
     organization_owner_id := "";
     visibility := "Private";
     config_file_hash := "" |}.

(** ** Exceptions and log records *)

Inductive py_exception :=
| FileNotFoundError (path : string)
| YAMLError (msg : string)
| AttributeError (msg : string)
| KeyError (key : string)
| TypeError (msg : string)
| ClientError (msg : string).   (* an [Exception] raised inside the Domino client *)

(** What unwinds the stack: an instance of [Exception], or the [SystemExit]
    of [sys.exit], which [except Exception] does not catch. *)
Inductive raised :=
| Exception (e : py_exception)
| SystemExit (code : Z).

Inductive level := DEBUG | INFO | WARNING | ERROR.

Inductive message :=
| OwnerIdRequired                               (* "Please provide the ID of an Organization ..." *)
| OwnerIdNotRecognised (owner_id : string)      (* "Organization Owner ID {id} not recognised." *)
| InvalidVisibility (location : string)         (* "Invalid Visibility setting in {location} ..." *)
| InvalidClusterTypes (invalid_values : list string) (* "Invalid Cluster Type setting {invalid_values} ..." *)
| NameRequired                                  (* "Environment requires a name." *)
| AlreadyExists (name environment_id : string)  (* "Environment {name} already exists. {id}" *)
| DoesNotExist (name : string)                  (* "Environment {name} doesn't already exist." *)
| FileUnchanged                                 (* "File has not changed since last run" *)
| SelectedRevisionId (revision_id : string)     (* the id alone, at debug level *)
| Restricting                                   (* "Restricting selected revision ..." *)
| NoConfigurationFile (environment : string)    (* "No configuration file found for {environment} ..." *)
| FailedToProcess (environment : string) (e : py_exception)
                                                (* "Failed to process environment '{environment}': {e}" *)
| NoEnvironmentsFound                           (* "No environments found to build!" *)
| BuildingEnvironments (l : list string).       (* "Building environments: {l}" *)

Definition log_record : Type := level * message.

(** ** The Domino client *)

Module Domino.

Record CreateEnvironmentArgs := {
  name : string;
  visibility : string;
  dockerfile_instructions : string;
  environment_variables : list EnvVar;
  base_image : string;
  post_run_script : string;
  post_setup_script : string;
  pre_run_script : string;
  pre_setup_script : string;
  skip_cache : bool;
  summary : string;
  supported_clusters : list string;
  tags : list string;
  use_vpn : bool;
  workspace_tools : list WorkspaceToolDict;
  add_base_dependencies : bool;
  description : option Description;
  is_restricted : bool;
  organization_owner_id : string }.

Record CreateRevisionArgs := {
  r_environment_id : string;
  r_dockerfile_instructions : string;
  r_environment_variables : list EnvVar;
  r_base_image : string;
  r_post_run_script : string;
  r_post_setup_script : string;
  r_pre_run_script : string;
  r_pre_setup_script : string;
  r_skip_cache : bool;
  r_summary : string;
  r_supported_clusters : list string;
  r_tags : list string;
  r_use_vpn : bool;
  r_workspace_tools : list WorkspaceToolDict }.

(** An element of [environments_list()['data']]. *)
Record Summary := { id : string; env_name : string }.

Record Revision := { revision_id : string }.

(** [get_environment(id)['environment']].  Only the truth value of
    [restrictedRevision] is used; it is the id of the restricted revision. *)
Record Environment := {
  activeRevisionTags : option (list string);
  restrictedRevision : option string;
  selectedRevision : option Revision }.

Inductive response (A : Type) :=
| Returns (a : A)
| Fails (msg : string).
Arguments Returns {A} a.
Arguments Fails {A} msg.

(** The methods of the client that the engine calls, over the state [G] of the
    remote platform. *)
Record client (G : Type) := {
  environments_list : G -> response (list Summary) * G;
  create_environment : CreateEnvironmentArgs -> G -> response unit * G;
  get_environment : string -> G -> response Environment * G;
  create_environment_revision : CreateRevisionArgs -> G -> response unit * G;
  restrict_environment_revision : string -> string -> G -> response unit * G;
  archive_environment : string -> G -> response unit * G }.
Arguments environments_list {G} c g.
Arguments create_environment {G} c args g.
Arguments get_environment {G} c environment_id g.
Arguments create_environment_revision {G} c args g.
Arguments restrict_environment_revision {G} c environment_id revision_id g.
Arguments archive_environment {G} c environment_id g.

(** A call as the client sees it. *)
Inductive call :=
| EnvironmentsList
| CreateEnvironment (args : CreateEnvironmentArgs)
| GetEnvironment (environment_id : string)
| CreateEnvironmentRevision (args : CreateRevisionArgs)
| RestrictEnvironmentRevision (environment_id revision_id : string)
| ArchiveEnvironment (environment_id : string).

End Domino.

(** The calls that change the remote platform. *)
Definition is_mutating (c : Domino.call) : bool :=
  match c with
  | Domino.EnvironmentsList | Domino.GetEnvironment _ => false
  | _ => true
  end.

Definition is_restrict (c : Domino.call) : bool :=
  match c with
  | Domino.RestrictEnvironmentRevision _ _ => true
  | _ => false
  end.

Definition is_create (c : Domino.call) : bool :=
  match c with
  | Domino.CreateEnvironment _ => true
  | _ => false
  end.

(** The method of the client that a call is to. *)
Definition method_name (c : Domino.call) : string :=
  match c with
  | Domino.EnvironmentsList => "environments_list"
  | Domino.CreateEnvironment _ => "create_environment"
  | Domino.GetEnvironment _ => "get_environment"
  | Domino.CreateEnvironmentRevision _ => "create_environment_revision"
  | Domino.RestrictEnvironmentRevision _ _ => "restrict_environment_revision"
  | Domino.ArchiveEnvironment _ => "archive_environment"
  end.

(** The visibility and the owner that a creation was asked with. *)
Definition created_as (c : Domino.call) : option (string * string) :=
  match c with
  | Domino.CreateEnvironment args =>
      Some (Domino.visibility args, Domino.organization_owner_id args)
  | _ => None
  end.

Definition is_create_revision (c : Domino.call) : bool :=
  match c with
  | Domino.CreateEnvironmentRevision _ => true
  | _ => false
  end.

(** ** Computations

    A computation runs in a world made of the remote platform, the calls the
    client has received and the log records emitted, and either returns a
    value or unwinds with something raised. *)

Inductive outcome (A : Type) :=
| Value (a : A)
| Raised (r : raised).
Arguments Value {A} a.
Arguments Raised {A} r.

Record World (G : Type) := {
  remote : G;
  calls : list Domino.call;
  logs : list log_record }.
Arguments remote {G} w.
Arguments calls {G} w.
Arguments logs {G} w.

Definition M (G A : Type) : Type := World G -> outcome A * World G.

Definition ret {G A : Type} (a : A) : M G A := fun w => (Value a, w).

Definition bind {G A B : Type} (m : M G A) (k : A -> M G B) : M G B :=
  fun w =>
    match m w with
    | (Value a, w') => k a w'
    | (Raised r, w') => (Raised r, w')
    end.

Notation "x <- m ;; k" := (bind m (fun x => k))
  (at level 61, m at next level, right associativity).
Notation "m ;; k" := (bind m (fun _ => k))
  (at level 61, right associativity).

Definition raise {G A : Type} (e : py_exception) : M G A :=
  fun w => (Raised (Exception e), w).

(** [sys.exit(code)] *)
Definition sys_exit {G A : Type} (code : Z) : M G A :=
  fun w => (Raised (SystemExit code), w).

(** [logger.<level>(message)] *)
Definition log {G : Type} (l : level) (m : message) : M G unit :=
  fun w =>
    (Value tt, {| remote := remote w; calls := calls w; logs := logs w ++ [(l, m)] |}).

(** A method of the client is called: the call is recorded, the platform
    moves on, and a failure surfaces as an exception. *)
Definition invoke {G A : Type} (c : Domino.call)
    (method : G -> Domino.response A * G) : M G A :=
  fun w =>
    let (r, g) := method (remote w) in
    let w' := {| remote := g; calls := calls w ++ [c]; logs := logs w |} in
    match r with
    | Domino.Returns a => (Value a, w')
    | Domino.Fails msg => (Raised (Exception (ClientError msg)), w')
    end.

(** [try: body  except Exception as e: handler] *)
Definition try_except_Exception {G A : Type} (body : M G A)
    (handler : py_exception -> M G A) : M G A :=
  fun w =>
    match body w with
    | (Raised (Exception e), w') => handler e w'
    | other => other
    end.

(** [for x in xs: body x] *)
Fixpoint for_each {G A : Type} (xs : list A) (body : A -> M G unit) : M G unit :=
  match xs with
  | [] => ret tt
  | x :: rest => body x ;; for_each rest body
  end.

(** ** hashlib objects and binary files *)

Module Hashlib.

(** A hash object of [hashlib.new('sha256')]: [update] feeds it, and
    [hexdigest] is the digest of everything fed so far. *)
Record hash := { fed : list byte }.

Definition new : hash := {| fed := [] |}.
Definition update (h : hash) (chunk : list byte) : hash := {| fed := fed h ++ chunk |}.
Definition hexdigest (h : hash) : string := SHA256.hexdigest (fed h).

End Hashlib.

Definition chunk_size : nat := 8192.

(** The chunks that the successive [file.read(8192)] return before the empty
    one that ends the loop.  Every chunk takes at least one byte, so the
    length of the file bounds their number. *)
Fixpoint reads_from (fuel : nat) (rest : list byte) : list (list byte) :=
  match fuel with
  | O => []
  | S f =>
      match firstn chunk_size rest with
      | [] => []
      | chunk => chunk :: reads_from f (skipn chunk_size rest)
      end
  end.

Definition reads (bytes : list byte) : list (list byte) :=
  reads_from (List.length bytes) bytes.

(** ** The methods of [EnvironmentConfig] *)

Definition possible_visibility_types : list string :=
  ["Global"; "Organization"; "Private"].

Definition possible_cluster_types : list string :=
  ["Spark"; "Ray"; "Dask"; "Mpi"].

(** [d[key]] on a mapping of the document. *)
Definition subscript {G A : Type} (key : string) (v : option A) : M G A :=
  match v with
  | Some a => ret a
  | None => raise (KeyError key)
  end.

(** [v.title()]: a method of [str]. *)
Definition title_of {G : Type} (v : Yaml.value) : M G string :=
  match v with
  | Yaml.Str s => ret (PyStr.title s)
  | _ => raise (AttributeError
                  ("'" ++ Yaml.type_name v ++ "' object has no attribute 'title'"))
  end.

(** [re.search("^[0-9a-fA-F]{24}$", v)] as a condition. *)
Definition re_search {G : Type} (v : Yaml.value) : M G bool :=
  match v with
  | Yaml.Str s => ret (OwnerIdRegex.search s)
  | _ => raise (TypeError
                  ("expected string or bytes-like object, got '" ++ Yaml.type_name v ++ "'"))
  end.

(** [v.items()] and [v.get]: methods of [dict]. *)
Definition as_mapping {G A : Type} (method : string) (v : Yaml.mapping_or A) : M G A :=
  match v with
  | Yaml.Mapping m => ret m
  | Yaml.NotMapping v =>
      raise (AttributeError
               ("'" ++ Yaml.type_name v ++ "' object has no attribute '" ++ method ++ "'"))
  end.

(** [ProxyConfig] called with the keys of [proxy_config] as keyword
    arguments: the argument is a mapping, the dataclass has a field for
    every key, and [port] has no default. *)
Definition make_ProxyConfig {G : Type} (p : Yaml.mapping_or Doc.HttpProxy) : M G ProxyConfig :=
  match p with
  | Yaml.NotMapping v =>
      raise (TypeError ("argument after ** must be a mapping, not " ++ Yaml.type_name v))
  | Yaml.Mapping p =>
      match Doc.other_keys p with
      | key :: _ =>
          raise (TypeError ("got an unexpected keyword argument '" ++ key ++ "'"))
      | [] =>
          match Doc.port p with
          | None => raise (TypeError "missing 1 required positional argument: 'port'")
          | Some n =>
              ret {| port := n;
                     internalPath := Doc.internalPath p;
                     requireSubdomain :=
                       match Doc.requireSubdomain p with Some b => b | None => false end;
                     rewrite := match Doc.rewrite p with Some b => b | None => false end |}
          end
      end
  end.

(** The dictionary that [build_workspace_tools] makes of one tool. *)
Definition workspace_tools_dict (name : string) (wt : WorkspaceTool) : WorkspaceToolDict :=
  {| wt_iconUrl := if PyStr.truthy (iconUrl wt) then iconUrl wt else "";
     wt_name := name;
     wt_proxyConfig :=
       {| pc_internalPath :=
            match proxyConfig wt with
            | Some pc => get_or PyStr.truthy (internalPath pc) ""
            | None => ""
            end;
          pc_port :=
            match proxyConfig wt with
            | Some pc => if (port pc =? 0)%Z then PortBlank else PortNumber (port pc)
            | None => PortBlank
            end;
          pc_requireSubdomain :=
            match proxyConfig wt with
            | Some pc => requireSubdomain pc
            | None => false
            end;
          pc_rewrite :=
            match proxyConfig wt with
            | Some pc => rewrite pc
            | None => false
            end |};
     wt_startScripts := startScripts wt;
     wt_supportedFileExtensions := supportedFileExtensions wt;
     wt_title := if PyStr.truthy (title wt) then title wt else name |}.

Section Methods.

Context {G : Type}.
Variable domino : Domino.client G.
Variable os : FileSystem.

(** [with open(location, 'r') as f: config = yaml.safe_load(f)], up to the
    first [config.get]. *)
Definition load_config (location : string) : M G Doc.t :=
  match files os location with
  | None => raise (FileNotFoundError location)
  | Some f =>
      match safe_load f with
      | YamlFails msg => raise (YAMLError msg)
      | YamlNotMapping => raise (AttributeError "object has no attribute 'get'")
      | YamlMapping d => ret d
      end
  end.

Definition get_environment_visibility (self : EnvironmentConfig) : M G EnvironmentConfig :=
  config <- load_config (environment_config_location self) ;;
  let owner_given := get_truthy Yaml.truthy (Doc.organizationOwnerId config) in
  declared <-
    match Doc.visibility config with
    | Some v => if Yaml.truthy v then title_of v else ret "Private"
    | None => ret "Private"
    end ;;
  let self := set_visibility declared self in
  let self :=
    if (PyStr.upper (visibility self) =? "Organisation")%string
    then set_visibility "Organization" self
    else self in
  (* the statements after the [if ... elif ...] *)
  let check_possible (self : EnvironmentConfig) : M G EnvironmentConfig :=
    if negb (PyStr.mem (visibility self) possible_visibility_types) then
      log WARNING (InvalidVisibility (environment_config_location self)) ;;
      ret (set_visibility "Private" self)
    else ret self in
  if (visibility self =? "Organization")%string && negb owner_given then
    log ERROR OwnerIdRequired ;;
    ret self
  else if owner_given then
    let owner := get_or Yaml.truthy (Doc.organizationOwnerId config) (Yaml.Str "") in
    let self := set_organization_owner_id (Yaml.str owner) self in
    found <- re_search owner ;;
    if negb found then
      log ERROR (OwnerIdNotRecognised (organization_owner_id self)) ;;
      ret self
    else check_possible (set_visibility "Private" self)
  else check_possible self.

Definition get_supported_clusters (self : EnvironmentConfig) : M G EnvironmentConfig :=
  config <- load_config (environment_config_location self) ;;
  let self :=
    set_supported_clusters (get_or truthy_list (Doc.supportedClusters config) []) self in
  let self := set_supported_clusters (map PyStr.title (supported_clusters self)) self in
  if truthy_list (supported_clusters self) then
    let invalid_values :=
      filter (fun sc => negb (PyStr.mem sc possible_cluster_types)) (supported_clusters self) in
    if truthy_list invalid_values then
      log WARNING (InvalidClusterTypes invalid_values) ;;
      ret (set_supported_clusters
             (filter (fun sc => PyStr.mem sc possible_cluster_types) (supported_clusters self))
             self)
    else ret self
  else ret self.

(** One iteration of the loop of [build_workspace_tools]. *)
Definition build_workspace_tool (name : string) (pwt_config : Yaml.mapping_or Doc.Tool)
    : M G WorkspaceToolDict :=
  pwt_config <- as_mapping "get" pwt_config ;;
  http_proxy <-
    match Doc.httpProxy pwt_config with
    | Some proxy_config =>
        if truthy_proxy proxy_config
        then (pc <- make_ProxyConfig proxy_config ;; ret (Some pc))
        else ret None
    | None => ret None
    end ;;
  title_ <- subscript "title" (Doc.title pwt_config) ;;
  iconUrl_ <- subscript "iconUrl" (Doc.iconUrl pwt_config) ;;
  start_ <- subscript "start" (Doc.start pwt_config) ;;
  let wt :=
    {| title := title_;
       iconUrl := iconUrl_;
       startScripts := start_;
       supportedFileExtensions :=
         match Doc.supportedFileExtensions pwt_config with Some l => l | None => [] end;
       proxyConfig := http_proxy |} in
  ret (workspace_tools_dict name wt).

Fixpoint build_each (pwts : list (string * Yaml.mapping_or Doc.Tool))
    (self : EnvironmentConfig)
    : M G EnvironmentConfig :=
  match pwts with
  | [] => ret self
  | (name, pwt_config) :: rest =>
      d <- build_workspace_tool name pwt_config ;;
      build_each rest (set_workspace_tools (workspace_tools self ++ [d]) self)
  end.

Definition build_workspace_tools (self : EnvironmentConfig) : M G EnvironmentConfig :=
  config <- load_config (environment_config_location self) ;;
  let pwts :=
    match Doc.pluggableWorkspaceTools config with
    | Some v => v
    | None => Yaml.Mapping []
    end in
  let self := set_workspace_tools [] self in
  pwts <- as_mapping "items" pwts ;;
  build_each pwts self.

Definition check_environment_exists (self : EnvironmentConfig)
    : M G (EnvironmentConfig * option bool) :=
  existing_environments <-
    invoke Domino.EnvironmentsList (Domino.environments_list domino) ;;
  match find (fun ee => (Domino.env_name ee =? name self)%string) existing_environments with
  | Some ee => ret (set_environment_id (Domino.id ee) self, Some true)
  | None => ret (self, None)
  end.

Definition compute_config_file_hash (self : EnvironmentConfig) : M G EnvironmentConfig :=
  match files os (environment_config_location self) with
  | None => raise (FileNotFoundError (environment_config_location self))
  | Some file =>
      let hash_func := fold_left Hashlib.update (reads (content file)) Hashlib.new in
      ret (set_config_file_hash (Hashlib.hexdigest hash_func) self)
  end.

(** The attribute [organization_owner_id] is a [string] in the record.  An
    owner id of another type is assigned to it as it is by the code; the
    record holds what [str] makes of it, until [get_environment_visibility]
    raises for that value and the object is dropped (see
    [parse_config_file_needs_strings]). *)
Definition parse_config_file (self : EnvironmentConfig) : M G EnvironmentConfig :=
  config <- load_config (environment_config_location self) ;;
  let self :=
    {| environment_config_location := environment_config_location self;
       environment_id := environment_id self;
       dockerfile_instructions := get_or PyStr.truthy (Doc.dockerfileInstructions config) "";
       environment_variables := get_or truthy_list (Doc.environmentVariables config) [];
       base_image := get_or PyStr.truthy (Doc.image config) "";
       post_run_script := get_or PyStr.truthy (Doc.postRunScript config) "";
       post_setup_script := get_or PyStr.truthy (Doc.postSetupScript config) "";
       pre_run_script := get_or PyStr.truthy (Doc.preRunScript config) "";
       pre_setup_script := get_or PyStr.truthy (Doc.preSetupScript config) "";
       skip_cache := get_or (fun b : bool => b) (Doc.skipCache config) false;
       summary := get_or PyStr.truthy (Doc.summary config) "";
       supported_clusters := supported_clusters self;
       tags := get_or truthy_list (Doc.tags config) [];
       use_vpn := get_or (fun b : bool => b) (Doc.useVpn config) false;
       workspace_tools := workspace_tools self;
       add_base_dependencies := add_base_dependencies self;
       description :=
         Some (get_or truthy_description (Doc.description config) (DescriptionText ""));
       is_restricted := get_or (fun b : bool => b) (Doc.isRestricted config) false;
       name := get_or PyStr.truthy (Doc.name config) "";
       organization_owner_id :=
         Yaml.str (get_or Yaml.truthy (Doc.organizationOwnerId config) (Yaml.Str ""));
       visibility := visibility self;
       config_file_hash := config_file_hash self |} in
  self <- get_environment_visibility self ;;
  self <- get_supported_clusters self ;;
  self <- build_workspace_tools self ;;
  self <- compute_config_file_hash self ;;
  ret (set_tags (tags self ++ [config_file_hash self]) self).

Definition create_environment_args (self : EnvironmentConfig) : Domino.CreateEnvironmentArgs :=
  {| Domino.name := name self;
     Domino.visibility := visibility self;
     Domino.dockerfile_instructions := dockerfile_instructions self;
     Domino.environment_variables := environment_variables self;
     Domino.base_image := base_image self;
     Domino.post_run_script := post_run_script self;
     Domino.post_setup_script := post_setup_script self;
     Domino.pre_run_script := pre_run_script self;
     Domino.pre_setup_script := pre_setup_script self;
     Domino.skip_cache := skip_cache self;
     Domino.summary := summary self;
     Domino.supported_clusters := supported_clusters self;
     Domino.tags := tags self;
     Domino.use_vpn := use_vpn self;
     Domino.workspace_tools := workspace_tools self;
     Domino.add_base_dependencies := add_base_dependencies self;
     Domino.description := description self;
     Domino.is_restricted := is_restricted self;
     Domino.organization_owner_id := organization_owner_id self |}.

Definition create_revision_args (self : EnvironmentConfig) : Domino.CreateRevisionArgs :=
  {| Domino.r_environment_id := environment_id self;
     Domino.r_dockerfile_instructions := dockerfile_instructions self;
     Domino.r_environment_variables := environment_variables self;
     Domino.r_base_image := base_image self;
     Domino.r_post_run_script := post_run_script self;
     Domino.r_post_setup_script := post_setup_script self;
     Domino.r_pre_run_script := pre_run_script self;
     Domino.r_pre_setup_script := pre_setup_script self;
     Domino.r_skip_cache := skip_cache self;
     Domino.r_summary := summary self;
     Domino.r_supported_clusters := supported_clusters self;
     Domino.r_tags := tags self;
     Domino.r_use_vpn := use_vpn self;
     Domino.r_workspace_tools := workspace_tools self |}.

Definition create_environment (self : EnvironmentConfig) : M G EnvironmentConfig :=
  self <- parse_config_file self ;;
  invoke (Domino.CreateEnvironment (create_environment_args self))
         (Domino.create_environment domino (create_environment_args self)) ;;
  r <- check_environment_exists self ;;
  ret (fst r).

Definition create_environment_if_not_exist (self : EnvironmentConfig)
    : M G (EnvironmentConfig * bool) :=
  if negb (PyStr.truthy (name self)) then
    log ERROR NameRequired ;;
    ret (self, false)
  else
    r <- check_environment_exists self ;;
    let self := fst r in
    if PyStr.truthy (environment_id self) then
      log INFO (AlreadyExists (name self) (environment_id self)) ;;
      ret (self, true)
    else
      log INFO (DoesNotExist (name self)) ;;
      self <- create_environment self ;;
      ret (self, true).

Definition get_latest_revision (self : EnvironmentConfig) : M G bool :=
  environment_spec <-
    invoke (Domino.GetEnvironment (environment_id self))
           (Domino.get_environment domino (environment_id self)) ;;
  let active_revision_tags :=
    get_or truthy_list (Domino.activeRevisionTags environment_spec) [] in
  let tag_match := PyStr.mem (config_file_hash self) active_revision_tags in
  ret tag_match.

Definition restrict_environment_revision (self : EnvironmentConfig) : M G unit :=
  get_environment <-
    invoke (Domino.GetEnvironment (environment_id self))
           (Domino.get_environment domino (environment_id self)) ;;
  let restricted_revision :=
    get_truthy PyStr.truthy (Domino.restrictedRevision get_environment) in
  match Domino.selectedRevision get_environment with
  | Some selected_revision =>
      let selected_revision_id := Domino.revision_id selected_revision in
      log DEBUG (SelectedRevisionId selected_revision_id) ;;
      if negb restricted_revision && Bool.eqb (is_restricted self) true then
        log DEBUG Restricting ;;
        invoke (Domino.RestrictEnvironmentRevision (environment_id self) selected_revision_id)
               (Domino.restrict_environment_revision domino (environment_id self)
                  selected_revision_id)
      else ret tt
  | None => ret tt
  end.

Definition create_environment_revision (self : EnvironmentConfig) : M G unit :=
  file_unchanged <- get_latest_revision self ;;
  if file_unchanged then
    log INFO FileUnchanged
  else
    invoke (Domino.CreateEnvironmentRevision (create_revision_args self))
           (Domino.create_environment_revision domino (create_revision_args self)) ;;
    restrict_environment_revision self.

Definition archive_environment (self : EnvironmentConfig) : M G unit :=
  invoke (Domino.ArchiveEnvironment (environment_id self))
         (Domino.archive_environment domino (environment_id self)).

(** ** The batch *)

Definition config_location (target_directory environment : string) : string :=
  path_join (path_join target_directory environment) "environment.yaml".

(** The body of the [try] of [process_single_environment]. *)
Definition reconcile (environment_config_location : string) : M G unit :=
  let ec := new_EnvironmentConfig environment_config_location in
  ec <- parse_config_file ec ;;
  r <- create_environment_if_not_exist ec ;;
  let ec := fst r in
  create_environment_revision ec ;;
  restrict_environment_revision ec.

Definition process_single_environment (environment target_directory : string) : M G unit :=
  let environment_config_location := config_location target_directory environment in
  match files os environment_config_location with
  | None => log WARNING (NoConfigurationFile environment)
  | Some _ =>
      try_except_Exception
        (reconcile environment_config_location)
        (fun e => log ERROR (FailedToProcess environment e))
  end.

Definition process_all_environments (target_directory : string) : M G unit :=
  let local_environments_list := listdir os target_directory in
  (if negb (truthy_list local_environments_list) then
     log ERROR NoEnvironmentsFound ;;
     sys_exit 1
   else ret tt) ;;
  log INFO (BuildingEnvironments local_environments_list) ;;
  for_each local_environments_list
    (fun environment => process_single_environment environment target_directory) ;;
  sys_exit 0.

End Methods.

(** [n] runs of a computation, one after the other. *)
Fixpoint times {G : Type} (n : nat) (m : M G unit) : M G unit :=
  match n with
  | O => ret tt
  | S k => m ;; times k m
  end.

(** ** An in-memory platform

    A stand-in for the Domino deployment, to run the engine on concrete
    inputs: environments are kept in creation order, the tags sent with the
    latest revision are the active ones, the latest revision is the selected
    one (there is none before the first), and a restriction, once set, stays.
    The theorems about the engine hold for every client, not only this one. *)

Module Platform.

Record environment := {
  id : string;
  name : string;
  revisions : nat;
  active_tags : list string;
  restricted : option string }.

Definition t : Type := list environment.

Definition revision_name (e : environment) : string :=
  (id e ++ "-r" ++ NilEmpty.string_of_uint (Nat.to_uint (revisions e)))%string.

Definition describe (e : environment) : Domino.Environment :=
  {| Domino.activeRevisionTags := Some (active_tags e);
     Domino.restrictedRevision := restricted e;
     Domino.selectedRevision :=
       match revisions e with
       | O => None
       | S _ => Some {| Domino.revision_id := revision_name e |}
       end |}.

Definition update (environment_id : string) (f : environment -> environment) (g : t) : t :=
  map (fun e => if (id e =? environment_id)%string then f e else e) g.

Definition known (environment_id : string) (g : t) : bool :=
  existsb (fun e => (id e =? environment_id)%string) g.

Definition client : Domino.client t :=
  {| Domino.environments_list g :=
       (Domino.Returns
          (map (fun e => {| Domino.id := id e; Domino.env_name := name e |}) g), g);
     Domino.create_environment args g :=
       (Domino.Returns tt,
        (g ++ [{| id := ("env-" ++ Domino.name args)%string;
                  name := Domino.name args;
                  revisions := 1;
                  active_tags := Domino.tags args;
                  restricted := None |}])%list);
     Domino.get_environment environment_id g :=
       match find (fun e => (id e =? environment_id)%string) g with
       | Some e => (Domino.Returns (describe e), g)
       | None => (Domino.Fails "environment not found", g)
       end;
     Domino.create_environment_revision args g :=
       if known (Domino.r_environment_id args) g then
         (Domino.Returns tt,
          update (Domino.r_environment_id args)
            (fun e => {| id := id e; name := name e; revisions := S (revisions e);
                         active_tags := Domino.r_tags args;
                         restricted := restricted e |}) g)
       else (Domino.Fails "environment not found", g);
     Domino.restrict_environment_revision environment_id revision_id g :=
       if known environment_id g then
         (Domino.Returns tt,
          update environment_id
            (fun e => {| id := id e; name := name e; revisions := revisions e;
                         active_tags := active_tags e;
                         restricted := Some revision_id |}) g)
       else (Domino.Fails "environment not found", g);
     Domino.archive_environment environment_id g :=
       (Domino.Returns tt,
        filter (fun e => negb (id e =? environment_id)%string) g) |}.

(** The world before a run: nothing called, nothing logged. *)
Definition start (g : t) : World t := {| remote := g; calls := []; logs := [] |}.

End Platform.

(** ** Declarations and directories for the examples *)

Module Examples.

Definition newline : string := String "010"%char EmptyString.

(** A document with the keys that the properties below depend on, the
    values of [visibility], [organizationOwnerId] and
    [pluggableWorkspaceTools] as YAML gives them. *)
Definition document (name : option string) (visibility owner : option Yaml.value)
    (clusters : option (list string)) (restricted : option bool)
    (tools : option (Yaml.mapping_or (list (string * Yaml.mapping_or Doc.Tool))))
    : Doc.t :=
  {| Doc.name := name; Doc.image := Some "quay.io/domino/compute:latest";
     Doc.dockerfileInstructions := None;
     Doc.environmentVariables := None; Doc.preSetupScript := None;
     Doc.postSetupScript := None; Doc.preRunScript := None; Doc.postRunScript := None;
     Doc.skipCache := None; Doc.summary := None; Doc.tags := None; Doc.useVpn := None;
     Doc.description := None; Doc.isRestricted := restricted;
     Doc.organizationOwnerId := owner;
     Doc.visibility := visibility; Doc.supportedClusters := clusters;
     Doc.pluggableWorkspaceTools := tools |}.

(** The same, with strings and with tools that are mappings. *)
Definition declaration (name visibility owner : option string)
    (clusters : option (list string)) (restricted : option bool)
    (tools : option (list (string * Doc.Tool))) : Doc.t :=
  document name (option_map Yaml.Str visibility) (option_map Yaml.Str owner)
    clusters restricted
    (option_map
       (fun l => Yaml.Mapping (map (fun t => (fst t, Yaml.Mapping (snd t))) l)) tools).

Definition file (text : string) (d : Doc.t) : File :=
  {| content := list_byte_of_string text; safe_load := YamlMapping d |}.

(** A target directory with one sub-directory per entry, each holding its
    [environment.yaml]. *)
Definition directory (target : string) (entries : list (string * File)) : FileSystem :=
  {| files := fun path =>
       option_map snd
         (find (fun e => (config_location target (fst e) =? path)%string) entries);
     listdir := fun d => if (d =? target)%string then map fst entries else [] |}.

Definition templates : string := "/repo/environment_templates".

Definition organization_without_owner : File :=
  file ("name: team-env" ++ newline ++ "visibility: organization" ++ newline)
       (declaration (Some "team-env") (Some "organization") None None None None).

Definition organisation_british : File :=
  file ("name: team-env" ++ newline ++ "visibility: Organisation" ++ newline)
       (declaration (Some "team-env") (Some "Organisation") None None None None).

Definition organization_american : File :=
  file ("name: team-env" ++ newline ++ "visibility: Organization" ++ newline)
       (declaration (Some "team-env") (Some "Organization") None None None None).

Definition owner_not_hex : File :=
  file ("name: team-env" ++ newline ++ "organizationOwnerId: not-hex" ++ newline)
       (declaration (Some "team-env") None (Some "not-hex") None None None).


Definition three_clusters : File :=
  file ("name: team-env" ++ newline ++ "supportedClusters: [spark, bogus, RAY]" ++ newline)
       (declaration (Some "team-env") None None (Some ["spark"; "bogus"; "RAY"]) None None).

Definition restricted_base : File :=
  file ("name: base-env" ++ newline ++ "isRestricted: true" ++ newline)
       (declaration (Some "base-env") None None None (Some true) None).

Definition plain (name : string) : File :=
  file ("name: " ++ name ++ newline)
       (declaration (Some name) None None None None None).

(** A tool without its [title]. *)
Definition untitled_tool : Doc.Tool :=
  {| Doc.title := None; Doc.iconUrl := Some "/assets/jupyter.svg";
     Doc.start := Some ["/opt/domino/start-jupyter.sh"];
     Doc.supportedFileExtensions := None; Doc.httpProxy := None |}.

Definition broken_tool : File :=
  file ("name: second" ++ newline ++ "pluggableWorkspaceTools:" ++ newline
        ++ "  jupyter:" ++ newline ++ "    iconUrl: /assets/jupyter.svg" ++ newline
        ++ "    start: [/opt/domino/start-jupyter.sh]" ++ newline)
       (declaration (Some "second") None None None None (Some [("jupyter", untitled_tool)])).

Definition one (f : File) : FileSystem := directory templates [("team-env", f)].

Definition batch_of_three : FileSystem :=
  directory templates [("first", plain "first"); ("second", broken_tool); ("third", plain "third")].

(** The fingerprint of [restricted_base], and a platform on which the
    environment exists with that fingerprint among its active tags and no
    restriction. *)
Definition restricted_base_hash : string := SHA256.hexdigest (content restricted_base).

Definition base_unrestricted : Platform.t :=
  [{| Platform.id := "env-base-env"; Platform.name := "base-env"; Platform.revisions := 1;
      Platform.active_tags := [restricted_base_hash]; Platform.restricted := None |}].

Definition base_restricted : Platform.t :=
  [{| Platform.id := "env-base-env"; Platform.name := "base-env"; Platform.revisions := 1;
      Platform.active_tags := [restricted_base_hash];
      Platform.restricted := Some "env-base-env-r1" |}].

(** The environment registered, nothing built yet: no selected revision. *)
Definition base_without_revision : Platform.t :=
  [{| Platform.id := "env-base-env"; Platform.name := "base-env"; Platform.revisions := 0;
      Platform.active_tags := []; Platform.restricted := None |}].

(** The object of [base-env] once its remote id is known; [is_restricted] is
    true in it. *)
Definition base_object : EnvironmentConfig :=
  set_environment_id "env-base-env"
    (new_EnvironmentConfig (config_location templates "base-env")).

End Examples.

(** ** Start-up: [get_domino_host], [get_target_directory] and [main]

    The process environment is a record: the variables of [os.environ], the
    working directory, which [os.getcwd] gives as an absolute path, and the
    directories that exist.  The records that start-up logs are kept in a
    list of their own, before those of the batch.  [urlparse], [urlunparse]
    and the constructor of the client belong to libraries and are
    parameters. *)

Module Startup.

Record Process := {
  environ : string -> option string;
  getcwd : string;
  isdir : string -> bool }.

(** [os.getenv(key)] *)
Definition getenv (p : Process) (key : string) : option string := environ p key.

(** [key in os.environ] *)
Definition is_set (p : Process) (key : string) : bool :=
  match environ p key with Some _ => true | None => false end.

Inductive note :=
| UrlRequired                       (* "Please provide an environment variable DOMINO_URL ..." *)
| Connecting (host : string)        (* "Connecting to {host}" *)
| TemplatesNotFound                 (* "Could not find 'environment_templates' in current or parent directory. ..." *)
| TargetMissing (directory : string)    (* "Target directory does not exist: {target_directory}" *)
| TargetDirectory (directory : string)  (* "Target directory: {target_directory}" *)
| ProjectRequired                   (* "Please provide environment variables DOMINO_PROJECT_OWNER and DOMINO_PROJECT_NAME." *)
| CredentialsRequired.              (* "Please provide an environment variable DOMINO_API_KEY ..." *)

Inductive result (A : Type) :=
| Done (a : A)
| Exit (code : Z).
Arguments Done {A} a.
Arguments Exit {A} code.

(** A start-up step: the records it logs, and its value or [sys.exit]. *)
Definition S (A : Type) : Type := list (level * note) * result A.

Definition done {A : Type} (a : A) : S A := ([], Done a).

Definition exit {A : Type} (code : Z) : S A := ([], Exit code).

Definition note_ (l : level) (n : note) : S unit := ([(l, n)], Done tt).

Definition andthen {A B : Type} (m : S A) (k : A -> S B) : S B :=
  match m with
  | (notes, Done a) => let (more, r) := k a in ((notes ++ more)%list, r)
  | (notes, Exit code) => (notes, Exit code)
  end.

(** [s.endswith(suffix)] *)
Fixpoint endswith (s suffix : string) : bool :=
  (s =? suffix)%string
  || match s with
     | EmptyString => false
     | String _ r => endswith r suffix
     end.

(** [sub in s] *)
Fixpoint contains (s sub : string) : bool :=
  String.prefix sub s
  || match s with
     | EmptyString => false
     | String _ r => contains r sub
     end.

(** [Path(p).parent] for an absolute path as [os.getcwd] returns it: the
    path without its last component, the root being its own parent. *)
Fixpoint drop_component (reversed : list ascii) : list ascii :=
  match reversed with
  | [] => []
  | c :: r => if Ascii.eqb c "/"%char then reversed else drop_component r
  end.

Definition parent (p : string) : string :=
  match drop_component (rev (list_ascii_of_string p)) with
  | [] => "."
  | _ :: [] => "/"
  | _ :: r => string_of_list_ascii (rev r)
  end.

Record Connection := {
  project : string;
  api_key : option string;
  host : option string;
  auth_token : option string }.

Section Main.

(** [urlunparse(urlparse(url)._replace(scheme="https"))] *)
Variable with_https_scheme : string -> string.

Definition get_domino_host (p : Process) : S string :=
  match getenv p "DOMINO_URL" with
  | Some host =>
      if PyStr.truthy host then
        let parsed :=
          with_https_scheme
            (if contains host "://" then host else "https://" ++ host) in
        let host := if negb (endswith parsed "/") then parsed ++ "/" else parsed in
        andthen (note_ INFO (Connecting host)) (fun _ => done host)
      else andthen (note_ ERROR UrlRequired) (fun _ => exit 1)
  | None => andthen (note_ ERROR UrlRequired) (fun _ => exit 1)
  end.

Definition get_target_directory (p : Process) : S string :=
  let target_directory := getenv p "TARGET_DIRECTORY" in
  andthen
    (if negb (get_truthy PyStr.truthy target_directory) then
       let cwd_candidate := path_join (getcwd p) "environment_templates" in
       let parent_candidate := path_join (parent (getcwd p)) "environment_templates" in
       if isdir p cwd_candidate then done cwd_candidate
       else if isdir p parent_candidate then done parent_candidate
       else andthen (note_ ERROR TemplatesNotFound) (fun _ => exit 1)
     else
       let target_directory := get_or PyStr.truthy target_directory "" in
       if negb (endswith target_directory "/environment_templates") then
         if endswith target_directory "/"
         then done (path_join target_directory "environment_templates")
         else done (target_directory ++ "/environment_templates")
       else done target_directory)
    (fun target_directory =>
       if negb (isdir p target_directory) then
         andthen (note_ ERROR (TargetMissing target_directory)) (fun _ => exit 1)
       else
         andthen (note_ INFO (TargetDirectory target_directory))
                 (fun _ => done target_directory)).

(** [main] up to the call of [process_all_environments]: the connection that
    the client is built with, and the target directory. *)
Definition main_startup (p : Process) : S (Connection * string) :=
  andthen
    (if is_set p "DOMINO_PROJECT_OWNER" && is_set p "DOMINO_PROJECT_NAME" then
       done (match environ p "DOMINO_PROJECT_OWNER", environ p "DOMINO_PROJECT_NAME" with
             | Some owner, Some name => owner ++ "/" ++ name
             | _, _ => ""
             end)
     else andthen (note_ ERROR ProjectRequired) (fun _ => exit 1))
    (fun domino_project =>
       andthen
         (if get_truthy PyStr.truthy (getenv p "DOMINO_API_PROXY") then
            done {| project := domino_project; api_key := None; host := None;
                    auth_token := None |}
          else
            andthen (get_domino_host p) (fun host_ =>
              let api_key_ := getenv p "DOMINO_API_KEY" in
              let auth_token_ := getenv p "DOMINO_AUTH_TOKEN" in
              if negb (get_truthy PyStr.truthy api_key_)
                 && negb (get_truthy PyStr.truthy auth_token_) then
                andthen (note_ ERROR CredentialsRequired) (fun _ => exit 1)
              else
                done {| project := domino_project; api_key := api_key_;
                        host := Some host_; auth_token := auth_token_ |}))
         (fun connection =>
            andthen (get_target_directory p) (fun target_directory =>
              done (connection, target_directory)))).

Context {G : Type}.

(** [Domino(...)]: the client for a connection. *)
Variable connect : Connection -> Domino.client G.
Variable os : FileSystem.

Definition main (p : Process) (w : World G)
    : list (level * note) * (outcome unit * World G) :=
  match main_startup p with
  | (notes, Done (connection, target_directory)) =>
      (notes, process_all_environments (connect connection) os target_directory w)
  | (notes, Exit code) => (notes, (Raised (SystemExit code), w))
  end.

End Main.

End Startup.

(** A start-up step whose every exit has code 1. *)
Definition exits_with_1 {A : Type} (m : Startup.S A) : Prop :=
  forall notes code, m = (notes, Startup.Exit code) -> code = 1%Z.

(** ** More inputs for the examples *)

Module Cases.

(** An object whose declaration has been read: only the name matters. *)
Definition object_named (n : string) : EnvironmentConfig :=
  {| environment_config_location := config_location Examples.templates n;
     environment_id := "";
     dockerfile_instructions := "";
     environment_variables := [];
     base_image := "";
     post_run_script := "";
     post_setup_script := "";
     pre_run_script := "";
     pre_setup_script := "";
     skip_cache := false;
     summary := "";
     supported_clusters := [];
     tags := [];
     use_vpn := false;
     workspace_tools := [];
     add_base_dependencies := true;
     description := None;
     is_restricted := false;
     name := n;
     organization_owner_id := "";
     visibility := "Private";
     config_file_hash := "" |}.

(** Two remote environments with one name. *)
Definition twins : Platform.t :=
  [{| Platform.id := "env-other"; Platform.name := "other"; Platform.revisions := 1;
      Platform.active_tags := []; Platform.restricted := None |};
   {| Platform.id := "env-a"; Platform.name := "base-env"; Platform.revisions := 1;
      Platform.active_tags := []; Platform.restricted := None |};
   {| Platform.id := "env-b"; Platform.name := "base-env"; Platform.revisions := 2;
      Platform.active_tags := []; Platform.restricted := None |}].

(** A target directory whose sub-directories hold no [environment.yaml]. *)
Definition bare_directories : FileSystem :=
  {| files := fun _ => None;
     listdir := fun d => if (d =? Examples.templates)%string then ["docs"; "scratch"] else [] |}.

(** A declaration with an image and no name. *)
Definition nameless : File :=
  Examples.file "image: quay.io/domino/compute:latest"
    (Examples.declaration None None None None None None).

(** The environment of [base-env] as an older declaration left it: another
    fingerprint among its active tags. *)
Definition base_stale : Platform.t :=
  [{| Platform.id := "env-base-env"; Platform.name := "base-env"; Platform.revisions := 1;
      Platform.active_tags := ["0e5751c026e543b2e8ab2eb06099daa1d1e5df47778f7787faab45cdf12fe3a8"];
      Platform.restricted := None |}].

(** The target directory with [base-env] alone. *)
Definition base_only : FileSystem :=
  Examples.directory Examples.templates [("base-env", Examples.restricted_base)].

(** The working directory is the repository; its templates are there. *)
Definition in_repository (variables : list (string * string)) : Startup.Process :=
  {| Startup.environ := fun key =>
       option_map snd (find (fun kv => (fst kv =? key)%string) variables);
     Startup.getcwd := "/repo/scripts";
     Startup.isdir := fun d => (d =? Examples.templates)%string |}.



(** [pluggableWorkspaceTools:] with nothing under it. *)
Definition empty_tools_key : File :=
  Examples.file ("name: team-env" ++ Examples.newline ++ "pluggableWorkspaceTools:"
                 ++ Examples.newline)
    (Examples.document (Some "team-env") None None None None
       (Some (Yaml.NotMapping Yaml.Null))).

(** A tool whose [httpProxy] has a port and a key that [ProxyConfig] has no
    field for. *)
Definition tool_with_unknown_proxy_key : Doc.Tool :=
  {| Doc.title := Some "Jupyter"; Doc.iconUrl := Some "/assets/jupyter.svg";
     Doc.start := Some ["/opt/domino/start-jupyter.sh"];
     Doc.supportedFileExtensions := None;
     Doc.httpProxy :=
       Some (Yaml.Mapping
               {| Doc.port := Some 8888%Z; Doc.internalPath := None;
                  Doc.requireSubdomain := None; Doc.rewrite := None;
                  Doc.other_keys := ["timeout"] |}) |}.

Definition unknown_proxy_key : File :=
  Examples.file
    ("name: team-env" ++ Examples.newline ++ "pluggableWorkspaceTools:" ++ Examples.newline
     ++ "  jupyter:" ++ Examples.newline ++ "    title: Jupyter" ++ Examples.newline
     ++ "    iconUrl: /assets/jupyter.svg" ++ Examples.newline
     ++ "    start: [/opt/domino/start-jupyter.sh]" ++ Examples.newline
     ++ "    httpProxy: {port: 8888, timeout: 30}" ++ Examples.newline)
    (Examples.declaration (Some "team-env") None None None None
       (Some [("jupyter", tool_with_unknown_proxy_key)])).

(** A platform that cannot be reached: every method fails. *)
Definition unreachable : Domino.client unit :=
  {| Domino.environments_list g := (Domino.Fails "connection refused", g);
     Domino.create_environment _ g := (Domino.Fails "connection refused", g);
     Domino.get_environment _ g := (Domino.Fails "connection refused", g);
     Domino.create_environment_revision _ g := (Domino.Fails "connection refused", g);
     Domino.restrict_environment_revision _ _ g := (Domino.Fails "connection refused", g);
     Domino.archive_environment _ g := (Domino.Fails "connection refused", g) |}.

End Cases.

(** ** Shapes used to state what the loader returns *)

(** An [httpProxy] that [ProxyConfig] accepts: a mapping with [port] and
    with no key but the four of the dataclass. *)
Definition accepted_proxy (p : Yaml.mapping_or Doc.HttpProxy) : bool :=
  match p with
  | Yaml.Mapping p =>
      match Doc.port p, Doc.other_keys p with
      | Some _, [] => true
      | _, _ => false
      end
  | Yaml.NotMapping _ => false
  end.

(** A tool that [build_workspace_tools] can assemble: it is a mapping, its
    three required keys are there, and its [httpProxy], when it is truthy,
    is one that [ProxyConfig] accepts. *)
Definition complete (t : Yaml.mapping_or Doc.Tool) : bool :=
  match t with
  | Yaml.Mapping t =>
      match Doc.httpProxy t with
      | Some p => if truthy_proxy p then accepted_proxy p else true
      | None => true
      end
      && match Doc.title t, Doc.iconUrl t, Doc.start t with
         | Some _, Some _, Some _ => true
         | _, _, _ => false
         end
  | Yaml.NotMapping _ => false
  end.

(** The tools of a document, when [pluggableWorkspaceTools] is absent or a
    mapping. *)
Definition tools_of (d : Doc.t) : list (string * Yaml.mapping_or Doc.Tool) :=
  match Doc.pluggableWorkspaceTools d with
  | Some (Yaml.Mapping l) => l
  | _ => []
  end.

(** The tools that [build_workspace_tools] can assemble: the key is absent,
    or it holds a mapping of tools that are [complete]. *)
Definition assemblable (d : Doc.t) : bool :=
  match Doc.pluggableWorkspaceTools d with
  | None => true
  | Some (Yaml.Mapping l) => forallb (fun p => complete (snd p)) l
  | Some (Yaml.NotMapping _) => false
  end.

(** The visibility that the document declares, in title case. *)
Definition declared_visibility (d : Doc.t) : string :=
  match Doc.visibility d with
  | Some (Yaml.Str v) => if PyStr.truthy v then PyStr.title v else "Private"
  | _ => "Private"
  end.

(** The object after [parse_config_file]: the fields read from the document
    [d], the four that the later steps decide, and the three that are kept
    from the object as it was. *)
Definition loaded (d : Doc.t) (resolved : string) (clusters : list string)
    (tools : list WorkspaceToolDict) (digest : string) (self : EnvironmentConfig)
    : EnvironmentConfig :=
  {| environment_config_location := environment_config_location self;
     environment_id := environment_id self;
     dockerfile_instructions := get_or PyStr.truthy (Doc.dockerfileInstructions d) "";
     environment_variables := get_or truthy_list (Doc.environmentVariables d) [];
     base_image := get_or PyStr.truthy (Doc.image d) "";
     post_run_script := get_or PyStr.truthy (Doc.postRunScript d) "";
     post_setup_script := get_or PyStr.truthy (Doc.postSetupScript d) "";
     pre_run_script := get_or PyStr.truthy (Doc.preRunScript d) "";
     pre_setup_script := get_or PyStr.truthy (Doc.preSetupScript d) "";
     skip_cache := get_or (fun b : bool => b) (Doc.skipCache d) false;
     summary := get_or PyStr.truthy (Doc.summary d) "";
     supported_clusters := clusters;
     tags := get_or truthy_list (Doc.tags d) [] ++ [digest];
     use_vpn := get_or (fun b : bool => b) (Doc.useVpn d) false;
     workspace_tools := tools;
     add_base_dependencies := add_base_dependencies self;
     description :=
       Some (get_or truthy_description (Doc.description d) (DescriptionText ""));
     is_restricted := get_or (fun b : bool => b) (Doc.isRestricted d) false;
     name := get_or PyStr.truthy (Doc.name d) "";
     organization_owner_id :=
       Yaml.str (get_or Yaml.truthy (Doc.organizationOwnerId d) (Yaml.Str ""));
     visibility := resolved;
     config_file_hash := digest |}.

(** The world after some more log records. *)
Definition logged_more {G : Type} (w : World G) (more : list log_record) : World G :=
  {| remote := remote w; calls := calls w; logs := logs w ++ more |}.

(** ** Computations that stay within bounds

    [runs_within allowed post m]: whatever the world, [m] only adds to the
    calls and to the log, every call it adds is [allowed], and every value
    it returns satisfies [post]. *)

Definition runs_within {G A : Type} (allowed : Domino.call -> Prop) (post : A -> Prop)
    (m : M G A) : Prop :=
  forall w,
    (exists added logged,
       calls (snd (m w)) = (calls w ++ added)%list
       /\ logs (snd (m w)) = (logs w ++ logged)%list
       /\ Forall allowed added)
    /\ (forall a w', m w = (Value a, w') -> post a).

(** The calls of the reconciliation: every method of the client but
    [archive_environment]. *)
Definition is_archive (c : Domino.call) : bool :=
  match c with
  | Domino.ArchiveEnvironment _ => true
  | _ => false
  end.

(** ** Two properties of computations

    A computation [never_exits] when nothing it raises is a [SystemExit], and
    is [offline] when it neither calls the client nor changes the remote
    platform. *)

Definition never_exits {G A : Type} (m : M G A) : Prop :=
  forall w code w', m w <> (Raised (SystemExit code), w').

Definition offline {G A : Type} (m : M G A) : Prop :=
  forall w, remote (snd (m w)) = remote w /\ calls (snd (m w)) = calls w.


(** The digits that [hexdigest] prints: [0-9a-f]. *)
Definition lower_hex (c : ascii) : bool :=
  let n := nat_of_ascii c in
  ((48 <=? n)%nat && (n <=? 57)%nat) || ((97 <=? n)%nat && (n <=? 102)%nat).

Fixpoint all_lower_hex (s : string) : bool :=
  match s with
  | EmptyString => true
  | String c r => lower_hex c && all_lower_hex r
  end.

(** * Properties *)

(** ** SHA-256 on the test vectors of FIPS 180-4 *)

Example sha256_of_nothing :
  SHA256.hexdigest [] = "e3b0c44298fc1c149afbf4c8996fb92427ae41e4649b934ca495991b7852b855".
Proof. vm_compute. reflexivity. Qed.

Example sha256_constants :
  List.length SHA256.K = 64%nat /\ hd 0%N SHA256.K = 0x428a2f98%N
  /\ last SHA256.K 0%N = 0xc67178f2%N
  /\ List.length SHA256.H0 = 8%nat /\ hd 0%N SHA256.H0 = 0x6a09e667%N
  /\ last SHA256.H0 0%N = 0x5be0cd19%N.
Proof. vm_compute. repeat split. Qed.

Example sha256_of_abc :
  SHA256.hexdigest (list_byte_of_string "abc")
  = "ba7816bf8f01cfea414140de5dae2223b00361a396177a9cb410ff61f20015ad".
Proof. vm_compute. reflexivity. Qed.

(** ** Python strings *)

Example title_examples :
  PyStr.title "spark" = "Spark" /\ PyStr.title "RAY" = "Ray"
  /\ PyStr.title "oRGANISATION" = "Organisation"
  /\ PyStr.title "hello wORLD-foo 3d" = "Hello World-Foo 3D".
Proof. repeat split. Qed.

Lemma to_upper_not_lower : forall c, PyStr.is_lower (PyStr.to_upper c) = false.
Proof.
  intros c. unfold PyStr.to_upper.
  destruct (PyStr.is_lower c) eqn:E; [| exact E].
  unfold PyStr.is_lower in *.
  apply andb_true_iff in E. destruct E as [E1 E2].
  apply Nat.leb_le in E1. apply Nat.leb_le in E2.
  rewrite nat_ascii_embedding by lia.
  apply andb_false_iff. left. apply Nat.leb_gt. lia.
Qed.

(** No string in upper case has a lower-case letter in it. *)
Lemma upper_head_not_lower : forall s c r,
  PyStr.upper s = String c r -> PyStr.is_lower c = false.
Proof.
  intros [| a s] c r H; simpl in H; [discriminate |].
  inversion H; subst. apply to_upper_not_lower.
Qed.

(** The comparison of [get_environment_visibility] with the British spelling
    never succeeds: its left side is in upper case, its right side is not. *)
Lemma upper_never_Organisation : forall s,
  (PyStr.upper s =? "Organisation")%string = false.
Proof.
  intros s. apply String.eqb_neq. intros H.
  destruct s as [| a [| b s]]; simpl in H; try discriminate.
  inversion H as [[Ha Hb Hs]].
  pose proof (to_upper_not_lower b) as Hl. rewrite Hb in Hl. discriminate.
Qed.

(** ** The regular expression *)

Lemma repeat_class_all_hex : forall n s,
  String.length s = n -> all_hex s = true -> OwnerIdRegex.repeat_class n s = Some EmptyString.
Proof.
  induction n as [| n IH]; intros [| c r] Hlen Hhex; simpl in *; try discriminate; auto.
  apply andb_true_iff in Hhex. destruct Hhex as [Hc Hr].
  rewrite Hc. apply IH; [lia | exact Hr].
Qed.



Example search_examples :
  OwnerIdRegex.search "5f1e2d3c4b5a69788796A5B4" = true
  /\ OwnerIdRegex.search "not-hex" = false
  /\ OwnerIdRegex.search "5f1e2d3c4b5a69788796A5B4ff" = false
  /\ OwnerIdRegex.search "" = false.
Proof. repeat split. Qed.

(** ** Lists *)

Lemma filter_nothing_dropped {A : Type} (p : A -> bool) : forall l,
  filter (fun x => negb (p x)) l = [] -> filter p l = l.
Proof.
  induction l as [| a l IH]; simpl; intros H; [reflexivity |].
  destruct (p a); simpl in H; [f_equal; auto | discriminate].
Qed.

Lemma count_occ_filter (p : string -> bool) (c : string) : forall l,
  count_occ string_dec (filter p l) c = if p c then count_occ string_dec l c else 0.
Proof.
  induction l as [| a l IH]; simpl; [destruct (p c); reflexivity |].
  destruct (p a) eqn:Ea; simpl; destruct (string_dec a c) as [-> | Hne]; rewrite IH.
  - rewrite Ea. reflexivity.
  - reflexivity.
  - rewrite Ea. reflexivity.
  - reflexivity.
Qed.

(** ** The loader *)

Section Loader.

Context {G : Type}.
Variable os : FileSystem.

Lemma load_config_mapping : forall location f d (w : World G),
  files os location = Some f -> safe_load f = YamlMapping d ->
  load_config os location w = (Value d, w).
Proof. intros * Hf Hy. unfold load_config. rewrite Hf, Hy. reflexivity. Qed.

End Loader.

(** C5: cluster resolution title-cases every entry of [supportedClusters],
    keeps, in the declared order and as many times as declared, the entries
    that are among Spark, Ray, Dask and Mpi, drops the others and names them
    in one warning; [spark, bogus, RAY] resolves to [Spark, Ray]. *)
Theorem C5_cluster_resolution :
  forall (G : Type) (os : FileSystem) (self : EnvironmentConfig) (w : World G)
         (f : File) (d : Doc.t),
    files os (environment_config_location self) = Some f ->
    safe_load f = YamlMapping d ->
    let titled := map PyStr.title (get_or truthy_list (Doc.supportedClusters d) []) in
    let kept := filter (fun sc => PyStr.mem sc possible_cluster_types) titled in
    let dropped := filter (fun sc => negb (PyStr.mem sc possible_cluster_types)) titled in
    get_supported_clusters os self w
    = (Value (set_supported_clusters kept self),
       {| remote := remote w; calls := calls w;
          logs := logs w ++ (if truthy_list dropped
                             then [(WARNING, InvalidClusterTypes dropped)] else []) |})
    /\ (forall c, count_occ string_dec kept c
                  = if PyStr.mem c possible_cluster_types
                    then count_occ string_dec titled c else 0)
    /\ (Doc.supportedClusters d = Some ["spark"; "bogus"; "RAY"] ->
        kept = ["Spark"; "Ray"] /\ dropped = ["Bogus"]).
Proof.
  intros G os self w f d Hf Hy titled kept dropped.
  split; [| split].
  - unfold get_supported_clusters, bind.
    rewrite (load_config_mapping os _ f d w Hf Hy).
    cbn [supported_clusters set_supported_clusters].
    fold titled. fold dropped. fold kept.
    destruct titled as [| t ts] eqn:Et.
    + simpl. destruct w; simpl. rewrite app_nil_r. reflexivity.
    + cbn [truthy_list]. destruct dropped as [| x xs] eqn:Ed.
      * simpl. unfold kept. rewrite (filter_nothing_dropped _ _ Ed).
        destruct w; simpl. rewrite app_nil_r. reflexivity.
      * reflexivity.
  - intros c. apply count_occ_filter.
  - intros Hd. unfold kept, dropped, titled. rewrite Hd. split; reflexivity.
Qed.

(** The declaration [supportedClusters: [spark, bogus, RAY]], loaded. *)
Lemma C5_cluster_resolution_witness :
  get_supported_clusters (Examples.one Examples.three_clusters)
    (new_EnvironmentConfig (config_location Examples.templates "team-env"))
    (Platform.start [])
  = (Value (set_supported_clusters ["Spark"; "Ray"]
              (new_EnvironmentConfig (config_location Examples.templates "team-env"))),
     {| remote := []; calls := []; logs := [(WARNING, InvalidClusterTypes ["Bogus"])] |}).
Proof.
  exact (proj1 (C5_cluster_resolution Platform.t (Examples.one Examples.three_clusters)
                  (new_EnvironmentConfig (config_location Examples.templates "team-env"))
                  (Platform.start []) Examples.three_clusters
                  (Examples.declaration (Some "team-env") None None
                     (Some ["spark"; "bogus"; "RAY"]) None None)
                  eq_refl eq_refl)).
Defined.

(** *** The steps of [parse_config_file] after the visibility leave it alone *)

Section VisibilityKept.

Context {G : Type}.
Variable os : FileSystem.





(** The first statement of [get_environment_visibility] after the load: the
    title of a string, Private for a value that is falsy, and an
    [AttributeError] for any other value. *)
Lemma declared_visibility_runs : forall d (w : World G),
  Yaml.str_if_truthy (Doc.visibility d) = true ->
  match Doc.visibility d with
  | Some v => if Yaml.truthy v then title_of v else ret "Private"
  | None => ret "Private"
  end w = (Value (declared_visibility d), w).
Proof.
  intros d w. unfold declared_visibility, Yaml.str_if_truthy.
  destruct (Doc.visibility d) as [[| s | n | b | t x truth] |]; cbn;
    try reflexivity; try discriminate.
  - destruct (PyStr.truthy s); reflexivity.
  - destruct (n =? 0)%Z; [reflexivity | discriminate].
  - destruct b; [discriminate | reflexivity].
  - destruct truth; [discriminate | reflexivity].
Qed.

Lemma declared_visibility_raises : forall d,
  Yaml.str_if_truthy (Doc.visibility d) = false ->
  exists msg, forall w : World G,
    match Doc.visibility d with
    | Some v => if Yaml.truthy v then title_of v else ret "Private"
    | None => ret "Private"
    end w = (Raised (Exception (AttributeError msg)), w).
Proof.
  intros d. unfold Yaml.str_if_truthy.
  destruct (Doc.visibility d) as [[| s | n | b | t x truth] |]; cbn;
    try discriminate.
  - destruct (n =? 0)%Z; [discriminate | intros _; eexists; intros w; reflexivity].
  - destruct b; [intros _; eexists; intros w; reflexivity | discriminate].
  - destruct truth; [intros _; eexists; intros w; reflexivity | discriminate].
Qed.

(** An owner id that is truthy and not a string: the expression raises. *)
Lemma re_search_raises : forall d,
  Yaml.str_if_truthy (Doc.organizationOwnerId d) = false ->
  get_truthy Yaml.truthy (Doc.organizationOwnerId d) = true
  /\ exists msg, forall w : World G,
       re_search (get_or Yaml.truthy (Doc.organizationOwnerId d) (Yaml.Str "")) w
       = (Raised (Exception (TypeError msg)), w).
Proof.
  intros d. unfold Yaml.str_if_truthy.
  destruct (Doc.organizationOwnerId d) as [[| s | n | b | t x truth] |];
    cbn [get_truthy get_or Yaml.truthy]; try discriminate.
  - destruct (n =? 0)%Z; [discriminate |]. intros _. split; [reflexivity |].
    eexists. intros w. reflexivity.
  - destruct b; [| discriminate]. intros _. split; [reflexivity |].
    eexists. intros w. reflexivity.
  - destruct truth; [| discriminate]. intros _. split; [reflexivity |].
    eexists. intros w. reflexivity.
Qed.

(** An owner id that is given and is a string. *)
Lemma owner_given_string : forall d,
  Yaml.str_if_truthy (Doc.organizationOwnerId d) = true ->
  get_truthy Yaml.truthy (Doc.organizationOwnerId d) = true ->
  exists owner,
    get_or Yaml.truthy (Doc.organizationOwnerId d) (Yaml.Str "") = Yaml.Str owner.
Proof.
  intros d. unfold Yaml.str_if_truthy.
  destruct (Doc.organizationOwnerId d) as [[| s | n | b | t x truth] |];
    cbn [get_truthy get_or Yaml.truthy]; try discriminate.
  - intros _ Ht. rewrite Ht. exists s. reflexivity.
  - destruct (n =? 0)%Z; discriminate.
  - destruct b; discriminate.
  - destruct truth; discriminate.
Qed.


End VisibilityKept.




(** ** The content fingerprint *)

Lemma chunk_size_positive : 0 < chunk_size.
Proof. apply Nat.ltb_lt. vm_compute. reflexivity. Qed.

Lemma firstn_nil_inv {A : Type} : forall n (l : list A), 0 < n -> firstn n l = [] -> l = [].
Proof. intros [| n] [| a l] Hn H; simpl in *; try reflexivity; try lia; discriminate. Qed.

(** The fuel of [reads] is enough: the chunks, put end to end, are the file. *)
Lemma reads_from_concat : forall fuel rest,
  List.length rest <= fuel -> List.concat (reads_from fuel rest) = rest.
Proof.
  induction fuel as [| fuel IH]; intros rest Hlen.
  - destruct rest; [reflexivity | simpl in Hlen; lia].
  - cbn [reads_from].
    destruct (firstn chunk_size rest) as [| b chunk] eqn:E.
    + symmetry. apply (firstn_nil_inv chunk_size rest chunk_size_positive E).
    + cbn [List.concat]. rewrite IH.
      * rewrite <- E. apply firstn_skipn.
      * rewrite length_skipn. pose proof chunk_size_positive.
        destruct rest; [rewrite firstn_nil in E; discriminate | simpl in *; lia].
Qed.

Lemma reads_concat : forall bytes, List.concat (reads bytes) = bytes.
Proof. intros bytes. apply reads_from_concat. lia. Qed.

(** No chunk is empty and none is longer than [chunk_size]. *)
Lemma reads_from_bounds : forall fuel rest chunk,
  In chunk (reads_from fuel rest) -> 0 < List.length chunk <= chunk_size.
Proof.
  induction fuel as [| fuel IH]; intros rest chunk Hin; [destruct Hin |].
  cbn [reads_from] in Hin.
  destruct (firstn chunk_size rest) as [| b c] eqn:E; [destruct Hin |].
  destruct Hin as [<- | Hin]; [| eapply IH; exact Hin].
  rewrite <- E. rewrite length_firstn.
  assert (0 < List.length (firstn chunk_size rest)) by (rewrite E; simpl; lia).
  rewrite length_firstn in H. lia.
Qed.

(** [update] chunk after chunk feeds the hash object the concatenation. *)
Lemma fold_update_fed : forall chunks h,
  Hashlib.fed (fold_left Hashlib.update chunks h) = (Hashlib.fed h ++ List.concat chunks)%list.
Proof.
  induction chunks as [| c chunks IH]; intros h; simpl.
  - rewrite app_nil_r. reflexivity.
  - rewrite IH. simpl. rewrite app_assoc. reflexivity.
Qed.

Lemma streamed_digest : forall bytes,
  Hashlib.hexdigest (fold_left Hashlib.update (reads bytes) Hashlib.new)
  = SHA256.hexdigest bytes.
Proof.
  intros bytes. unfold Hashlib.hexdigest.
  rewrite fold_update_fed, reads_concat. reflexivity.
Qed.

(** C6: the fingerprint is a function of the bytes of the document alone.
    [compute_config_file_hash] returns, and for two files with the same
    bytes, at any two paths, in any two worlds, it stores the same digest,
    the SHA-256 of those bytes in hexadecimal. *)
Theorem C6_fingerprint_deterministic :
  forall (G1 G2 : Type) (os1 os2 : FileSystem) (self1 self2 : EnvironmentConfig)
         (w1 : World G1) (w2 : World G2) (f1 f2 : File),
    files os1 (environment_config_location self1) = Some f1 ->
    files os2 (environment_config_location self2) = Some f2 ->
    content f1 = content f2 ->
    exists digest : string,
      digest = SHA256.hexdigest (content f1)
      /\ compute_config_file_hash os1 self1 w1
         = (Value (set_config_file_hash digest self1), w1)
      /\ compute_config_file_hash os2 self2 w2
         = (Value (set_config_file_hash digest self2), w2).
Proof.
  intros G1 G2 os1 os2 self1 self2 w1 w2 f1 f2 H1 H2 Hsame.
  exists (SHA256.hexdigest (content f1)). split; [reflexivity |].
  unfold compute_config_file_hash. rewrite H1, H2.
  rewrite !streamed_digest. rewrite Hsame. split; reflexivity.
Qed.

(** Two copies of one document under two directory names. *)
Lemma C6_fingerprint_deterministic_witness :
  exists digest : string,
    digest = SHA256.hexdigest (content Examples.restricted_base)
    /\ compute_config_file_hash
         (Examples.directory Examples.templates
            [("base-env", Examples.restricted_base); ("copy", Examples.restricted_base)])
         (new_EnvironmentConfig (config_location Examples.templates "base-env"))
         (Platform.start [])
       = (Value (set_config_file_hash digest
                   (new_EnvironmentConfig (config_location Examples.templates "base-env"))),
          Platform.start [])
    /\ compute_config_file_hash
         (Examples.directory Examples.templates
            [("base-env", Examples.restricted_base); ("copy", Examples.restricted_base)])
         (new_EnvironmentConfig (config_location Examples.templates "copy"))
         (Platform.start Examples.base_restricted)
       = (Value (set_config_file_hash digest
                   (new_EnvironmentConfig (config_location Examples.templates "copy"))),
          Platform.start Examples.base_restricted).
Proof.
  exact (C6_fingerprint_deterministic Platform.t Platform.t
           (Examples.directory Examples.templates
              [("base-env", Examples.restricted_base); ("copy", Examples.restricted_base)])
           (Examples.directory Examples.templates
              [("base-env", Examples.restricted_base); ("copy", Examples.restricted_base)])
           (new_EnvironmentConfig (config_location Examples.templates "base-env"))
           (new_EnvironmentConfig (config_location Examples.templates "copy"))
           (Platform.start []) (Platform.start Examples.base_restricted)
           Examples.restricted_base Examples.restricted_base
           eq_refl eq_refl eq_refl).
Defined.

(** ** Restriction enforcement *)

Section Restriction.

Context {G : Type}.
Variable domino : Domino.client G.

(** The calls that one run of [restrict_environment_revision] adds, read off
    the answer of [get_environment]. *)
Lemma restrict_environment_revision_run : forall self (w : World G),
  exists w',
    snd (restrict_environment_revision domino self w) = w'
    /\ calls w' =
       (calls w ++ Domino.GetEnvironment (environment_id self) ::
        match Domino.get_environment domino (environment_id self) (remote w) with
        | (Domino.Returns e, _) =>
            match Domino.selectedRevision e with
            | Some selected =>
                if negb (get_truthy PyStr.truthy (Domino.restrictedRevision e))
                   && Bool.eqb (is_restricted self) true
                then [Domino.RestrictEnvironmentRevision (environment_id self)
                        (Domino.revision_id selected)]
                else []
            | None => []
            end
        | (Domino.Fails _, _) => []
        end)%list.
Proof.
  intros self w. eexists. split; [reflexivity |].
  unfold restrict_environment_revision, bind, invoke.
  destruct (Domino.get_environment domino (environment_id self) (remote w))
    as [[e | msg] g1]; [| reflexivity].
  destruct (Domino.selectedRevision e) as [selected |]; [| reflexivity].
  cbn [log fst snd calls remote logs].
  destruct (negb (get_truthy PyStr.truthy (Domino.restrictedRevision e))
            && Bool.eqb (is_restricted self) true); [| reflexivity].
  cbn [log fst snd calls remote logs].
  destruct (Domino.restrict_environment_revision domino (environment_id self)
              (Domino.revision_id selected) g1) as [[u | msg] g2];
    cbn; rewrite <- app_assoc; reflexivity.
Qed.

(** With a marker in the answer, a run returns after the one read. *)
Lemma restrict_environment_revision_marked : forall self (w : World G) e g',
  Domino.get_environment domino (environment_id self) (remote w) = (Domino.Returns e, g') ->
  get_truthy PyStr.truthy (Domino.restrictedRevision e) = true ->
  exists logged,
    restrict_environment_revision domino self w
    = (Value tt,
       {| remote := g';
          calls := calls w ++ [Domino.GetEnvironment (environment_id self)];
          logs := logs w ++ logged |}).
Proof.
  intros self w e g' Hget Hmark.
  unfold restrict_environment_revision, bind, invoke. rewrite Hget, Hmark.
  destruct (Domino.selectedRevision e) as [selected |].
  - eexists. cbn. reflexivity.
  - exists []. cbn. rewrite app_nil_r. reflexivity.
Qed.

End Restriction.

(** C10: when the remote environment has no selected revision, restriction
    enforcement reads the environment and returns: no restrict call, no
    exception and no log record, whatever [is_restricted] and the marker
    are. *)
Theorem C10_no_selected_revision_no_restriction :
  forall (G : Type) (domino : Domino.client G) (self : EnvironmentConfig) (w : World G)
         (e : Domino.Environment) (g' : G),
    Domino.get_environment domino (environment_id self) (remote w) = (Domino.Returns e, g') ->
    Domino.selectedRevision e = None ->
    restrict_environment_revision domino self w
    = (Value tt,
       {| remote := g';
          calls := calls w ++ [Domino.GetEnvironment (environment_id self)];
          logs := logs w |}).
Proof.
  intros G domino self w e g' Hget Hsel.
  unfold restrict_environment_revision, bind, invoke.
  rewrite Hget, Hsel. reflexivity.
Qed.

(** An environment that is registered and has no revision yet. *)
Lemma C10_no_selected_revision_no_restriction_witness :
  is_restricted Examples.base_object = true
  /\ restrict_environment_revision Platform.client Examples.base_object
       (Platform.start Examples.base_without_revision)
     = (Value tt,
        {| remote := Examples.base_without_revision;
           calls := [Domino.GetEnvironment "env-base-env"];
           logs := [] |}).
Proof.
  split; [reflexivity |].
  exact (C10_no_selected_revision_no_restriction Platform.t Platform.client
           Examples.base_object (Platform.start Examples.base_without_revision)
           (Platform.describe
              {| Platform.id := "env-base-env"; Platform.name := "base-env";
                 Platform.revisions := 0; Platform.active_tags := [];
                 Platform.restricted := None |})
           Examples.base_without_revision eq_refl eq_refl).
Defined.

(** C8: restriction is one-way.  On a platform where the environment carries
    a restriction marker, and keeps it when it is read, any number of runs of
    the restriction enforcement return and call nothing but
    [get_environment]; and in any run at all, a restrict call is made only
    after an answer with no marker and a selected revision, for an object
    whose [is_restricted] is true, and it names that revision. *)
Theorem C8_restriction_one_way :
  forall (G : Type) (domino : Domino.client G) (self : EnvironmentConfig)
         (Marked : G -> Prop),
    (forall g, Marked g ->
       exists e g',
         Domino.get_environment domino (environment_id self) g = (Domino.Returns e, g')
         /\ get_truthy PyStr.truthy (Domino.restrictedRevision e) = true
         /\ Marked g') ->
    (forall (n : nat) (w : World G),
       Marked (remote w) ->
       exists w',
         times n (restrict_environment_revision domino self) w = (Value tt, w')
         /\ Marked (remote w')
         /\ calls w' = (calls w ++ repeat (Domino.GetEnvironment (environment_id self)) n)%list
         /\ filter is_restrict (repeat (Domino.GetEnvironment (environment_id self)) n) = [])
    /\ (forall w : World G,
          exists added,
            calls (snd (restrict_environment_revision domino self w)) = (calls w ++ added)%list
            /\ forall c, In c added -> is_restrict c = true ->
                 exists e g' selected,
                   Domino.get_environment domino (environment_id self) (remote w)
                   = (Domino.Returns e, g')
                   /\ get_truthy PyStr.truthy (Domino.restrictedRevision e) = false
                   /\ is_restricted self = true
                   /\ Domino.selectedRevision e = Some selected
                   /\ c = Domino.RestrictEnvironmentRevision (environment_id self)
                            (Domino.revision_id selected)).
Proof.
  intros G domino self Marked Hkeep. split.
  - induction n as [| n IH]; intros w Hw.
    + exists w. cbn. rewrite app_nil_r. auto.
    + destruct (Hkeep _ Hw) as (e & g' & Hget & Hmark & Hg').
      destruct (restrict_environment_revision_marked domino self w e g' Hget Hmark)
        as [logged Hrun].
      cbn [times]. unfold bind. rewrite Hrun.
      match goal with |- context [times n _ ?w1] =>
        destruct (IH w1 Hg') as (w' & Hn & Hm & Hc & Hf) end.
      exists w'. rewrite Hn. cbn [calls] in Hc. rewrite Hc, <- app_assoc.
      repeat split; auto.
  - intros w.
    destruct (restrict_environment_revision_run domino self w) as (w' & Hsnd & Hcalls).
    rewrite Hsnd. eexists. split; [exact Hcalls |].
    intros c Hin Hc.
    destruct Hin as [<- | Hin]; [discriminate |].
    destruct (Domino.get_environment domino (environment_id self) (remote w))
      as [[e | msg] g']; [| destruct Hin].
    destruct (Domino.selectedRevision e) as [selected |] eqn:Hsel; [| destruct Hin].
    destruct (negb (get_truthy PyStr.truthy (Domino.restrictedRevision e))
              && Bool.eqb (is_restricted self) true) eqn:Hcond; [| destruct Hin].
    destruct Hin as [<- | []].
    apply andb_true_iff in Hcond. destruct Hcond as [Hno Hres].
    apply negb_true_iff in Hno. apply eqb_prop in Hres.
    exists e, g', selected. repeat split; auto.
Qed.

(** Three runs on an environment that is restricted already. *)
Lemma C8_restriction_one_way_witness :
  exists w',
    times 3 (restrict_environment_revision Platform.client Examples.base_object)
      (Platform.start Examples.base_restricted) = (Value tt, w')
    /\ remote w' = Examples.base_restricted
    /\ calls w' = repeat (Domino.GetEnvironment "env-base-env") 3
    /\ filter is_restrict (repeat (Domino.GetEnvironment "env-base-env") 3) = [].
Proof.
  refine (proj1 (C8_restriction_one_way Platform.t Platform.client Examples.base_object
                   (fun g => g = Examples.base_restricted) _)
                3 (Platform.start Examples.base_restricted) eq_refl).
  intros g Hg. rewrite Hg.
  eexists. eexists. split; [reflexivity | split; reflexivity].
Defined.

(** ** What a computation can raise, and what it can reach *)

Section Combinators.

Context {G : Type}.

Lemma never_exits_ret {A : Type} (a : A) : never_exits (@ret G A a).
Proof. intros w code w' H. discriminate. Qed.

Lemma never_exits_raise {A : Type} (e : py_exception) : never_exits (@raise G A e).
Proof. intros w code w' H. discriminate. Qed.

Lemma never_exits_log (l : level) (m : message) : never_exits (@log G l m).
Proof. intros w code w' H. discriminate. Qed.

Lemma never_exits_invoke {A : Type} (c : Domino.call) (method : G -> Domino.response A * G) :
  never_exits (invoke c method).
Proof.
  intros w code w'. unfold invoke.
  destruct (method (remote w)) as [[a | msg] g]; discriminate.
Qed.

Lemma never_exits_bind {A B : Type} (m : M G A) (k : A -> M G B) :
  never_exits m -> (forall a, never_exits (k a)) -> never_exits (bind m k).
Proof.
  intros Hm Hk w code w'. unfold bind.
  destruct (m w) as [[a | r] w1] eqn:E.
  - apply Hk.
  - intros H. inversion H; subst. exact (Hm _ _ _ E).
Qed.

Lemma offline_ret {A : Type} (a : A) : offline (@ret G A a).
Proof. intros w. split; reflexivity. Qed.

Lemma offline_raise {A : Type} (e : py_exception) : offline (@raise G A e).
Proof. intros w. split; reflexivity. Qed.

Lemma offline_log (l : level) (m : message) : offline (@log G l m).
Proof. intros w. split; reflexivity. Qed.

Lemma offline_bind {A B : Type} (m : M G A) (k : A -> M G B) :
  offline m -> (forall a, offline (k a)) -> offline (bind m k).
Proof.
  intros Hm Hk w. unfold bind. specialize (Hm w).
  destruct (m w) as [[a | r] w1]; cbn [snd] in *.
  - destruct (Hk a w1) as [H1 H2]. destruct Hm as [H3 H4]. split; congruence.
  - exact Hm.
Qed.

End Combinators.

Create HintDb never_exits.
Create HintDb offline.

#[local] Hint Resolve never_exits_ret never_exits_raise never_exits_log
  never_exits_invoke : never_exits.
#[local] Hint Resolve offline_ret offline_raise offline_log : offline.

(** Goes through a method statement by statement. *)
Ltac through_never_exits :=
  cbv zeta;
  repeat first
    [ solve [auto with never_exits]
    | apply never_exits_bind; [| intros ?]
    | match goal with
      | |- never_exits (if ?b then _ else _) => destruct b
      | |- never_exits (match ?x with _ => _ end) => destruct x
      end ].

Ltac through_offline :=
  cbv zeta;
  repeat first
    [ solve [auto with offline]
    | apply offline_bind; [| intros ?]
    | match goal with
      | |- offline (if ?b then _ else _) => destruct b
      | |- offline (match ?x with _ => _ end) => destruct x
      end ].

Section Reach.

Context {G : Type}.
Variable domino : Domino.client G.
Variable os : FileSystem.

Lemma never_exits_load_config : forall location, never_exits (@load_config G os location).
Proof. intros location. unfold load_config. through_never_exits. Qed.

Lemma offline_load_config : forall location, offline (@load_config G os location).
Proof. intros location. unfold load_config. through_offline. Qed.

Hint Resolve never_exits_load_config : never_exits.
Hint Resolve offline_load_config : offline.

Lemma never_exits_get_environment_visibility : forall self,
  never_exits (@get_environment_visibility G os self).
Proof.
  intros self. unfold get_environment_visibility, title_of, re_search.
  through_never_exits.
Qed.

Lemma offline_get_environment_visibility : forall self,
  offline (@get_environment_visibility G os self).
Proof.
  intros self. unfold get_environment_visibility, title_of, re_search.
  through_offline.
Qed.

Lemma never_exits_get_supported_clusters : forall self,
  never_exits (@get_supported_clusters G os self).
Proof. intros self. unfold get_supported_clusters. through_never_exits. Qed.

Lemma offline_get_supported_clusters : forall self,
  offline (@get_supported_clusters G os self).
Proof. intros self. unfold get_supported_clusters. through_offline. Qed.

Lemma never_exits_build_workspace_tool : forall tool_name pwt_config,
  never_exits (@build_workspace_tool G tool_name pwt_config).
Proof.
  intros tool_name pwt_config.
  unfold build_workspace_tool, make_ProxyConfig, subscript, as_mapping.
  through_never_exits.
Qed.

Lemma offline_build_workspace_tool : forall tool_name pwt_config,
  offline (@build_workspace_tool G tool_name pwt_config).
Proof.
  intros tool_name pwt_config.
  unfold build_workspace_tool, make_ProxyConfig, subscript, as_mapping.
  through_offline.
Qed.

Hint Resolve never_exits_build_workspace_tool : never_exits.
Hint Resolve offline_build_workspace_tool : offline.

Lemma never_exits_build_each : forall pwts self, never_exits (@build_each G pwts self).
Proof.
  induction pwts as [| [tool_name pwt_config] rest IH]; intros self; cbn [build_each].
  - through_never_exits.
  - apply never_exits_bind; [auto with never_exits | intros d; apply IH].
Qed.

Lemma offline_build_each : forall pwts self, offline (@build_each G pwts self).
Proof.
  induction pwts as [| [tool_name pwt_config] rest IH]; intros self; cbn [build_each].
  - through_offline.
  - apply offline_bind; [auto with offline | intros d; apply IH].
Qed.

Hint Resolve never_exits_build_each : never_exits.
Hint Resolve offline_build_each : offline.

Lemma never_exits_build_workspace_tools : forall self,
  never_exits (@build_workspace_tools G os self).
Proof. intros self. unfold build_workspace_tools, as_mapping. through_never_exits. Qed.

Lemma offline_build_workspace_tools : forall self,
  offline (@build_workspace_tools G os self).
Proof. intros self. unfold build_workspace_tools, as_mapping. through_offline. Qed.

Lemma never_exits_compute_config_file_hash : forall self,
  never_exits (@compute_config_file_hash G os self).
Proof. intros self. unfold compute_config_file_hash. through_never_exits. Qed.

Lemma offline_compute_config_file_hash : forall self,
  offline (@compute_config_file_hash G os self).
Proof. intros self. unfold compute_config_file_hash. through_offline. Qed.

Hint Resolve never_exits_get_environment_visibility never_exits_get_supported_clusters
  never_exits_build_workspace_tools never_exits_compute_config_file_hash : never_exits.
Hint Resolve offline_get_environment_visibility offline_get_supported_clusters
  offline_build_workspace_tools offline_compute_config_file_hash : offline.

Lemma never_exits_parse_config_file : forall self, never_exits (@parse_config_file G os self).
Proof. intros self. unfold parse_config_file. through_never_exits. Qed.

(** The loader reads the file and logs; it does not reach the platform. *)
Lemma offline_parse_config_file : forall self, offline (@parse_config_file G os self).
Proof. intros self. unfold parse_config_file. through_offline. Qed.

Hint Resolve never_exits_parse_config_file : never_exits.

Lemma never_exits_check_environment_exists : forall self,
  never_exits (check_environment_exists domino self).
Proof. intros self. unfold check_environment_exists. through_never_exits. Qed.

Hint Resolve never_exits_check_environment_exists : never_exits.

Lemma never_exits_create_environment : forall self,
  never_exits (create_environment domino os self).
Proof. intros self. unfold create_environment. through_never_exits. Qed.

Hint Resolve never_exits_create_environment : never_exits.

Lemma never_exits_create_environment_if_not_exist : forall self,
  never_exits (create_environment_if_not_exist domino os self).
Proof. intros self. unfold create_environment_if_not_exist. through_never_exits. Qed.

Lemma never_exits_restrict_environment_revision : forall self,
  never_exits (restrict_environment_revision domino self).
Proof. intros self. unfold restrict_environment_revision. through_never_exits. Qed.

Hint Resolve never_exits_create_environment_if_not_exist
  never_exits_restrict_environment_revision : never_exits.

Lemma never_exits_create_environment_revision : forall self,
  never_exits (create_environment_revision domino self).
Proof.
  intros self. unfold create_environment_revision, get_latest_revision.
  through_never_exits.
Qed.

Hint Resolve never_exits_create_environment_revision : never_exits.

(** Whatever the body of the [try] raises, [except Exception] catches. *)
Lemma never_exits_reconcile : forall location, never_exits (reconcile domino os location).
Proof. intros location. unfold reconcile. through_never_exits. Qed.

End Reach.

(** ** The batch *)

Section Batch.

Context {G : Type}.
Variable domino : Domino.client G.
Variable os : FileSystem.

(** [process_single_environment] returns, whatever happens inside. *)
Lemma process_single_environment_returns : forall environment target (w : World G),
  exists w', process_single_environment domino os environment target w = (Value tt, w').
Proof.
  intros environment target w. unfold process_single_environment.
  destruct (files os (config_location target environment)) as [f |].
  - unfold try_except_Exception.
    destruct (reconcile domino os (config_location target environment) w)
      as [[[] | [e | code]] w1] eqn:E.
    + eexists. reflexivity.
    + eexists. reflexivity.
    + exfalso. exact (never_exits_reconcile domino os _ _ _ _ E).
  - eexists. reflexivity.
Qed.

(** A loop whose body always returns runs the body on every element. *)
Lemma for_each_returns {A : Type} (body : A -> M G unit) :
  (forall x w, exists w', body x w = (Value tt, w')) ->
  forall xs w,
    for_each xs body w = (Value tt, fold_left (fun w0 x => snd (body x w0)) xs w).
Proof.
  intros Hbody. induction xs as [| x xs IH]; intros w; [reflexivity |].
  cbn [for_each fold_left]. unfold bind.
  destruct (Hbody x w) as [w' Hx]. rewrite Hx. cbn [snd]. apply IH.
Qed.

End Batch.

(** C9: failures are isolated per environment.  [process_single_environment]
    always returns: an exception raised while the environment is reconciled
    is caught there and logged as an error with the name of the environment.
    So, when the listing of the target directory is not empty,
    [process_all_environments] processes every entry of the listing, in
    order, each from the world the one before it left, and then exits with
    code 0. *)
Theorem C9_failure_isolation :
  forall (G : Type) (domino : Domino.client G) (os : FileSystem) (target : string)
         (w : World G),
    listdir os target <> [] ->
    (forall environment (w0 : World G),
       exists w1,
         process_single_environment domino os environment target w0 = (Value tt, w1)
         /\ forall e w',
              files os (config_location target environment) <> None ->
              reconcile domino os (config_location target environment) w0
              = (Raised (Exception e), w') ->
              w1 = {| remote := remote w'; calls := calls w';
                      logs := logs w' ++ [(ERROR, FailedToProcess environment e)] |})
    /\ process_all_environments domino os target w
       = (Raised (SystemExit 0),
          fold_left
            (fun w0 environment =>
               snd (process_single_environment domino os environment target w0))
            (listdir os target)
            {| remote := remote w; calls := calls w;
               logs := logs w ++ [(INFO, BuildingEnvironments (listdir os target))] |}).
Proof.
  intros G domino os target w Hlisting. split.
  - intros environment w0.
    destruct (process_single_environment_returns domino os environment target w0)
      as [w1 H1].
    exists w1. split; [exact H1 |].
    intros e w' Hfile Hraise. unfold process_single_environment in H1.
    destruct (files os (config_location target environment)); [| congruence].
    unfold try_except_Exception in H1. rewrite Hraise in H1.
    inversion H1. reflexivity.
  - unfold process_all_environments.
    destruct (listdir os target) as [| x xs] eqn:El; [congruence |].
    cbn [truthy_list negb]. unfold bind at 1. cbn [ret].
    unfold bind at 1. cbn [log].
    unfold bind at 1.
    rewrite (for_each_returns
               (fun environment => process_single_environment domino os environment target)
               (fun x0 w0 => process_single_environment_returns domino os x0 target w0)).
    reflexivity.
Qed.

(** Three environments; the second declares a tool without a title. *)
Lemma C9_failure_isolation_witness :
  process_all_environments Platform.client Examples.batch_of_three Examples.templates
    (Platform.start [])
  = (Raised (SystemExit 0),
     fold_left
       (fun w0 environment =>
          snd (process_single_environment Platform.client Examples.batch_of_three
                 environment Examples.templates w0))
       ["first"; "second"; "third"]
       {| remote := []; calls := [];
          logs := [(INFO, BuildingEnvironments ["first"; "second"; "third"])] |}).
Proof.
  exact (proj2 (C9_failure_isolation Platform.t Platform.client Examples.batch_of_three
                  Examples.templates (Platform.start [])
                  ltac:(simpl; discriminate))).
Defined.

(** What that batch leaves: the first and the third environment created, and
    one error record, for the second. *)
Example batch_of_three_run :
  let w := snd (process_all_environments Platform.client Examples.batch_of_three
                  Examples.templates (Platform.start [])) in
  map Platform.name (remote w) = ["first"; "third"]
  /\ filter (fun r => match fst r with ERROR => true | _ => false end) (logs w)
     = [(ERROR, FailedToProcess "second" (KeyError "title"))]
  /\ List.length (filter is_create (calls w)) = 2.
Proof. vm_compute. repeat split. Qed.

(** ** An environment that exists and has not changed *)

Section Unchanged.

Context {G : Type}.
Variable domino : Domino.client G.
Variable os : FileSystem.

Lemma restrict_environment_revision_logs : forall self (w : World G),
  exists logged,
    logs (snd (restrict_environment_revision domino self w)) = (logs w ++ logged)%list.
Proof.
  intros self w. unfold restrict_environment_revision, bind, invoke.
  destruct (Domino.get_environment domino (environment_id self) (remote w))
    as [[e | msg] g1]; [| exists []; cbn; rewrite app_nil_r; reflexivity].
  destruct (Domino.selectedRevision e) as [selected |];
    [| exists []; cbn; rewrite app_nil_r; reflexivity].
  cbn [log fst snd calls remote logs].
  destruct (negb (get_truthy PyStr.truthy (Domino.restrictedRevision e))
            && Bool.eqb (is_restricted self) true); [| eexists; reflexivity].
  cbn [log fst snd calls remote logs].
  destruct (Domino.restrict_environment_revision domino (environment_id self)
              (Domino.revision_id selected) g1) as [[u | msg] g2];
    cbn; rewrite <- app_assoc; eexists; reflexivity.
Qed.

(** The handler of [process_single_environment] keeps the calls and adds to
    the log. *)
Lemma try_except_log_calls : forall (body : M G unit) environment (w : World G),
  calls (snd (try_except_Exception body
                (fun e => log ERROR (FailedToProcess environment e)) w))
  = calls (snd (body w))
  /\ exists logged,
       logs (snd (try_except_Exception body
                    (fun e => log ERROR (FailedToProcess environment e)) w))
       = (logs (snd (body w)) ++ logged)%list.
Proof.
  intros body environment w. unfold try_except_Exception.
  destruct (body w) as [[u | [e | code]] w1]; cbn; split; try reflexivity;
    try (exists []; rewrite app_nil_r; reflexivity).
  eexists. reflexivity.
Qed.

(** [reconcile] up to the restriction enforcement, when the environment
    exists and its fingerprint is among the active tags. *)
Lemma reconcile_unchanged :
  forall location (w : World G) ec w1 envs g1 ee e g2,
    parse_config_file os (new_EnvironmentConfig location) w = (Value ec, w1) ->
    PyStr.truthy (name ec) = true ->
    Domino.environments_list domino (remote w) = (Domino.Returns envs, g1) ->
    find (fun x => (Domino.env_name x =? name ec)%string) envs = Some ee ->
    PyStr.truthy (Domino.id ee) = true ->
    Domino.get_environment domino (Domino.id ee) g1 = (Domino.Returns e, g2) ->
    PyStr.mem (config_file_hash ec)
      (get_or truthy_list (Domino.activeRevisionTags e) []) = true ->
    reconcile domino os location w
    = restrict_environment_revision domino (set_environment_id (Domino.id ee) ec)
        {| remote := g2;
           calls := calls w ++ [Domino.EnvironmentsList; Domino.GetEnvironment (Domino.id ee)];
           logs := logs w1 ++ [(INFO, AlreadyExists (name ec) (Domino.id ee));
                               (INFO, FileUnchanged)] |}.
Proof.
  intros location w ec w1 envs g1 ee e g2 Hparse Hname Hlist Hfind Hid Hget Htag.
  destruct (offline_parse_config_file os (new_EnvironmentConfig location) w) as [Hr Hc].
  rewrite Hparse in Hr, Hc. cbn [snd] in Hr, Hc.
  unfold reconcile. unfold bind at 1. rewrite Hparse.
  unfold bind at 1.
  unfold create_environment_if_not_exist. rewrite Hname. cbn [negb].
  unfold bind at 1. unfold check_environment_exists. unfold bind at 1.
  unfold invoke at 1. rewrite Hr, Hlist. rewrite Hfind.
  cbn [ret fst environment_id set_environment_id]. rewrite Hid.
  unfold bind at 1. cbn [log ret fst name set_environment_id].
  unfold bind at 1. unfold create_environment_revision. unfold bind at 1.
  unfold get_latest_revision. unfold bind at 1. unfold invoke at 1.
  cbn [remote calls logs environment_id set_environment_id].
  rewrite Hget. cbn [ret config_file_hash set_environment_id]. rewrite Htag.
  cbn [log remote calls logs]. rewrite Hc, <- !app_assoc. reflexivity.
Qed.

End Unchanged.

(** C7, as stated, fails on this run: the environment exists, the
    fingerprint of its declaration is among its active tags, the declaration
    is restricted and the platform has no marker yet.  Nothing is created or
    revised, and the enforcement that follows restricts the selected
    revision. *)
Lemma C7_unchanged_still_restricts :
  let os := Examples.directory Examples.templates [("base-env", Examples.restricted_base)] in
  let w := Platform.start Examples.base_unrestricted in
  let run := process_single_environment Platform.client os "base-env" Examples.templates w in
  fst (Domino.environments_list Platform.client (remote w))
  = Domino.Returns [{| Domino.id := "env-base-env"; Domino.env_name := "base-env" |}]
  /\ fst (Domino.get_environment Platform.client "env-base-env" (remote w))
     = Domino.Returns
         {| Domino.activeRevisionTags := Some [SHA256.hexdigest (content Examples.restricted_base)];
            Domino.restrictedRevision := None;
            Domino.selectedRevision := Some {| Domino.revision_id := "env-base-env-r1" |} |}
  /\ fst run = Value tt
  /\ In (INFO, FileUnchanged) (logs (snd run))
  /\ filter is_mutating (calls (snd run))
     = [Domino.RestrictEnvironmentRevision "env-base-env" "env-base-env-r1"].
Proof. vm_compute. repeat split. right. left. reflexivity. Qed.

(** C7, amended: for an environment that exists and whose fingerprint is
    among the active revision tags, the reconciliation lists the
    environments, reads the environment, logs that the file has not changed,
    and neither creates nor revises; the restriction enforcement then runs
    all the same: it reads the environment again and restricts the selected
    revision when that answer has one, has no marker, and the declaration is
    restricted. *)
Theorem C7_unchanged_neither_creates_nor_revises :
  forall (G : Type) (domino : Domino.client G) (os : FileSystem)
         (environment target : string) (w : World G) (f : File)
         (ec : EnvironmentConfig) (w1 : World G) (envs : list Domino.Summary) (g1 : G)
         (ee : Domino.Summary) (e : Domino.Environment) (g2 : G),
    files os (config_location target environment) = Some f ->
    parse_config_file os (new_EnvironmentConfig (config_location target environment)) w
    = (Value ec, w1) ->
    PyStr.truthy (name ec) = true ->
    Domino.environments_list domino (remote w) = (Domino.Returns envs, g1) ->
    find (fun x => (Domino.env_name x =? name ec)%string) envs = Some ee ->
    PyStr.truthy (Domino.id ee) = true ->
    Domino.get_environment domino (Domino.id ee) g1 = (Domino.Returns e, g2) ->
    PyStr.mem (config_file_hash ec)
      (get_or truthy_list (Domino.activeRevisionTags e) []) = true ->
    let restricting :=
      match Domino.get_environment domino (Domino.id ee) g2 with
      | (Domino.Returns e2, _) =>
          match Domino.selectedRevision e2 with
          | Some selected =>
              if negb (get_truthy PyStr.truthy (Domino.restrictedRevision e2))
                 && Bool.eqb (is_restricted ec) true
              then [Domino.RestrictEnvironmentRevision (Domino.id ee)
                      (Domino.revision_id selected)]
              else []
          | None => []
          end
      | (Domino.Fails _, _) => []
      end in
    let added :=
      ([Domino.EnvironmentsList; Domino.GetEnvironment (Domino.id ee);
        Domino.GetEnvironment (Domino.id ee)] ++ restricting)%list in
    exists w',
      process_single_environment domino os environment target w = (Value tt, w')
      /\ calls w' = (calls w ++ added)%list
      /\ filter is_create added = []
      /\ filter is_create_revision added = []
      /\ In (INFO, FileUnchanged) (logs w').
Proof.
  intros G domino os environment target w f ec w1 envs g1 ee e g2
         Hfile Hparse Hname Hlist Hfind Hid Hget Htag restricting added.
  destruct (process_single_environment_returns domino os environment target w) as [w' Hrun].
  exists w'. split; [exact Hrun |].
  assert (Hw' : w' = snd (process_single_environment domino os environment target w))
    by (rewrite Hrun; reflexivity).
  unfold process_single_environment in Hw'. rewrite Hfile in Hw'.
  destruct (try_except_log_calls
              (reconcile domino os (config_location target environment)) environment w)
    as [Hcalls [logged Hlogs]].
  rewrite <- Hw' in Hcalls, Hlogs.
  rewrite (reconcile_unchanged domino os _ w ec w1 envs g1 ee e g2
             Hparse Hname Hlist Hfind Hid Hget Htag) in Hcalls, Hlogs.
  match type of Hcalls with context [restrict_environment_revision domino ?s ?w4] =>
    destruct (restrict_environment_revision_run domino s w4) as (w5 & H5 & Hc5);
    destruct (restrict_environment_revision_logs domino s w4) as (logged5 & Hl5)
  end.
  rewrite H5 in Hcalls, Hlogs, Hl5.
  cbn [remote calls logs environment_id set_environment_id is_restricted] in Hc5, Hl5.
  split; [| split; [| split]].
  - rewrite Hcalls, Hc5. unfold added, restricting.
    rewrite <- app_assoc. reflexivity.
  - unfold added, restricting. cbn [filter is_create app].
    destruct (Domino.get_environment domino (Domino.id ee) g2) as [[e2 | msg] g3];
      [| reflexivity].
    destruct (Domino.selectedRevision e2); [| reflexivity].
    destruct (negb _ && _); reflexivity.
  - unfold added, restricting. cbn [filter is_create_revision app].
    destruct (Domino.get_environment domino (Domino.id ee) g2) as [[e2 | msg] g3];
      [| reflexivity].
    destruct (Domino.selectedRevision e2); [| reflexivity].
    destruct (negb _ && _); reflexivity.
  - rewrite Hlogs, Hl5. apply in_or_app. left. apply in_or_app. left.
    apply in_or_app. right. right. left. reflexivity.
Qed.

(** The same declaration against an environment that is restricted already:
    three reads and nothing else. *)
Lemma C7_unchanged_neither_creates_nor_revises_witness :
  exists w',
    process_single_environment Platform.client
      (Examples.directory Examples.templates [("base-env", Examples.restricted_base)])
      "base-env" Examples.templates (Platform.start Examples.base_restricted)
    = (Value tt, w')
    /\ calls w' = [Domino.EnvironmentsList; Domino.GetEnvironment "env-base-env";
                   Domino.GetEnvironment "env-base-env"].
Proof.
  edestruct (C7_unchanged_neither_creates_nor_revises Platform.t Platform.client
               (Examples.directory Examples.templates [("base-env", Examples.restricted_base)])
               "base-env" Examples.templates (Platform.start Examples.base_restricted))
    as (w' & Hrun & Hcalls & _).
  - reflexivity.
  - vm_compute. reflexivity.
  - reflexivity.
  - reflexivity.
  - reflexivity.
  - reflexivity.
  - reflexivity.
  - vm_compute. reflexivity.
  - exists w'. split; [exact Hrun | exact Hcalls].
Defined.

(** ** Where the validation of the visibility does not stop the run *)

Section Validation.

Context {G : Type}.
Variable os : FileSystem.

(** Organization without an owner: an error record, and a normal return
    with the visibility still Organization. *)
Lemma get_environment_visibility_owner_missing : forall self (w : World G) f d v,
  files os (environment_config_location self) = Some f ->
  safe_load f = YamlMapping d ->
  Doc.visibility d = Some (Yaml.Str v) ->
  PyStr.title v = "Organization" ->
  get_truthy Yaml.truthy (Doc.organizationOwnerId d) = false ->
  get_environment_visibility os self w
  = (Value (set_visibility "Organization" self),
     {| remote := remote w; calls := calls w;
        logs := logs w ++ [(ERROR, OwnerIdRequired)] |}).
Proof.
  intros self w f d v Hf Hy Hv Ht Ho.
  unfold get_environment_visibility, bind.
  rewrite (load_config_mapping os _ f d w Hf Hy).
  assert (Hv' : PyStr.truthy v = true)
    by (destruct v; [discriminate Ht | reflexivity]).
  rewrite Hv, Ho. cbn [Yaml.truthy]. rewrite Hv'. cbn [title_of ret].
  rewrite upper_never_Organisation. cbn [visibility set_visibility].
  rewrite Ht. reflexivity.
Qed.

(** An owner id that does not match: an error record, and a normal return
    with the id stored as it is. *)
Lemma get_environment_visibility_owner_rejected : forall self (w : World G) f d owner,
  files os (environment_config_location self) = Some f ->
  safe_load f = YamlMapping d ->
  Doc.organizationOwnerId d = Some (Yaml.Str owner) ->
  PyStr.truthy owner = true ->
  OwnerIdRegex.search owner = false ->
  Yaml.str_if_truthy (Doc.visibility d) = true ->
  get_environment_visibility os self w
  = (Value (set_organization_owner_id owner (set_visibility (declared_visibility d) self)),
     {| remote := remote w; calls := calls w;
        logs := logs w ++ [(ERROR, OwnerIdNotRecognised owner)] |}).
Proof.
  intros self w f d owner Hf Hy Ho Ht Hm Hv.
  unfold get_environment_visibility, bind.
  rewrite (load_config_mapping os _ f d w Hf Hy).
  rewrite (declared_visibility_runs d w Hv).
  rewrite upper_never_Organisation. rewrite Ho.
  cbn [get_truthy get_or Yaml.truthy]. rewrite Ht. rewrite andb_false_r.
  cbn [organization_owner_id set_organization_owner_id Yaml.str re_search ret].
  rewrite Hm. reflexivity.
Qed.

End Validation.

(** C1, on the code: a declaration with [visibility: organization] and no
    [organizationOwnerId].  The error is logged, and the run goes on: no
    exception reaches [process_single_environment], the client is called five
    times, and the environment is created as Organization with an empty
    owner. *)
Theorem C1_organization_without_owner_is_created :
  let run :=
    process_single_environment Platform.client
      (Examples.one Examples.organization_without_owner) "team-env" Examples.templates
      (Platform.start []) in
  fst run = Value tt
  /\ logs (snd run)
     = [(ERROR, OwnerIdRequired); (INFO, DoesNotExist "team-env"); (ERROR, OwnerIdRequired);
        (INFO, FileUnchanged); (DEBUG, SelectedRevisionId "env-team-env-r1")]
  /\ map method_name (calls (snd run))
     = ["environments_list"; "create_environment"; "environments_list";
        "get_environment"; "get_environment"]
  /\ map created_as (filter is_create (calls (snd run))) = [Some ("Organization", "")]
  /\ map Platform.name (remote (snd run)) = ["team-env"].
Proof. vm_compute. repeat split. Qed.

(** C2, on the code: the comparison that should recognise the British
    spelling is between a string in upper case and ["Organisation"], and is
    false for every string.  So [visibility: Organisation] is not treated as
    [visibility: Organization]: the first falls back to Private with a
    warning, the second stays Organization with the error about the owner. *)
Theorem C2_british_spelling_is_not_mapped :
  let ec := new_EnvironmentConfig (config_location Examples.templates "team-env") in
  (forall s, (PyStr.upper s =? "Organisation")%string = false)
  /\ PyStr.title "Organisation" = "Organisation"
  /\ PyStr.title "organisation" = "Organisation"
  /\ get_environment_visibility (Examples.one Examples.organisation_british) ec
       (Platform.start [])
     = (Value (set_visibility "Private" ec),
        {| remote := []; calls := [];
           logs := [(WARNING, InvalidVisibility (config_location Examples.templates "team-env"))] |})
  /\ get_environment_visibility (Examples.one Examples.organization_american) ec
       (Platform.start [])
     = (Value (set_visibility "Organization" ec),
        {| remote := []; calls := []; logs := [(ERROR, OwnerIdRequired)] |}).
Proof.
  intros ec. split; [exact upper_never_Organisation |].
  repeat split.
Qed.

(** C4, on the code: a declaration with [organizationOwnerId: not-hex].  The
    error is logged, no exception is raised, and the environment is created
    with the owner id as it was written. *)
Theorem C4_owner_not_hex_is_created :
  let run :=
    process_single_environment Platform.client
      (Examples.one Examples.owner_not_hex) "team-env" Examples.templates
      (Platform.start []) in
  OwnerIdRegex.search "not-hex" = false
  /\ fst run = Value tt
  /\ logs (snd run)
     = [(ERROR, OwnerIdNotRecognised "not-hex"); (INFO, DoesNotExist "team-env");
        (ERROR, OwnerIdNotRecognised "not-hex"); (INFO, FileUnchanged);
        (DEBUG, SelectedRevisionId "env-team-env-r1")]
  /\ map method_name (calls (snd run))
     = ["environments_list"; "create_environment"; "environments_list";
        "get_environment"; "get_environment"]
  /\ map created_as (filter is_create (calls (snd run))) = [Some ("Private", "not-hex")].
Proof. vm_compute. repeat split. Qed.

(** * Further properties of the code *)

(** ** The digest as a string *)

Lemma string_length_append : forall a b : string,
  String.length (a ++ b) = String.length a + String.length b.
Proof. induction a as [| c a IH]; intros b; simpl; [reflexivity | rewrite IH; reflexivity]. Qed.

Lemma all_lower_hex_append : forall a b : string,
  all_lower_hex a = true -> all_lower_hex b = true -> all_lower_hex (a ++ b) = true.
Proof.
  induction a as [| c a IH]; intros b Ha Hb; simpl in *; [exact Hb |].
  apply andb_true_iff in Ha. destruct Ha as [Hc Ha]. rewrite Hc. simpl. auto.
Qed.

Lemma hex_digit_lower : forall n : N, (n < 16)%N -> lower_hex (SHA256.hex_digit n) = true.
Proof.
  intros n Hn.
  assert (Hall : forallb (fun k => lower_hex (SHA256.hex_digit (N.of_nat k))) (seq 0 16) = true)
    by (vm_compute; reflexivity).
  rewrite forallb_forall in Hall.
  rewrite <- (N2Nat.id n). apply Hall. apply in_seq. lia.
Qed.

Lemma nibble_bound : forall x : N, (N.land x 0xf < 16)%N.
Proof.
  intros x. change 0xf%N with (N.ones 4). rewrite N.land_ones.
  apply N.mod_lt. discriminate.
Qed.

Lemma hex_of_word_format : forall w : N,
  String.length (SHA256.hex_of_word w) = 8 /\ all_lower_hex (SHA256.hex_of_word w) = true.
Proof.
  intros w. unfold SHA256.hex_of_word. cbn [seq rev app map string_of_list_ascii].
  split; [reflexivity |].
  cbn [all_lower_hex]. rewrite !hex_digit_lower by apply nibble_bound. reflexivity.
Qed.

Lemma round_length : forall st kw, List.length st = 8 -> List.length (SHA256.round st kw) = 8.
Proof.
  intros st kw H.
  do 8 (destruct st as [| ? st]; [discriminate H |]).
  destruct st; [reflexivity | discriminate H].
Qed.

Lemma rounds_length : forall kws st,
  List.length st = 8 -> List.length (fold_left SHA256.round kws st) = 8.
Proof.
  induction kws as [| kw kws IH]; intros st H; simpl; [exact H |].
  apply IH. apply round_length. exact H.
Qed.

Lemma compress_length : forall h block,
  List.length h = 8 -> List.length (SHA256.compress h block) = 8.
Proof.
  intros h block H. unfold SHA256.compress.
  rewrite length_map, length_combine, rounds_length by exact H. rewrite H. reflexivity.
Qed.

Lemma digest_words_length : forall msg, List.length (SHA256.digest_words msg) = 8.
Proof.
  intros msg. unfold SHA256.digest_words.
  generalize (SHA256.blocks (List.length (SHA256.be_words (SHA256.pad msg)))
                (SHA256.be_words (SHA256.pad msg))).
  assert (H0 : List.length SHA256.H0 = 8) by reflexivity.
  revert H0. generalize SHA256.H0.
  intros h Hh bs. revert h Hh.
  induction bs as [| b bs IH]; intros h Hh; simpl; [exact Hh |].
  apply IH. apply compress_length. exact Hh.
Qed.

Lemma concat_words_format : forall ws,
  String.length (String.concat "" (map SHA256.hex_of_word ws)) = 8 * List.length ws
  /\ all_lower_hex (String.concat "" (map SHA256.hex_of_word ws)) = true.
Proof.
  induction ws as [| w ws IH]; [split; reflexivity |].
  destruct (hex_of_word_format w) as [Hl Hh]. destruct IH as [IHl IHh].
  cbn [map String.concat]. destruct (map SHA256.hex_of_word ws) as [| x xs] eqn:E.
  - destruct ws; [| discriminate E]. split; [rewrite Hl; reflexivity | exact Hh].
  - cbn [append]. split.
    + rewrite string_length_append, Hl, IHl. simpl List.length. lia.
    + apply all_lower_hex_append; assumption.
Qed.

(** X1: the fingerprint that [compute_config_file_hash] stores is always 64
    characters long, each one of [0-9a-f]; in particular it is never the
    empty string, whatever the file holds. *)
Theorem X1_fingerprint_is_64_lower_hex :
  forall (G : Type) (os : FileSystem) (self : EnvironmentConfig) (w : World G) (f : File),
    files os (environment_config_location self) = Some f ->
    exists self',
      compute_config_file_hash os self w = (Value self', w)
      /\ String.length (config_file_hash self') = 64
      /\ all_lower_hex (config_file_hash self') = true
      /\ PyStr.truthy (config_file_hash self') = true.
Proof.
  intros G os self w f Hf. unfold compute_config_file_hash. rewrite Hf.
  eexists. split; [reflexivity |].
  cbn [config_file_hash set_config_file_hash]. rewrite streamed_digest.
  unfold SHA256.hexdigest.
  destruct (concat_words_format (SHA256.digest_words (map to_N (content f)))) as [Hl Hh].
  rewrite digest_words_length in Hl.
  split; [exact Hl | split; [exact Hh |]].
  destruct (String.concat "" _); [discriminate Hl | reflexivity].
Qed.

Lemma X1_fingerprint_is_64_lower_hex_witness :
  exists self',
    compute_config_file_hash (Examples.one Examples.owner_not_hex)
      (new_EnvironmentConfig (config_location Examples.templates "team-env"))
      (Platform.start [])
    = (Value self', Platform.start [])
    /\ String.length (config_file_hash self') = 64
    /\ all_lower_hex (config_file_hash self') = true
    /\ PyStr.truthy (config_file_hash self') = true.
Proof.
  exact (X1_fingerprint_is_64_lower_hex Platform.t (Examples.one Examples.owner_not_hex)
           (new_EnvironmentConfig (config_location Examples.templates "team-env"))
           (Platform.start []) Examples.owner_not_hex eq_refl).
Defined.

Lemma cons_eq_inv {A : Type} : forall (a b : A) (l m : list A),
  a :: l = b :: m -> a = b /\ l = m.
Proof. intros a b l m H. inversion H. split; reflexivity. Qed.

Lemma reads_from_nothing : forall fuel, reads_from fuel [] = [].
Proof. intros [| fuel]; [reflexivity |]. cbn [reads_from]. rewrite firstn_nil. reflexivity. Qed.

(** A chunk that is followed by another one is a full chunk. *)
Lemma reads_from_full : forall fuel rest before chunk after,
  reads_from fuel rest = (before ++ chunk :: after)%list ->
  after <> [] -> List.length chunk = chunk_size.
Proof.
  induction fuel as [| fuel IH]; intros rest before chunk after H Hafter.
  - destruct before; discriminate H.
  - cbn [reads_from] in H.
    destruct (firstn chunk_size rest) as [| b c] eqn:E; [destruct before; discriminate H |].
    destruct before as [| p before]; cbn [app] in H.
    + apply cons_eq_inv in H. destruct H as [Hc Ha].
      rewrite <- Hc, <- E. rewrite length_firstn.
      destruct (skipn chunk_size rest) as [| x xs] eqn:Es.
      * rewrite reads_from_nothing in Ha. congruence.
      * assert (Hs : List.length (skipn chunk_size rest) > 0)
          by (rewrite Es; cbn [List.length]; lia).
        rewrite length_skipn in Hs. lia.
    + apply cons_eq_inv in H. destruct H as [Hp Hrest]. eapply IH; eauto.
Qed.

(** X2: the file is hashed in chunks that are never empty and never longer
    than 8192 bytes, every chunk but the last is exactly 8192 bytes, and the
    chunks, in order, are the file: every byte is fed to the hash object
    exactly once. *)
Theorem X2_file_is_read_in_bounded_chunks :
  forall bytes : list byte,
    List.concat (reads bytes) = bytes
    /\ Forall (fun chunk => 0 < List.length chunk <= 8192) (reads bytes)
    /\ (forall before chunk after,
          reads bytes = (before ++ chunk :: after)%list -> after <> [] ->
          List.length chunk = 8192)
    /\ Hashlib.fed (fold_left Hashlib.update (reads bytes) Hashlib.new) = bytes.
Proof.
  intros bytes. split; [apply reads_concat | split; [| split]].
  - apply Forall_forall. intros chunk Hin.
    exact (reads_from_bounds _ _ _ Hin).
  - intros before chunk after H Hafter.
    exact (reads_from_full _ _ _ _ _ H Hafter).
  - rewrite fold_update_fed, reads_concat. reflexivity.
Qed.

(** ** A declaration that cannot be loaded *)

(** X3: when [parse_config_file] raises an exception (the YAML does not
    load, the document is not a mapping, a workspace tool is incomplete),
    [process_single_environment] logs the failure with the name of the
    environment and returns without a single call to the client: the remote
    platform is left as it was. *)
Theorem X3_loader_failure_makes_no_call :
  forall (G : Type) (domino : Domino.client G) (os : FileSystem)
         (environment target : string) (w w1 : World G) (f : File) (e : py_exception),
    files os (config_location target environment) = Some f ->
    parse_config_file os (new_EnvironmentConfig (config_location target environment)) w
    = (Raised (Exception e), w1) ->
    process_single_environment domino os environment target w
    = (Value tt,
       {| remote := remote w; calls := calls w;
          logs := logs w1 ++ [(ERROR, FailedToProcess environment e)] |}).
Proof.
  intros G domino os environment target w w1 f e Hf Hparse.
  destruct (offline_parse_config_file os
              (new_EnvironmentConfig (config_location target environment)) w) as [Hr Hc].
  rewrite Hparse in Hr, Hc. cbn [snd] in Hr, Hc.
  unfold process_single_environment. rewrite Hf.
  unfold try_except_Exception, reconcile. unfold bind at 1. rewrite Hparse.
  unfold log. rewrite Hr, Hc. reflexivity.
Qed.

(** A tool without a title: a [KeyError], and nothing sent. *)
Lemma X3_loader_failure_makes_no_call_witness :
  process_single_environment Platform.client Examples.batch_of_three "second"
    Examples.templates (Platform.start [])
  = (Value tt,
     {| remote := []; calls := [];
        logs := [(ERROR, FailedToProcess "second" (KeyError "title"))] |}).
Proof.
  exact (X3_loader_failure_makes_no_call Platform.t Platform.client Examples.batch_of_three
           "second" Examples.templates (Platform.start []) (Platform.start [])
           Examples.broken_tool (KeyError "title") eq_refl eq_refl).
Defined.

(** ** The visibility that is resolved *)

(** The end of [get_environment_visibility] when no owner id is given. *)
Ltac owner_not_given declared w :=
  cbn [negb]; rewrite andb_true_r;
  let Hd := fresh "Hd" in
  let Hp := fresh "Hp" in
  destruct (declared =? "Organization")%string eqn:Hd;
  [ eexists; eexists; cbn; split; [reflexivity |];
    left; apply String.eqb_eq in Hd; rewrite Hd; reflexivity
  | destruct (PyStr.mem declared possible_visibility_types) eqn:Hp; cbn [negb];
    [ eexists; exists []; cbn; rewrite app_nil_r; destruct w; split; [reflexivity |];
      left; exact Hp
    | eexists; eexists; cbn; split; [reflexivity |]; left; reflexivity ] ].

(** X4: for a document that loads, [get_environment_visibility] never
    reaches the client, and what it does is decided by the types of
    [visibility] and [organizationOwnerId].  A visibility that is truthy and
    not a string raises an [AttributeError]; otherwise an owner id that is
    truthy and not a string raises a [TypeError]; in both cases nothing is
    logged.  Otherwise the method returns, and the visibility it leaves is
    one of Global, Organization and Private, except when the owner id is
    one that the expression rejects: then the one error record is logged
    and the visibility is left as declared, in title case, whether it is a
    possible value or not. *)
Theorem X4_resolved_visibility_is_possible :
  forall (G : Type) (os : FileSystem) (self : EnvironmentConfig) (w : World G)
         (f : File) (d : Doc.t),
    files os (environment_config_location self) = Some f ->
    safe_load f = YamlMapping d ->
    (Yaml.str_if_truthy (Doc.visibility d) = false ->
     exists msg,
       get_environment_visibility os self w = (Raised (Exception (AttributeError msg)), w))
    /\ (Yaml.str_if_truthy (Doc.visibility d) = true ->
        Yaml.str_if_truthy (Doc.organizationOwnerId d) = false ->
        exists msg,
          get_environment_visibility os self w = (Raised (Exception (TypeError msg)), w))
    /\ (Yaml.str_if_truthy (Doc.visibility d) = true ->
        Yaml.str_if_truthy (Doc.organizationOwnerId d) = true ->
        exists self' logged,
          get_environment_visibility os self w
          = (Value self',
             {| remote := remote w; calls := calls w; logs := logs w ++ logged |})
          /\ (PyStr.mem (visibility self') possible_visibility_types = true
              \/ exists owner,
                   Doc.organizationOwnerId d = Some (Yaml.Str owner)
                   /\ OwnerIdRegex.search owner = false
                   /\ logged = [(ERROR, OwnerIdNotRecognised owner)]
                   /\ organization_owner_id self' = owner
                   /\ visibility self' = declared_visibility d)).
Proof.
  intros G os self w f d Hf Hy.
  split; [| split].
  - intros Hv. destruct (declared_visibility_raises (G := G) d Hv) as [msg Hraise].
    exists msg. unfold get_environment_visibility, bind.
    rewrite (load_config_mapping os _ f d w Hf Hy). rewrite Hraise. reflexivity.
  - intros Hv Ho. unfold get_environment_visibility, bind.
    rewrite (load_config_mapping os _ f d w Hf Hy).
    rewrite (declared_visibility_runs d w Hv).
    rewrite upper_never_Organisation.
    unfold Yaml.str_if_truthy in Ho.
    destruct (Doc.organizationOwnerId d) as [[| s | n | b | t x truth] |];
      try discriminate Ho; cbn [get_truthy get_or Yaml.truthy] in *.
    + destruct (n =? 0)%Z; [discriminate Ho |]. cbn [negb]. rewrite andb_false_r.
      eexists. reflexivity.
    + destruct b; [| discriminate Ho]. rewrite andb_false_r. eexists. reflexivity.
    + destruct truth; [| discriminate Ho]. rewrite andb_false_r. eexists. reflexivity.
  - intros Hv Ho. unfold get_environment_visibility, bind.
    rewrite (load_config_mapping os _ f d w Hf Hy).
    rewrite (declared_visibility_runs d w Hv).
    rewrite upper_never_Organisation.
    set (declared := declared_visibility d).
    cbn [visibility set_visibility].
    unfold Yaml.str_if_truthy in Ho.
    destruct (Doc.organizationOwnerId d) as [[| owner | n | b | t x truth] |] eqn:Eo;
      cbn [get_truthy get_or Yaml.truthy] in *.
    + owner_not_given declared w.
    + destruct (PyStr.truthy owner) eqn:Ht.
      * rewrite andb_false_r.
        cbn [organization_owner_id set_organization_owner_id Yaml.str re_search ret].
        destruct (OwnerIdRegex.search owner) eqn:Hm; cbn [negb].
        -- eexists. exists []. cbn. rewrite app_nil_r. destruct w. split; [reflexivity |].
           left. reflexivity.
        -- eexists. eexists. cbn. split; [reflexivity |].
           right. exists owner. repeat split; auto.
      * owner_not_given declared w.
    + destruct (n =? 0)%Z; [| discriminate Ho]. owner_not_given declared w.
    + destruct b; [discriminate Ho |]. owner_not_given declared w.
    + destruct truth; [discriminate Ho |]. owner_not_given declared w.
    + owner_not_given declared w.
Qed.

(** [visibility: public] is not a possible value: Private, with a warning. *)
Lemma X4_resolved_visibility_is_possible_witness :
  exists self' logged,
    get_environment_visibility
      (Examples.one (Examples.file "visibility: public"
                       (Examples.declaration None (Some "public") None None None None)))
      (new_EnvironmentConfig (config_location Examples.templates "team-env"))
      (Platform.start [])
    = (Value self', {| remote := []; calls := []; logs := [] ++ logged |})
    /\ (PyStr.mem (visibility self') possible_visibility_types = true
        \/ exists owner,
             None = Some (Yaml.Str owner)
             /\ OwnerIdRegex.search owner = false
             /\ logged = [(ERROR, OwnerIdNotRecognised owner)]
             /\ organization_owner_id self' = owner
             /\ visibility self' = "Public").
Proof.
  exact (proj2 (proj2 (X4_resolved_visibility_is_possible Platform.t
           (Examples.one (Examples.file "visibility: public"
                            (Examples.declaration None (Some "public") None None None None)))
           (new_EnvironmentConfig (config_location Examples.templates "team-env"))
           (Platform.start [])
           (Examples.file "visibility: public"
              (Examples.declaration None (Some "public") None None None None))
           (Examples.declaration None (Some "public") None None None None)
           eq_refl eq_refl)) eq_refl eq_refl).
Defined.

(** ** What the expression for the owner id accepts *)

Lemma repeat_class_split : forall n s rest,
  OwnerIdRegex.repeat_class n s = Some rest ->
  exists h, s = (h ++ rest)%string /\ String.length h = n /\ all_hex h = true.
Proof.
  induction n as [| n IH]; intros s rest H; simpl in H.
  - inversion H. exists EmptyString. repeat split.
  - destruct s as [| c r]; [discriminate |].
    destruct (OwnerIdRegex.hex_class c) eqn:Hc; [| discriminate].
    destruct (IH _ _ H) as (h & Hs & Hl & Hh).
    exists (String c h). simpl. rewrite Hc, Hh, Hl, <- Hs. repeat split.
Qed.

Lemma repeat_class_append : forall h rest,
  all_hex h = true ->
  OwnerIdRegex.repeat_class (String.length h) (h ++ rest) = Some rest.
Proof.
  induction h as [| c h IH]; intros rest H; simpl in *; [reflexivity |].
  apply andb_true_iff in H. destruct H as [Hc Hh]. rewrite Hc. apply IH. exact Hh.
Qed.

(** X5: the owner ids that [get_environment_visibility] accepts are exactly
    the strings of 24 hexadecimal characters and those strings followed by
    one newline, which [$] lets through. *)
Theorem X5_accepted_owner_ids :
  forall s : string,
    OwnerIdRegex.search s = true
    <-> exists h, is_24_hex h = true
                  /\ (s = h \/ s = (h ++ String "010"%char EmptyString)%string).
Proof.
  intros s. unfold OwnerIdRegex.search, is_24_hex. split.
  - destruct (OwnerIdRegex.repeat_class 24 s) as [rest |] eqn:E; [| discriminate].
    intros Hd. destruct (repeat_class_split _ _ _ E) as (h & Hs & Hl & Hh).
    exists h. rewrite Hl, Hh. split; [reflexivity |].
    destruct rest as [| c [| c' r]]; simpl in Hd; try discriminate.
    + left. rewrite Hs. clear. induction h; simpl; congruence.
    + right. apply Ascii.eqb_eq in Hd. subst c. exact Hs.
  - intros (h & H24 & Hs). apply andb_true_iff in H24. destruct H24 as [Hl Hh].
    apply Nat.eqb_eq in Hl.
    destruct Hs as [-> | ->].
    + rewrite (repeat_class_all_hex 24 h Hl Hh). reflexivity.
    + rewrite <- Hl. rewrite (repeat_class_append h _ Hh). reflexivity.
Qed.

(** ** The lookup by name *)

Lemma find_first {A : Type} (p : A -> bool) : forall before x after,
  (forall y, In y before -> p y = false) -> p x = true ->
  find p (before ++ x :: after) = Some x.
Proof.
  induction before as [| b before IH]; intros x after Hb Hx; simpl.
  - rewrite Hx. reflexivity.
  - rewrite (Hb b (or_introl eq_refl)). apply IH; [| exact Hx].
    intros y Hy. apply Hb. right. exact Hy.
Qed.

Lemma find_none {A : Type} (p : A -> bool) : forall l,
  (forall y, In y l -> p y = false) -> find p l = None.
Proof.
  induction l as [| a l IH]; intros H; simpl; [reflexivity |].
  rewrite (H a (or_introl eq_refl)). apply IH. intros y Hy. apply H. right. exact Hy.
Qed.

(** X6: [check_environment_exists] makes one call, [environments_list].  Of
    several remote environments with the name of the declaration, the first
    in the listing gives its id to the object; when none has the name, the
    id of the object is left as it was and the answer is [None]. *)
Theorem X6_first_listed_match_wins :
  forall (G : Type) (domino : Domino.client G) (self : EnvironmentConfig) (w : World G)
         (envs : list Domino.Summary) (g : G),
    Domino.environments_list domino (remote w) = (Domino.Returns envs, g) ->
    let w' := {| remote := g; calls := calls w ++ [Domino.EnvironmentsList];
                 logs := logs w |} in
    (forall before ee after,
       envs = (before ++ ee :: after)%list ->
       (forall x, In x before -> Domino.env_name x <> name self) ->
       Domino.env_name ee = name self ->
       check_environment_exists domino self w
       = (Value (set_environment_id (Domino.id ee) self, Some true), w'))
    /\ ((forall x, In x envs -> Domino.env_name x <> name self) ->
        check_environment_exists domino self w = (Value (self, None), w')).
Proof.
  intros G domino self w envs g Hlist w'. split.
  - intros before ee after Henvs Hbefore Hee.
    unfold check_environment_exists, bind, invoke. rewrite Hlist, Henvs.
    rewrite (find_first _ before ee after).
    + reflexivity.
    + intros y Hy. apply String.eqb_neq. apply Hbefore. exact Hy.
    + apply String.eqb_eq. exact Hee.
  - intros Hnone.
    unfold check_environment_exists, bind, invoke. rewrite Hlist.
    rewrite find_none; [reflexivity |].
    intros y Hy. apply String.eqb_neq. apply Hnone. exact Hy.
Qed.

(** Two environments are called [base-env]: the id of the first one. *)
Lemma X6_first_listed_match_wins_witness :
  check_environment_exists Platform.client (Cases.object_named "base-env")
    (Platform.start Cases.twins)
  = (Value (set_environment_id "env-a" (Cases.object_named "base-env"), Some true),
     {| remote := Cases.twins; calls := [Domino.EnvironmentsList]; logs := [] |}).
Proof.
  refine (proj1 (X6_first_listed_match_wins Platform.t Platform.client
                   (Cases.object_named "base-env") (Platform.start Cases.twins)
                   _ Cases.twins eq_refl)
                [{| Domino.id := "env-other"; Domino.env_name := "other" |}]
                {| Domino.id := "env-a"; Domino.env_name := "base-env" |}
                [{| Domino.id := "env-b"; Domino.env_name := "base-env" |}]
                eq_refl _ eq_refl).
  intros x [<- | []]. simpl. discriminate.
Defined.

(** ** Directories without a declaration, and an empty target directory *)

Section Skipping.

Context {G : Type}.
Variable domino : Domino.client G.
Variable os : FileSystem.

Lemma fold_skips : forall target environments (w : World G),
  (forall environment, In environment environments ->
     files os (config_location target environment) = None) ->
  fold_left
    (fun w0 environment => snd (process_single_environment domino os environment target w0))
    environments w
  = {| remote := remote w; calls := calls w;
       logs := logs w ++ map (fun environment => (WARNING, NoConfigurationFile environment))
                             environments |}.
Proof.
  intros target environments. induction environments as [| x xs IH]; intros w Hnone.
  - simpl. rewrite app_nil_r. destruct w. reflexivity.
  - cbn [fold_left]. unfold process_single_environment at 2.
    rewrite (Hnone x (or_introl eq_refl)). cbn [log snd].
    rewrite IH by (intros y Hy; apply Hnone; right; exact Hy).
    cbn [remote calls logs map]. rewrite <- app_assoc. reflexivity.
Qed.

End Skipping.

(** X7: a sub-directory without [environment.yaml] is skipped with one
    warning.  When no entry of a listing that is not empty has one, the batch
    calls the client not once, logs one warning per entry, in order, and
    exits with code 0. *)
Theorem X7_directories_without_declaration_are_skipped :
  forall (G : Type) (domino : Domino.client G) (os : FileSystem) (target : string)
         (w : World G),
    listdir os target <> [] ->
    (forall environment, In environment (listdir os target) ->
       files os (config_location target environment) = None) ->
    process_all_environments domino os target w
    = (Raised (SystemExit 0),
       {| remote := remote w; calls := calls w;
          logs := logs w
                  ++ (INFO, BuildingEnvironments (listdir os target))
                     :: map (fun environment => (WARNING, NoConfigurationFile environment))
                            (listdir os target) |}).
Proof.
  intros G domino os target w Hlisting Hnone.
  unfold process_all_environments.
  destruct (listdir os target) as [| x xs] eqn:El; [congruence |].
  cbn [truthy_list negb]. unfold bind at 1. cbn [ret].
  unfold bind at 1. cbn [log]. unfold bind at 1.
  rewrite (for_each_returns
             (fun environment => process_single_environment domino os environment target)
             (fun x0 w0 => process_single_environment_returns domino os x0 target w0)).
  rewrite (fold_skips domino os target (x :: xs)) by exact Hnone.
  cbn [remote calls logs sys_exit]. rewrite <- app_assoc. reflexivity.
Qed.

Lemma X7_directories_without_declaration_are_skipped_witness :
  process_all_environments Platform.client Cases.bare_directories Examples.templates
    (Platform.start Examples.base_restricted)
  = (Raised (SystemExit 0),
     {| remote := Examples.base_restricted; calls := [];
        logs := [(INFO, BuildingEnvironments ["docs"; "scratch"]);
                 (WARNING, NoConfigurationFile "docs");
                 (WARNING, NoConfigurationFile "scratch")] |}).
Proof.
  exact (X7_directories_without_declaration_are_skipped Platform.t Platform.client
           Cases.bare_directories Examples.templates (Platform.start Examples.base_restricted)
           ltac:(simpl; discriminate) (fun _ _ => eq_refl)).
Defined.

(** X8: [process_all_environments] never returns to its caller: it ends in
    [sys.exit], with code 1 exactly when the listing of the target directory
    is empty, and then with one error record and no call to the client; with
    code 0 otherwise. *)
Theorem X8_batch_exit_code :
  forall (G : Type) (domino : Domino.client G) (os : FileSystem) (target : string)
         (w : World G),
    exists w',
      process_all_environments domino os target w
      = (Raised (SystemExit (if truthy_list (listdir os target) then 0 else 1)%Z), w')
      /\ (listdir os target = [] ->
          w' = {| remote := remote w; calls := calls w;
                  logs := logs w ++ [(ERROR, NoEnvironmentsFound)] |}).
Proof.
  intros G domino os target w. unfold process_all_environments.
  destruct (listdir os target) as [| x xs] eqn:El.
  - eexists. split; [reflexivity |]. intros _. reflexivity.
  - cbn [truthy_list negb]. unfold bind at 1. cbn [ret].
    unfold bind at 1. cbn [log]. unfold bind at 1.
    rewrite (for_each_returns
               (fun environment => process_single_environment domino os environment target)
               (fun x0 w0 => process_single_environment_returns domino os x0 target w0)).
    eexists. split; [reflexivity |]. intros H. discriminate H.
Qed.

(** ** What [parse_config_file] returns, for every object *)

Section Uniform.

Context {G : Type}.
Variable os : FileSystem.

Lemma logged_more_nil : forall w : World G, logged_more w [] = w.
Proof. intros [r c l]. unfold logged_more. cbn. rewrite app_nil_r. reflexivity. Qed.

Lemma logged_more_more : forall (w : World G) a b,
  logged_more (logged_more w a) b = logged_more w (a ++ b).
Proof. intros w a b. unfold logged_more. cbn. rewrite app_assoc. reflexivity. Qed.

Lemma load_config_inv : forall location (w w' : World G) d,
  load_config os location w = (Value d, w') ->
  w' = w /\ exists f, files os location = Some f /\ safe_load f = YamlMapping d.
Proof.
  intros location w w' d. unfold load_config.
  destruct (files os location) as [f |]; [| discriminate].
  destruct (safe_load f) as [msg | | d0] eqn:E; try discriminate.
  intros H. inversion H; subst. split; [reflexivity |]. exists f. split; [reflexivity | exact E].
Qed.

(** The visibility step decides from the document alone. *)
Lemma get_environment_visibility_uniform : forall location f d,
  files os location = Some f -> safe_load f = YamlMapping d ->
  (exists e, forall self (w : World G),
     environment_config_location self = location ->
     get_environment_visibility os self w = (Raised (Exception e), w))
  \/ (Yaml.str_if_truthy (Doc.visibility d) = true
      /\ Yaml.str_if_truthy (Doc.organizationOwnerId d) = true
      /\ exists resolved (owner_set : bool) logged,
           forall self (w : World G),
             environment_config_location self = location ->
             get_environment_visibility os self w
             = (Value (if owner_set
                       then set_organization_owner_id
                              (Yaml.str (get_or Yaml.truthy (Doc.organizationOwnerId d)
                                           (Yaml.Str "")))
                              (set_visibility resolved self)
                       else set_visibility resolved self),
                logged_more w logged)).
Proof.
  intros location f d Hf Hy.
  set (declared := declared_visibility d).
  assert (Hstart : forall self (w : World G),
            environment_config_location self = location ->
            load_config os (environment_config_location self) w = (Value d, w))
    by (intros self w Hl; rewrite Hl; apply (load_config_mapping os _ f d w Hf Hy)).
  destruct (Yaml.str_if_truthy (Doc.visibility d)) eqn:Hv.
  2:{ left. destruct (declared_visibility_raises (G := G) d Hv) as [msg Hraise].
      exists (AttributeError msg). intros self w Hl.
      unfold get_environment_visibility, bind.
      rewrite (Hstart self w Hl), Hraise. reflexivity. }
  destruct (Yaml.str_if_truthy (Doc.organizationOwnerId d)) eqn:Hs.
  2:{ left. destruct (re_search_raises (G := G) d Hs) as (Hgiven & msg & Hraise).
      exists (TypeError msg). intros self w Hl.
      unfold get_environment_visibility, bind.
      rewrite (Hstart self w Hl), (declared_visibility_runs d w Hv).
      rewrite upper_never_Organisation, Hgiven, andb_false_r, Hraise. reflexivity. }
  right. split; [reflexivity |]. split; [reflexivity |].
  destruct (get_truthy Yaml.truthy (Doc.organizationOwnerId d)) eqn:Hgiven.
  - destruct (owner_given_string d Hs Hgiven) as [owner Ho]. rewrite Ho.
    cbn [Yaml.str].
    destruct (OwnerIdRegex.search owner) eqn:Hm.
    + exists "Private", true, []. intros self w Hl.
      unfold get_environment_visibility, bind.
      rewrite (Hstart self w Hl), (declared_visibility_runs d w Hv).
      rewrite upper_never_Organisation, Hgiven, andb_false_r, Ho.
      cbn [organization_owner_id set_organization_owner_id Yaml.str re_search ret].
      rewrite Hm. rewrite logged_more_nil. reflexivity.
    + exists declared, true, [(ERROR, OwnerIdNotRecognised owner)].
      intros self w Hl.
      unfold get_environment_visibility, bind.
      rewrite (Hstart self w Hl), (declared_visibility_runs d w Hv).
      rewrite upper_never_Organisation, Hgiven, andb_false_r, Ho.
      cbn [organization_owner_id set_organization_owner_id Yaml.str re_search ret].
      rewrite Hm. reflexivity.
  - destruct (declared =? "Organization")%string eqn:Hd.
    + exists "Organization", false, [(ERROR, OwnerIdRequired)]. intros self w Hl.
      unfold get_environment_visibility, bind.
      rewrite (Hstart self w Hl), (declared_visibility_runs d w Hv).
      rewrite upper_never_Organisation, Hgiven.
      cbn [visibility set_visibility]. fold declared. rewrite Hd.
      apply String.eqb_eq in Hd. rewrite Hd. reflexivity.
    + destruct (PyStr.mem declared possible_visibility_types) eqn:Hp.
      * exists declared, false, []. intros self w Hl.
        unfold get_environment_visibility, bind.
        rewrite (Hstart self w Hl), (declared_visibility_runs d w Hv).
        rewrite upper_never_Organisation, Hgiven.
        cbn [visibility set_visibility]. fold declared. rewrite Hd, Hp.
        rewrite logged_more_nil. reflexivity.
      * exists "Private", false, [(WARNING, InvalidVisibility location)]. intros self w Hl.
        unfold get_environment_visibility, bind.
        rewrite (Hstart self w Hl), (declared_visibility_runs d w Hv).
        rewrite upper_never_Organisation, Hgiven.
        cbn [visibility set_visibility]. fold declared. rewrite Hd, Hp.
        cbn. rewrite Hl. reflexivity.
Qed.

(** So does the cluster step. *)
Lemma get_supported_clusters_uniform : forall location f d,
  files os location = Some f -> safe_load f = YamlMapping d ->
  exists clusters logged,
    forall self (w : World G),
      environment_config_location self = location ->
      get_supported_clusters os self w
      = (Value (set_supported_clusters clusters self), logged_more w logged).
Proof.
  intros location f d Hf Hy.
  set (titled := map PyStr.title (get_or truthy_list (Doc.supportedClusters d) [])).
  set (dropped := filter (fun sc => negb (PyStr.mem sc possible_cluster_types)) titled).
  exists (filter (fun sc => PyStr.mem sc possible_cluster_types) titled),
         (if truthy_list dropped then [(WARNING, InvalidClusterTypes dropped)] else []).
  intros self w Hl.
  unfold get_supported_clusters, bind. rewrite Hl.
  rewrite (load_config_mapping os _ f d w Hf Hy).
  cbn [supported_clusters set_supported_clusters].
  fold titled. fold dropped.
  destruct titled as [| t ts] eqn:Et.
  - cbn. rewrite logged_more_nil. reflexivity.
  - cbn [truthy_list]. destruct dropped as [| x xs] eqn:Ed.
    + cbn [truthy_list]. rewrite (filter_nothing_dropped _ _ Ed).
      rewrite logged_more_nil. reflexivity.
    + reflexivity.
Qed.

(** One tool is assembled without a look at the world. *)
Lemma build_workspace_tool_uniform : forall tool_name pwt_config,
  (complete pwt_config = true
   /\ exists dict, wt_name dict = tool_name
        /\ forall w : World G, build_workspace_tool tool_name pwt_config w = (Value dict, w))
  \/ (complete pwt_config = false
      /\ exists e, (exists msg, e = AttributeError msg \/ e = TypeError msg \/ e = KeyError msg)
           /\ forall w : World G,
                build_workspace_tool tool_name pwt_config w = (Raised (Exception e), w)).
Proof.
  intros tool_name [[t i s x p] | v]; unfold complete, build_workspace_tool; cbn.
  2:{ right. split; [reflexivity |]. eexists. split; [| intros w; reflexivity].
      eexists. left. reflexivity. }
  destruct p as [p |]; cbn.
  - destruct (truthy_proxy p) eqn:Ht.
    + destruct p as [[port_ path_ sub_ rew_ others] | v]; cbn.
      * destruct others as [| key others]; cbn.
        -- destruct port_ as [n |]; cbn.
           ++ destruct t, i, s; cbn;
                first [ left; split; [reflexivity |]; eexists; split;
                        [| intros w; reflexivity]; reflexivity
                      | right; split; [reflexivity |]; eexists; split;
                        [| intros w; reflexivity]; eexists; right; right; reflexivity ].
           ++ right. split; [reflexivity |]. eexists. split; [| intros w; reflexivity].
              eexists. right. left. reflexivity.
        -- right. split; [destruct port_; reflexivity |]. eexists.
           split; [| intros w; reflexivity]. eexists. right. left. reflexivity.
      * right. split; [reflexivity |]. eexists. split; [| intros w; reflexivity].
        eexists. right. left. reflexivity.
    + destruct t, i, s; cbn;
        first [ left; split; [reflexivity |]; eexists; split; [| intros w; reflexivity];
                reflexivity
              | right; split; [reflexivity |]; eexists; split;
                [| intros w; reflexivity]; eexists; right; right; reflexivity ].
  - destruct t, i, s; cbn;
      first [ left; split; [reflexivity |]; eexists; split; [| intros w; reflexivity];
              reflexivity
            | right; split; [reflexivity |]; eexists; split;
              [| intros w; reflexivity]; eexists; right; right; reflexivity ].
Qed.

Lemma build_each_uniform : forall pwts,
  (forallb (fun p => complete (snd p)) pwts = true
   /\ exists dicts, map wt_name dicts = map fst pwts
        /\ forall self (w : World G),
             build_each pwts self w
             = (Value (set_workspace_tools (workspace_tools self ++ dicts) self), w))
  \/ (forallb (fun p => complete (snd p)) pwts = false
      /\ exists e, (exists msg, e = AttributeError msg \/ e = TypeError msg \/ e = KeyError msg)
           /\ forall self (w : World G), build_each pwts self w = (Raised (Exception e), w)).
Proof.
  induction pwts as [| [tool_name pwt_config] rest IH].
  - left. split; [reflexivity |]. exists []. split; [reflexivity |].
    intros self w. cbn. rewrite app_nil_r. destruct self; reflexivity.
  - cbn [forallb snd].
    destruct (build_workspace_tool_uniform tool_name pwt_config)
      as [[Hc (dict & Hname & Hrun)] | [Hc (e & He & Hrun)]]; rewrite Hc; cbn [andb].
    + destruct IH as [[Hall (dicts & Hnames & Hrest)] | [Hall (e & He & Hrest)]].
      * left. split; [exact Hall |]. exists (dict :: dicts). split.
        -- cbn. rewrite Hname, Hnames. reflexivity.
        -- intros self w. cbn [build_each]. unfold bind. rewrite Hrun, Hrest.
           cbn [workspace_tools set_workspace_tools]. rewrite <- app_assoc. reflexivity.
      * right. split; [exact Hall |]. exists e. split; [exact He |].
        intros self w. cbn [build_each]. unfold bind. rewrite Hrun, Hrest. reflexivity.
    + right. split; [reflexivity |]. exists e. split; [exact He |].
      intros self w. cbn [build_each]. unfold bind. rewrite Hrun. reflexivity.
Qed.

(** The tools of a document are assembled, or rejected, for every object. *)
Lemma build_workspace_tools_uniform : forall location f d,
  files os location = Some f -> safe_load f = YamlMapping d ->
  (assemblable d = true
   /\ exists dicts, map wt_name dicts = map fst (tools_of d)
        /\ forall self (w : World G),
             environment_config_location self = location ->
             build_workspace_tools os self w = (Value (set_workspace_tools dicts self), w))
  \/ (assemblable d = false
      /\ exists e, (exists msg, e = AttributeError msg \/ e = TypeError msg \/ e = KeyError msg)
           /\ forall self (w : World G),
                environment_config_location self = location ->
                build_workspace_tools os self w = (Raised (Exception e), w)).
Proof.
  intros location f d Hf Hy. unfold assemblable, tools_of.
  assert (Hstart : forall self (w : World G),
            environment_config_location self = location ->
            load_config os (environment_config_location self) w = (Value d, w))
    by (intros self w Hl; rewrite Hl; apply (load_config_mapping os _ f d w Hf Hy)).
  destruct (Doc.pluggableWorkspaceTools d) as [[pwts | v] |] eqn:Ep.
  - destruct (build_each_uniform pwts)
      as [[Hall (dicts & Hnames & Hbuild)] | [Hall (e & He & Hbuild)]].
    + left. split; [exact Hall |]. exists dicts. split; [exact Hnames |].
      intros self w Hl. unfold build_workspace_tools, bind.
      rewrite (Hstart self w Hl), Ep. cbn [as_mapping ret]. rewrite Hbuild. reflexivity.
    + right. split; [exact Hall |]. exists e. split; [exact He |].
      intros self w Hl. unfold build_workspace_tools, bind.
      rewrite (Hstart self w Hl), Ep. cbn [as_mapping ret]. rewrite Hbuild. reflexivity.
  - right. split; [reflexivity |]. eexists. split.
    2:{ intros self w Hl. unfold build_workspace_tools, bind.
        rewrite (Hstart self w Hl), Ep. reflexivity. }
    eexists. left. reflexivity.
  - left. split; [reflexivity |]. exists []. split; [reflexivity |].
    intros self w Hl. unfold build_workspace_tools, bind.
    rewrite (Hstart self w Hl), Ep. reflexivity.
Qed.

End Uniform.

Section UniformParse.

Context {G : Type}.
Variable os : FileSystem.

(** For a file that loads, [parse_config_file] raises for every object, or
    returns for every object the document as [loaded] shows it; it returns
    when [visibility] and [organizationOwnerId] are strings where they are
    truthy and the tools can be assembled. *)
Lemma parse_config_file_uniform : forall location f d,
  files os location = Some f -> safe_load f = YamlMapping d ->
  (exists e logged,
     forall self (w : World G),
       environment_config_location self = location ->
       parse_config_file os self w = (Raised (Exception e), logged_more w logged))
  \/ (Yaml.str_if_truthy (Doc.visibility d) = true
      /\ Yaml.str_if_truthy (Doc.organizationOwnerId d) = true
      /\ assemblable d = true
      /\ exists resolved clusters tools logged,
           map wt_name tools = map fst (tools_of d)
           /\ forall self (w : World G),
                environment_config_location self = location ->
                parse_config_file os self w
                = (Value (loaded d resolved clusters tools
                            (SHA256.hexdigest (content f)) self),
                   logged_more w logged)).
Proof.
  intros location f d Hf Hy.
  destruct (get_environment_visibility_uniform (G := G) os location f d Hf Hy)
    as [(e & Hvis) | (Hv & Ho & resolved & owner_set & l1 & Hvis)].
  { left. exists e, []. intros self w Hl. subst location.
    unfold parse_config_file, bind. cbv zeta.
    rewrite (load_config_mapping os _ f d w Hf Hy).
    rewrite Hvis by reflexivity. rewrite logged_more_nil. reflexivity. }
  destruct (get_supported_clusters_uniform (G := G) os location f d Hf Hy)
    as (clusters & l2 & Hclu).
  destruct (build_workspace_tools_uniform (G := G) os location f d Hf Hy)
    as [[Hall (tools & Hnames & Hbuild)] | [Hall (e & He & Hbuild)]].
  - right. split; [exact Hv |]. split; [exact Ho |]. split; [exact Hall |].
    exists resolved, clusters, tools, (l1 ++ l2)%list. split; [exact Hnames |].
    intros self w Hl. subst location.
    unfold parse_config_file, bind. cbv zeta.
    rewrite (load_config_mapping os _ f d w Hf Hy).
    rewrite Hvis by reflexivity.
    rewrite Hclu by (destruct owner_set; reflexivity).
    rewrite Hbuild by (destruct owner_set; reflexivity).
    unfold compute_config_file_hash.
    replace (environment_config_location (set_workspace_tools _ _))
      with (environment_config_location self) by (destruct owner_set; reflexivity).
    rewrite Hf, streamed_digest, logged_more_more.
    destruct owner_set; reflexivity.
  - left. exists e, (l1 ++ l2)%list.
    intros self w Hl. subst location.
    unfold parse_config_file, bind. cbv zeta.
    rewrite (load_config_mapping os _ f d w Hf Hy).
    rewrite Hvis by reflexivity.
    rewrite Hclu by (destruct owner_set; reflexivity).
    rewrite Hbuild by (destruct owner_set; reflexivity).
    rewrite logged_more_more. reflexivity.
Qed.

(** What a parse that returned has returned. *)
Lemma parse_config_file_value : forall self (w w1 : World G) ec,
  parse_config_file os self w = (Value ec, w1) ->
  exists f d resolved clusters tools logged,
    files os (environment_config_location self) = Some f
    /\ safe_load f = YamlMapping d
    /\ forall self2 (w2 : World G),
         environment_config_location self2 = environment_config_location self ->
         parse_config_file os self2 w2
         = (Value (loaded d resolved clusters tools (SHA256.hexdigest (content f)) self2),
            logged_more w2 logged).
Proof.
  intros self w w1 ec H.
  assert (Hload : exists d w0, load_config os (environment_config_location self) w
                               = (Value d, w0)).
  { unfold parse_config_file in H. unfold bind at 1 in H.
    destruct (load_config os (environment_config_location self) w) as [[d | r] w0];
      [eauto | discriminate]. }
  destruct Hload as (d & w0 & Hload).
  destruct (load_config_inv os _ _ _ _ Hload) as (_ & f & Hf & Hy).
  exists f, d.
  destruct (parse_config_file_uniform _ f d Hf Hy)
    as [(e & logged & Hraise)
       | (_ & _ & _ & resolved & clusters & tools & logged & _ & Hret)].
  - rewrite (Hraise self w eq_refl) in H. discriminate.
  - exists resolved, clusters, tools, logged. auto.
Qed.

(** A parse that returned has read strings: the visibility and the owner id
    of the document are strings where they are truthy, and the attribute
    [organization_owner_id] of the object is the owner id of the document,
    or empty. *)
Lemma parse_config_file_needs_strings : forall self (w w1 : World G) ec,
  parse_config_file os self w = (Value ec, w1) ->
  exists f d,
    files os (environment_config_location self) = Some f
    /\ safe_load f = YamlMapping d
    /\ Yaml.str_if_truthy (Doc.visibility d) = true
    /\ Yaml.str_if_truthy (Doc.organizationOwnerId d) = true
    /\ assemblable d = true
    /\ (Doc.organizationOwnerId d = Some (Yaml.Str (organization_owner_id ec))
        \/ (get_truthy Yaml.truthy (Doc.organizationOwnerId d) = false
            /\ organization_owner_id ec = "")).
Proof.
  intros self w w1 ec H.
  assert (Hload : exists d w0, load_config os (environment_config_location self) w
                               = (Value d, w0)).
  { unfold parse_config_file in H. unfold bind at 1 in H.
    destruct (load_config os (environment_config_location self) w) as [[d | r] w0];
      [eauto | discriminate]. }
  destruct Hload as (d & w0 & Hload).
  destruct (load_config_inv os _ _ _ _ Hload) as (_ & f & Hf & Hy).
  exists f, d.
  destruct (parse_config_file_uniform _ f d Hf Hy)
    as [(e & logged & Hraise)
       | (Hv & Ho & Ha & resolved & clusters & tools & logged & _ & Hret)].
  - rewrite (Hraise self w eq_refl) in H. discriminate.
  - rewrite (Hret self w eq_refl) in H. inversion H; subst.
    repeat (split; [assumption |]). cbn [organization_owner_id loaded].
    unfold Yaml.str_if_truthy in Ho.
    destruct (Doc.organizationOwnerId d) as [[| s | n | b | t x truth] |];
      cbn [get_truthy get_or Yaml.truthy Yaml.str] in *.
    + right. split; reflexivity.
    + destruct (PyStr.truthy s) eqn:Ht; [left; reflexivity | right; split; reflexivity].
    + destruct (n =? 0)%Z; [right; split; reflexivity | discriminate Ho].
    + destruct b; [discriminate Ho | right; split; reflexivity].
    + destruct truth; [discriminate Ho | right; split; reflexivity].
    + right. split; reflexivity.
Qed.

End UniformParse.

(** X9: when [parse_config_file] returns, the tags of the object are the
    tags of the document (none when the key is absent or empty) followed by
    the fingerprint, once and in the last place, and the fingerprint is the
    SHA-256 of the bytes of the file. *)
Theorem X9_fingerprint_is_the_last_tag :
  forall (G : Type) (os : FileSystem) (self : EnvironmentConfig) (w w1 : World G)
         (ec : EnvironmentConfig),
    parse_config_file os self w = (Value ec, w1) ->
    exists f d,
      files os (environment_config_location self) = Some f
      /\ safe_load f = YamlMapping d
      /\ config_file_hash ec = SHA256.hexdigest (content f)
      /\ tags ec = (get_or truthy_list (Doc.tags d) [] ++ [config_file_hash ec])%list.
Proof.
  intros G os self w w1 ec H.
  destruct (parse_config_file_value os self w w1 ec H)
    as (f & d & resolved & clusters & tools & logged & Hf & Hy & Hall).
  exists f, d. rewrite (Hall self w eq_refl) in H. inversion H; subst.
  repeat split; auto.
Qed.

(** The declaration with three clusters and no tag of its own: the
    fingerprint is the only tag. *)
Lemma X9_fingerprint_is_the_last_tag_witness :
  exists ec w1 f d,
    parse_config_file (Examples.one Examples.three_clusters)
      (new_EnvironmentConfig (config_location Examples.templates "team-env"))
      (Platform.start []) = (Value ec, w1)
    /\ files (Examples.one Examples.three_clusters)
         (config_location Examples.templates "team-env") = Some f
    /\ safe_load f = YamlMapping d
    /\ config_file_hash ec = SHA256.hexdigest (content f)
    /\ tags ec = (get_or truthy_list (Doc.tags d) [] ++ [config_file_hash ec])%list.
Proof.
  assert (E : exists ec w1,
             parse_config_file (Examples.one Examples.three_clusters)
               (new_EnvironmentConfig (config_location Examples.templates "team-env"))
               (Platform.start []) = (Value ec, w1))
    by (eexists; eexists; vm_compute; reflexivity).
  destruct E as (ec & w1 & E).
  destruct (X9_fingerprint_is_the_last_tag Platform.t (Examples.one Examples.three_clusters)
              (new_EnvironmentConfig (config_location Examples.templates "team-env"))
              (Platform.start []) w1 ec E) as (f & d & Hf & Hy & Hh & Ht).
  exists ec, w1, f, d. repeat split; assumption.
Defined.

(** X10: parsing the declaration again into an object that was parsed gives
    the same object.  [create_environment] does parse a second time: the
    fingerprint is not appended twice and nothing that was resolved
    changes. *)
Theorem X10_parsing_again_changes_nothing :
  forall (G : Type) (os : FileSystem) (self : EnvironmentConfig) (w w1 : World G)
         (ec : EnvironmentConfig),
    parse_config_file os self w = (Value ec, w1) ->
    forall w2 : World G,
      exists w3, parse_config_file os ec w2 = (Value ec, w3)
                 /\ remote w3 = remote w2 /\ calls w3 = calls w2.
Proof.
  intros G os self w w1 ec H w2.
  destruct (parse_config_file_value os self w w1 ec H)
    as (f & d & resolved & clusters & tools & logged & Hf & Hy & Hall).
  rewrite (Hall self w eq_refl) in H. inversion H; subst.
  eexists. split; [| split].
  - match goal with |- context [parse_config_file os ?s w2] =>
      rewrite (Hall s w2 eq_refl) end.
    reflexivity.
  - reflexivity.
  - reflexivity.
Qed.

Lemma X10_parsing_again_changes_nothing_witness :
  exists ec w1 w3,
    parse_config_file (Examples.one Examples.three_clusters)
      (new_EnvironmentConfig (config_location Examples.templates "team-env"))
      (Platform.start []) = (Value ec, w1)
    /\ parse_config_file (Examples.one Examples.three_clusters) ec
         (Platform.start Examples.base_restricted) = (Value ec, w3)
    /\ remote w3 = Examples.base_restricted /\ calls w3 = [].
Proof.
  assert (E : exists ec w1,
             parse_config_file (Examples.one Examples.three_clusters)
               (new_EnvironmentConfig (config_location Examples.templates "team-env"))
               (Platform.start []) = (Value ec, w1))
    by (eexists; eexists; vm_compute; reflexivity).
  destruct E as (ec & w1 & E).
  destruct (X10_parsing_again_changes_nothing Platform.t
              (Examples.one Examples.three_clusters)
              (new_EnvironmentConfig (config_location Examples.templates "team-env"))
              (Platform.start []) w1 ec E (Platform.start Examples.base_restricted))
    as (w3 & H3 & Hr & Hc).
  exists ec, w1, w3. repeat split; assumption.
Defined.

(** ** Workspace tools *)

(** X11: [build_workspace_tools] returns exactly when the tools of the
    document can be assembled: [pluggableWorkspaceTools] is absent or a
    mapping, every tool is a mapping with title, iconUrl and start, and an
    httpProxy that is truthy is a mapping with a port and with no key that
    [ProxyConfig] has no field for.  It then replaces the tools of the
    object by one dictionary per tool, in the order of the document, each
    named after its key.  Otherwise it raises an [AttributeError], a
    [TypeError] or a [KeyError]; in both cases it logs nothing and calls
    nothing. *)
Theorem X11_workspace_tools_are_assembled_or_rejected :
  forall (G : Type) (os : FileSystem) (self : EnvironmentConfig) (w : World G)
         (f : File) (d : Doc.t),
    files os (environment_config_location self) = Some f ->
    safe_load f = YamlMapping d ->
    (assemblable d = true ->
     exists dicts,
       build_workspace_tools os self w = (Value (set_workspace_tools dicts self), w)
       /\ map wt_name dicts = map fst (tools_of d))
    /\ (assemblable d = false ->
        exists e,
          build_workspace_tools os self w = (Raised (Exception e), w)
          /\ exists msg, e = AttributeError msg \/ e = TypeError msg \/ e = KeyError msg).
Proof.
  intros G os self w f d Hf Hy.
  destruct (build_workspace_tools_uniform (G := G) os _ f d Hf Hy)
    as [[Hall (dicts & Hnames & Hbuild)] | [Hall (e & He & Hbuild)]]; rewrite Hall.
  - split; [| discriminate]. intros _. exists dicts.
    rewrite (Hbuild self w eq_refl). split; [reflexivity | exact Hnames].
  - split; [discriminate |]. intros _. exists e.
    rewrite (Hbuild self w eq_refl). split; [reflexivity | exact He].
Qed.

(** A proxy with a port and a key that the dataclass does not have: a
    [TypeError], and nothing assembled. *)
Lemma X11_workspace_tools_are_assembled_or_rejected_witness :
  exists e,
    build_workspace_tools (Examples.one Cases.unknown_proxy_key)
      (new_EnvironmentConfig (config_location Examples.templates "team-env"))
      (Platform.start [])
    = (Raised (Exception e), Platform.start [])
    /\ exists msg, e = AttributeError msg \/ e = TypeError msg \/ e = KeyError msg.
Proof.
  exact (proj2 (X11_workspace_tools_are_assembled_or_rejected Platform.t
                  (Examples.one Cases.unknown_proxy_key)
                  (new_EnvironmentConfig (config_location Examples.templates "team-env"))
                  (Platform.start []) Cases.unknown_proxy_key
                  (Examples.declaration (Some "team-env") None None None None
                     (Some [("jupyter", Cases.tool_with_unknown_proxy_key)]))
                  eq_refl eq_refl) eq_refl).
Defined.

(** What the code does on the documents of the three kinds: a key with
    nothing under it, a proxy with a key too many, a tool without a title. *)
Example build_workspace_tools_examples :
  let ec := new_EnvironmentConfig (config_location Examples.templates "team-env") in
  build_workspace_tools (Examples.one Cases.empty_tools_key) ec (Platform.start [])
  = (Raised (Exception (AttributeError "'NoneType' object has no attribute 'items'")),
     Platform.start [])
  /\ build_workspace_tools (Examples.one Cases.unknown_proxy_key) ec (Platform.start [])
     = (Raised (Exception (TypeError "got an unexpected keyword argument 'timeout'")),
        Platform.start [])
  /\ build_workspace_tools (Examples.one Examples.broken_tool) ec (Platform.start [])
     = (Raised (Exception (KeyError "title")), Platform.start []).
Proof. repeat split. Qed.

(** ** Rules for [runs_within] *)

Section Within.

Context {G : Type}.
Variable allowed : Domino.call -> Prop.

Lemma runs_within_ret {A : Type} (post : A -> Prop) (a : A) :
  post a -> runs_within allowed post (@ret G A a).
Proof.
  intros Ha w. split.
  - exists [], []. cbn. rewrite !app_nil_r. auto.
  - intros b w' H. inversion H; subst. exact Ha.
Qed.

Lemma runs_within_raise {A : Type} (post : A -> Prop) (e : py_exception) :
  runs_within allowed post (@raise G A e).
Proof.
  intros w. split.
  - exists [], []. cbn. rewrite !app_nil_r. auto.
  - intros b w' H. discriminate H.
Qed.

Lemma runs_within_log (post : unit -> Prop) (l : level) (m : message) :
  post tt -> runs_within allowed post (@log G l m).
Proof.
  intros Ht w. split.
  - exists [], [(l, m)]. cbn. rewrite app_nil_r. auto.
  - intros [] w' _. exact Ht.
Qed.

Lemma runs_within_invoke {A : Type} (post : A -> Prop) (c : Domino.call)
    (method : G -> Domino.response A * G) :
  allowed c -> (forall a, post a) -> runs_within allowed post (invoke c method).
Proof.
  intros Hc Hpost w. split.
  - exists [c], []. unfold invoke.
    destruct (method (remote w)) as [[a | msg] g]; cbn; rewrite app_nil_r; auto.
  - intros a w' _. apply Hpost.
Qed.

Lemma runs_within_bind {A B : Type} (mid : A -> Prop) (post : B -> Prop)
    (m : M G A) (k : A -> M G B) :
  runs_within allowed mid m ->
  (forall a, mid a -> runs_within allowed post (k a)) ->
  runs_within allowed post (bind m k).
Proof.
  intros Hm Hk w. destruct (Hm w) as [(added & logged & Hc & Hl & Hall) Hmid].
  unfold bind. destruct (m w) as [[a | r] w1] eqn:E; cbn [snd] in *.
  - destruct (Hk a (Hmid a w1 eq_refl) w1) as [(added2 & logged2 & Hc2 & Hl2 & Hall2) Hpost].
    split.
    + exists (added ++ added2)%list, (logged ++ logged2)%list.
      rewrite Hc2, Hl2, Hc, Hl, !app_assoc. repeat split; auto.
      apply Forall_app. auto.
    + exact Hpost.
  - split.
    + exists added, logged. auto.
    + intros b w' H. discriminate H.
Qed.

Lemma runs_within_weaken {A : Type} (post post' : A -> Prop) (m : M G A) :
  runs_within allowed post m -> (forall a, post a -> post' a) ->
  runs_within allowed post' m.
Proof.
  intros Hm Himp w. destruct (Hm w) as [H1 H2]. split; [exact H1 |].
  intros a w' H. apply Himp. eapply H2. exact H.
Qed.

(** The handler of [process_single_environment] adds one log record. *)
Lemma runs_within_try_except (m : M G unit) (environment : string) :
  runs_within allowed (fun _ => True) m ->
  runs_within allowed (fun _ => True)
    (try_except_Exception m (fun e => log ERROR (FailedToProcess environment e))).
Proof.
  intros Hm w. destruct (Hm w) as [(added & logged & Hc & Hl & Hall) _].
  split; [| auto].
  unfold try_except_Exception.
  destruct (m w) as [[u | [e | code]] w1]; cbn [snd] in *.
  - exists added, logged. auto.
  - exists added, (logged ++ [(ERROR, FailedToProcess environment e)])%list.
    cbn. rewrite Hc, Hl, app_assoc. auto.
  - exists added, logged. auto.
Qed.

(** An offline computation adds no call at all. *)
Lemma runs_within_offline {A : Type} (m : M G A) :
  offline m ->
  (forall w, exists logged, logs (snd (m w)) = (logs w ++ logged)%list) ->
  runs_within allowed (fun _ => True) m.
Proof.
  intros Hoff Hlogs w. destruct (Hoff w) as [_ Hc]. destruct (Hlogs w) as [logged Hl].
  split; [| auto]. exists [], logged. rewrite app_nil_r. auto.
Qed.

End Within.

(** ** The calls of the engine's methods *)

Section EngineWithin.

Context {G : Type}.
Variable domino : Domino.client G.
Variable os : FileSystem.
Variable allowed : Domino.call -> Prop.

Hypothesis allowed_get : forall environment_id, allowed (Domino.GetEnvironment environment_id).

Lemma restrict_environment_revision_within : forall self,
  (is_restricted self = true ->
   forall environment_id revision_id,
     allowed (Domino.RestrictEnvironmentRevision environment_id revision_id)) ->
  runs_within allowed (fun _ => True) (restrict_environment_revision domino self).
Proof.
  intros self Hres. unfold restrict_environment_revision.
  apply runs_within_bind with (mid := fun _ => True).
  - apply runs_within_invoke; auto.
  - intros e _. destruct (Domino.selectedRevision e) as [selected |].
    + apply runs_within_bind with (mid := fun _ => True).
      * apply runs_within_log. exact I.
      * intros _ _.
        destruct (negb (get_truthy PyStr.truthy (Domino.restrictedRevision e))
                  && Bool.eqb (is_restricted self) true) eqn:Hcond.
        -- apply andb_true_iff in Hcond. destruct Hcond as [_ Hr]. apply eqb_prop in Hr.
           apply runs_within_bind with (mid := fun _ => True).
           ++ apply runs_within_log. exact I.
           ++ intros _ _. apply runs_within_invoke; auto.
        -- apply runs_within_ret. exact I.
    + apply runs_within_ret. exact I.
Qed.

Lemma create_environment_revision_within : forall self,
  (forall args, allowed (Domino.CreateEnvironmentRevision args)) ->
  (is_restricted self = true ->
   forall environment_id revision_id,
     allowed (Domino.RestrictEnvironmentRevision environment_id revision_id)) ->
  runs_within allowed (fun _ => True) (create_environment_revision domino self).
Proof.
  intros self Hrev Hres. unfold create_environment_revision, get_latest_revision.
  apply runs_within_bind with (mid := fun _ => True).
  - apply runs_within_bind with (mid := fun _ => True).
    + apply runs_within_invoke; auto.
    + intros e _. apply runs_within_ret. exact I.
  - intros unchanged _. destruct unchanged.
    + apply runs_within_log. exact I.
    + apply runs_within_bind with (mid := fun _ => True).
      * apply runs_within_invoke; auto.
      * intros _ _. apply restrict_environment_revision_within. exact Hres.
Qed.

(** The world after [parse_config_file]: the same, with more log records. *)
Lemma parse_config_file_world : forall self (w : World G),
  exists logged, snd (parse_config_file os self w) = logged_more w logged.
Proof.
  intros self w.
  destruct (files os (environment_config_location self)) as [f |] eqn:Hf.
  - destruct (safe_load f) as [msg | | d] eqn:Hy.
    + exists []. unfold parse_config_file, bind, load_config. rewrite Hf, Hy.
      cbn. rewrite logged_more_nil. reflexivity.
    + exists []. unfold parse_config_file, bind, load_config. rewrite Hf, Hy.
      cbn. rewrite logged_more_nil. reflexivity.
    + destruct (parse_config_file_uniform (G := G) os _ f d Hf Hy)
        as [(e & logged & H) | (_ & _ & _ & r & c & t & logged & _ & H)];
        exists logged; rewrite (H self w eq_refl); reflexivity.
  - exists []. unfold parse_config_file, bind, load_config. rewrite Hf.
    cbn. rewrite logged_more_nil. reflexivity.
Qed.

(** [parse_config_file] within any bounds: it calls nothing, and what it
    returns is the document as [loaded] shows it. *)
Lemma parse_config_file_within : forall self,
  runs_within (G := G) allowed
    (fun ec => exists f d resolved clusters tools,
       files os (environment_config_location self) = Some f
       /\ safe_load f = YamlMapping d
       /\ ec = loaded d resolved clusters tools (SHA256.hexdigest (content f)) self)
    (parse_config_file os self).
Proof.
  intros self w. split.
  - destruct (parse_config_file_world self w) as [logged Hw].
    exists [], logged. rewrite Hw. cbn. rewrite app_nil_r. auto.
  - intros ec w' H.
    destruct (parse_config_file_value os self w w' ec H)
      as (f & d & resolved & clusters & tools & logged & Hf & Hy & Hall).
    exists f, d, resolved, clusters, tools. rewrite (Hall self w eq_refl) in H.
    inversion H. auto.
Qed.

Hypothesis allowed_list : allowed Domino.EnvironmentsList.

Lemma check_environment_exists_within : forall self,
  runs_within allowed
    (fun r => fst r = self \/ exists i, fst r = set_environment_id i self)
    (check_environment_exists domino self).
Proof.
  intros self. unfold check_environment_exists.
  apply runs_within_bind with (mid := fun _ => True).
  - apply runs_within_invoke; auto.
  - intros envs _. destruct (find _ envs) as [ee |].
    + apply runs_within_ret. right. eexists. reflexivity.
    + apply runs_within_ret. left. reflexivity.
Qed.

End EngineWithin.

Section ReconcileWithin.

Context {G : Type}.
Variable domino : Domino.client G.
Variable os : FileSystem.
Variable allowed : Domino.call -> Prop.

(** What is known of the object while it is reconciled. *)
Variable known : EnvironmentConfig -> Prop.

Hypothesis allowed_get : forall environment_id, allowed (Domino.GetEnvironment environment_id).
Hypothesis allowed_list : allowed Domino.EnvironmentsList.
Hypothesis allowed_create : forall args, allowed (Domino.CreateEnvironment args).
Hypothesis allowed_revision : forall args, allowed (Domino.CreateEnvironmentRevision args).
Hypothesis allowed_restrict :
  forall self, known self -> is_restricted self = true ->
    forall environment_id revision_id,
      allowed (Domino.RestrictEnvironmentRevision environment_id revision_id).
Hypothesis known_with_id :
  forall i self, known self -> known (set_environment_id i self).
Hypothesis known_parsed :
  forall self, known self -> runs_within (G := G) allowed known (parse_config_file os self).

Lemma create_environment_within : forall self,
  known self -> runs_within allowed known (create_environment domino os self).
Proof.
  intros self Hself. unfold create_environment.
  apply runs_within_bind with (mid := known); [apply known_parsed; exact Hself |].
  intros ec Hec.
  apply runs_within_bind with (mid := fun _ => True); [apply runs_within_invoke; auto |].
  intros _ _.
  apply runs_within_bind
    with (mid := fun r => fst r = ec \/ exists i, fst r = set_environment_id i ec).
  - apply check_environment_exists_within; auto.
  - intros r [Hr | [i Hr]]; apply runs_within_ret; rewrite Hr; auto.
Qed.

Lemma create_environment_if_not_exist_within : forall self,
  known self ->
  runs_within allowed (fun r => known (fst r)) (create_environment_if_not_exist domino os self).
Proof.
  intros self Hself. unfold create_environment_if_not_exist.
  destruct (negb (PyStr.truthy (name self))).
  - apply runs_within_bind with (mid := fun _ => True); [apply runs_within_log; exact I |].
    intros _ _. apply runs_within_ret. exact Hself.
  - apply runs_within_bind
      with (mid := fun r => fst r = self \/ exists i, fst r = set_environment_id i self).
    + apply check_environment_exists_within; auto.
    + intros r Hr. cbv zeta.
      assert (Hk : known (fst r)) by (destruct Hr as [-> | [i ->]]; auto).
      destruct (PyStr.truthy (environment_id (fst r))).
      * apply runs_within_bind with (mid := fun _ => True); [apply runs_within_log; exact I |].
        intros _ _. apply runs_within_ret. exact Hk.
      * apply runs_within_bind with (mid := fun _ => True); [apply runs_within_log; exact I |].
        intros _ _.
        apply runs_within_bind with (mid := known); [apply create_environment_within; exact Hk |].
        intros ec Hec. apply runs_within_ret. exact Hec.
Qed.

Lemma reconcile_within : forall location,
  runs_within (G := G) allowed known (parse_config_file os (new_EnvironmentConfig location)) ->
  runs_within allowed (fun _ => True) (reconcile domino os location).
Proof.
  intros location Hstart. unfold reconcile.
  apply runs_within_bind with (mid := known); [exact Hstart |].
  intros ec Hec.
  apply runs_within_bind with (mid := fun r => known (fst r));
    [apply create_environment_if_not_exist_within; exact Hec |].
  intros r Hr. cbv zeta.
  apply runs_within_bind with (mid := fun _ => True).
  - apply create_environment_revision_within; auto. intros H. eapply allowed_restrict; eauto.
  - intros _ _. apply restrict_environment_revision_within; auto.
    intros H. eapply allowed_restrict; eauto.
Qed.

Lemma process_single_environment_within : forall environment target,
  runs_within (G := G) allowed known
    (parse_config_file os (new_EnvironmentConfig (config_location target environment))) ->
  runs_within allowed (fun _ => True) (process_single_environment domino os environment target).
Proof.
  intros environment target Hstart. unfold process_single_environment.
  destruct (files os (config_location target environment)).
  - apply runs_within_try_except. apply reconcile_within. exact Hstart.
  - apply runs_within_log. exact I.
Qed.

End ReconcileWithin.

(** X12: a declaration whose [isRestricted] is absent or false is never
    restricted: whatever the platform answers, whether the environment is
    created, revised or left alone, [process_single_environment] makes no
    restrict call. *)
Theorem X12_unrestricted_declaration_never_restricts :
  forall (G : Type) (domino : Domino.client G) (os : FileSystem)
         (environment target : string) (w : World G) (f : File) (d : Doc.t),
    files os (config_location target environment) = Some f ->
    safe_load f = YamlMapping d ->
    get_or (fun b : bool => b) (Doc.isRestricted d) false = false ->
    exists added,
      calls (snd (process_single_environment domino os environment target w))
      = (calls w ++ added)%list
      /\ Forall (fun c => is_restrict c = false) added.
Proof.
  intros G domino os environment target w f d Hf Hy Hd.
  set (location := config_location target environment) in *.
  set (known := fun ec => environment_config_location ec = location
                          /\ is_restricted ec = false).
  assert (Hparsed : forall self, environment_config_location self = location ->
            runs_within (G := G) (fun c => is_restrict c = false) known
              (parse_config_file os self)).
  { intros self Hl.
    eapply runs_within_weaken; [apply parse_config_file_within |].
    intros ec (f' & d' & resolved & clusters & tools & Hf' & Hy' & Hec).
    rewrite Hl, Hf in Hf'. inversion Hf'; subst f'.
    rewrite Hy in Hy'. inversion Hy'; subst d'.
    subst ec. split; [exact Hl | exact Hd]. }
  destruct (process_single_environment_within domino os (fun c => is_restrict c = false) known
              (fun _ => eq_refl) eq_refl (fun _ => eq_refl) (fun _ => eq_refl)) with
    (environment := environment) (target := target) (w := w)
    as [(added & logged & Hc & _ & Hall) _].
  - intros self [_ Hfalse] Htrue. congruence.
  - intros i self [Hl Hr]. split; assumption.
  - intros self [Hl _]. apply Hparsed. exact Hl.
  - apply Hparsed. reflexivity.
  - exists added. auto.
Qed.

(** A declaration with nothing but a name, created on an empty platform. *)
Lemma X12_unrestricted_declaration_never_restricts_witness :
  exists added,
    calls (snd (process_single_environment Platform.client Examples.batch_of_three "first"
                  Examples.templates (Platform.start [])))
    = ([] ++ added)%list
    /\ Forall (fun c => is_restrict c = false) added.
Proof.
  exact (X12_unrestricted_declaration_never_restricts Platform.t Platform.client
           Examples.batch_of_three "first" Examples.templates (Platform.start [])
           (Examples.plain "first")
           (Examples.declaration (Some "first") None None None None None)
           eq_refl eq_refl eq_refl).
Defined.

(** ** The batch as a whole *)

Section BatchWithin.

Context {G : Type}.
Variable allowed : Domino.call -> Prop.

Lemma runs_within_sys_exit {A : Type} (post : A -> Prop) (code : Z) :
  runs_within allowed post (@sys_exit G A code).
Proof.
  intros w. split.
  - exists [], []. cbn. rewrite !app_nil_r. auto.
  - intros b w' H. discriminate H.
Qed.

Lemma runs_within_for_each {A : Type} (body : A -> M G unit) :
  (forall x, runs_within allowed (fun _ => True) (body x)) ->
  forall xs, runs_within allowed (fun _ => True) (for_each xs body).
Proof.
  intros Hbody. induction xs as [| x xs IH]; cbn [for_each].
  - apply runs_within_ret. exact I.
  - apply runs_within_bind with (mid := fun _ => True); [apply Hbody | intros _ _; exact IH].
Qed.

End BatchWithin.

(** X13: the batch never archives.  Whatever the declarations and whatever
    the platform answers, [process_all_environments] only adds to the calls
    and to the log, and none of the calls it adds is [archive_environment]:
    nothing is removed from the platform by a run. *)
Theorem X13_batch_never_archives :
  forall (G : Type) (domino : Domino.client G) (os : FileSystem) (target : string)
         (w : World G),
    exists added logged,
      calls (snd (process_all_environments domino os target w)) = (calls w ++ added)%list
      /\ logs (snd (process_all_environments domino os target w)) = (logs w ++ logged)%list
      /\ Forall (fun c => is_archive c = false) added.
Proof.
  intros G domino os target w.
  assert (H : runs_within (fun c => is_archive c = false) (fun _ : unit => True)
                (process_all_environments domino os target)).
  { unfold process_all_environments.
    apply runs_within_bind with (mid := fun _ => True).
    - destruct (negb (truthy_list (listdir os target))).
      + apply runs_within_bind with (mid := fun _ => True);
          [apply runs_within_log; exact I | intros _ _; apply runs_within_sys_exit].
      + apply runs_within_ret. exact I.
    - intros _ _.
      apply runs_within_bind with (mid := fun _ => True); [apply runs_within_log; exact I |].
      intros _ _.
      apply runs_within_bind with (mid := fun _ => True); [| intros _ _; apply runs_within_sys_exit].
      apply runs_within_for_each. intros environment.
      apply process_single_environment_within with (known := fun _ => True); auto.
      + intros self _. eapply runs_within_weaken; [apply parse_config_file_within | auto].
      + eapply runs_within_weaken; [apply parse_config_file_within | auto]. }
  destruct (H w) as [(added & logged & Hc & Hl & Hall) _].
  exists added, logged. auto.
Qed.

(** ** Steps of a computation, one at a time *)

Section Steps.

Context {G : Type}.

Lemma bind_assoc {A B C : Type} (m : M G A) (k : A -> M G B) (h : B -> M G C) :
  forall w, bind (bind m k) h w = bind m (fun a => bind (k a) h) w.
Proof.
  intros w. unfold bind. destruct (m w) as [[a | r] w1]; reflexivity.
Qed.

Lemma bind_ret {A B : Type} (a : A) (k : A -> M G B) :
  forall w, bind (ret a) k w = k a w.
Proof. reflexivity. Qed.

Lemma bind_log {B : Type} (l : level) (m : message) (k : unit -> M G B) :
  forall w, bind (log l m) k w = k tt (logged_more w [(l, m)]).
Proof. reflexivity. Qed.

Lemma bind_invoke {A B : Type} (c : Domino.call) (method : G -> Domino.response A * G)
    (k : A -> M G B) :
  forall w,
    bind (invoke c method) k w
    = match method (remote w) with
      | (Domino.Returns a, g) =>
          k a {| remote := g; calls := calls w ++ [c]; logs := logs w |}
      | (Domino.Fails msg, g) =>
          (Raised (Exception (ClientError msg)),
           {| remote := g; calls := calls w ++ [c]; logs := logs w |})
      end.
Proof.
  intros w. unfold bind, invoke.
  destruct (method (remote w)) as [[a | msg] g]; reflexivity.
Qed.

End Steps.

Section FirstCall.

Context {G : Type}.
Variable allowed : Domino.call -> Prop.

(** A call, then a computation within bounds: the call comes first. *)
Lemma first_call_invoke {A B : Type} (c : Domino.call)
    (method : G -> Domino.response A * G) (k : A -> M G B) :
  (forall a, runs_within allowed (fun _ => True) (k a)) ->
  forall w,
    exists rest logged,
      calls (snd (bind (invoke c method) k w)) = (calls w ++ c :: rest)%list
      /\ logs (snd (bind (invoke c method) k w)) = (logs w ++ logged)%list
      /\ Forall allowed rest.
Proof.
  intros Hk w. rewrite bind_invoke.
  destruct (method (remote w)) as [[a | msg] g].
  - match goal with |- context [k a ?w2] =>
      destruct (Hk a w2) as [(rest & logged & Hc & Hl & Hall) _] end.
    exists rest, logged. rewrite Hc, Hl. cbn [calls logs].
    rewrite <- app_assoc. auto.
  - exists [], []. cbn. rewrite app_nil_r. auto.
Qed.

Variable domino : Domino.client G.

Hypothesis allowed_get : forall environment_id, allowed (Domino.GetEnvironment environment_id).
Hypothesis allowed_revision : forall args, allowed (Domino.CreateEnvironmentRevision args).
Hypothesis allowed_restrict :
  forall environment_id revision_id,
    allowed (Domino.RestrictEnvironmentRevision environment_id revision_id).

(** The revision step and the enforcement after it begin by reading the
    environment. *)
Lemma revision_then_restriction_calls : forall self (w : World G),
  exists rest logged,
    calls (snd ((create_environment_revision domino self ;;
                 restrict_environment_revision domino self) w))
    = (calls w ++ Domino.GetEnvironment (environment_id self) :: rest)%list
    /\ logs (snd ((create_environment_revision domino self ;;
                   restrict_environment_revision domino self) w))
       = (logs w ++ logged)%list
    /\ Forall allowed rest.
Proof.
  intros self w. unfold create_environment_revision, get_latest_revision.
  rewrite !bind_assoc. apply first_call_invoke.
  intros e. cbv beta.
  apply runs_within_bind with (mid := fun _ => True); [apply runs_within_ret; exact I |].
  intros unchanged _.
  apply runs_within_bind with (mid := fun _ => True).
  - destruct unchanged.
    + apply runs_within_log. exact I.
    + apply runs_within_bind with (mid := fun _ => True); [apply runs_within_invoke; auto |].
      intros _ _. apply restrict_environment_revision_within; auto.
  - intros _ _. apply restrict_environment_revision_within; auto.
Qed.

(** Two enforcements in a row begin by reading the environment. *)
Lemma restriction_twice_calls : forall self (w : World G),
  exists rest logged,
    calls (snd ((restrict_environment_revision domino self ;;
                 restrict_environment_revision domino self) w))
    = (calls w ++ Domino.GetEnvironment (environment_id self) :: rest)%list
    /\ logs (snd ((restrict_environment_revision domino self ;;
                   restrict_environment_revision domino self) w))
       = (logs w ++ logged)%list
    /\ Forall allowed rest.
Proof.
  intros self w. unfold restrict_environment_revision at 1 3.
  rewrite !bind_assoc. apply first_call_invoke.
  intros e. cbv beta.
  apply runs_within_bind with (mid := fun _ => True).
  - destruct (Domino.selectedRevision e) as [selected |].
    + apply runs_within_bind with (mid := fun _ => True); [apply runs_within_log; exact I |].
      intros _ _. destruct (negb _ && _).
      * apply runs_within_bind with (mid := fun _ => True); [apply runs_within_log; exact I |].
        intros _ _. apply runs_within_invoke; auto.
      * apply runs_within_ret. exact I.
    + apply runs_within_ret. exact I.
  - intros _ _. apply restrict_environment_revision_within; auto.
Qed.

End FirstCall.

(** ** A declaration without a name *)

(** X14: a declaration that loads but has no name (the key is absent or
    empty) is reported with the error that an environment requires a name;
    nothing is listed and nothing is created.  The run is not stopped there:
    it goes on to the revision step with the empty environment id, so its
    first call to the client is [get_environment] of the empty string. *)
Theorem X14_nameless_declaration_goes_on :
  forall (G : Type) (domino : Domino.client G) (os : FileSystem)
         (environment target : string) (w w1 : World G) (f : File)
         (ec : EnvironmentConfig),
    files os (config_location target environment) = Some f ->
    parse_config_file os (new_EnvironmentConfig (config_location target environment)) w
    = (Value ec, w1) ->
    PyStr.truthy (name ec) = false ->
    exists w' rest,
      process_single_environment domino os environment target w = (Value tt, w')
      /\ calls w' = (calls w ++ Domino.GetEnvironment "" :: rest)%list
      /\ Forall (fun c => c <> Domino.EnvironmentsList /\ is_create c = false) rest
      /\ In (ERROR, NameRequired) (logs w').
Proof.
  intros G domino os environment target w w1 f ec Hf Hparse Hname.
  set (location := config_location target environment) in *.
  assert (Hid : environment_id ec = "").
  { destruct (parse_config_file_value os _ w w1 ec Hparse)
      as (f' & d & resolved & clusters & tools & logged & _ & _ & Hall).
    rewrite (Hall _ w eq_refl) in Hparse. inversion Hparse. reflexivity. }
  destruct (offline_parse_config_file os (new_EnvironmentConfig location) w) as [_ Hc1].
  rewrite Hparse in Hc1. cbn [snd] in Hc1.
  assert (Hrec : reconcile domino os location w
                 = (create_environment_revision domino ec ;;
                    restrict_environment_revision domino ec)
                     (logged_more w1 [(ERROR, NameRequired)])).
  { unfold reconcile. unfold bind at 1. rewrite Hparse.
    unfold create_environment_if_not_exist. rewrite Hname. cbn [negb].
    rewrite bind_assoc, bind_log, bind_ret. reflexivity. }
  destruct (process_single_environment_returns domino os environment target w) as [w' Hrun].
  assert (Hw' : w' = snd (process_single_environment domino os environment target w))
    by (rewrite Hrun; reflexivity).
  unfold process_single_environment in Hw'. fold location in Hw'. rewrite Hf in Hw'.
  destruct (try_except_log_calls (reconcile domino os location) environment w)
    as [Hcalls [logged Hlogs]].
  rewrite <- Hw' in Hcalls, Hlogs. rewrite Hrec in Hcalls, Hlogs.
  destruct (revision_then_restriction_calls
              (fun c => c <> Domino.EnvironmentsList /\ is_create c = false) domino
              ltac:(intros; split; [discriminate | reflexivity])
              ltac:(intros; split; [discriminate | reflexivity])
              ltac:(intros; split; [discriminate | reflexivity])
              ec (logged_more w1 [(ERROR, NameRequired)]))
    as (rest & logged2 & Hc & Hl & Hall).
  exists w', rest. split; [exact Hrun |].
  rewrite Hcalls, Hc, Hlogs, Hl, Hid. cbn [calls logs logged_more]. rewrite Hc1.
  repeat split; auto.
  apply in_or_app. left. apply in_or_app. left. apply in_or_app. right. left. reflexivity.
Qed.

(** A document with an image and no name, on an empty platform. *)
Lemma X14_nameless_declaration_goes_on_witness :
  exists w' rest,
    process_single_environment Platform.client (Examples.one Cases.nameless)
      "team-env" Examples.templates (Platform.start [])
    = (Value tt, w')
    /\ calls w' = ([] ++ Domino.GetEnvironment "" :: rest)%list
    /\ Forall (fun c => c <> Domino.EnvironmentsList /\ is_create c = false) rest
    /\ In (ERROR, NameRequired) (logs w').
Proof.
  assert (E : exists ec w1,
             parse_config_file (Examples.one Cases.nameless)
               (new_EnvironmentConfig (config_location Examples.templates "team-env"))
               (Platform.start []) = (Value ec, w1)
             /\ PyStr.truthy (name ec) = false)
    by (eexists; eexists; split; [vm_compute; reflexivity | reflexivity]).
  destruct E as (ec & w1 & E & Hname).
  exact (X14_nameless_declaration_goes_on Platform.t Platform.client
           (Examples.one Cases.nameless) "team-env" Examples.templates
           (Platform.start []) w1 Cases.nameless ec eq_refl E Hname).
Defined.

(** ** An environment that exists and has changed *)

Section Changed.

Context {G : Type}.
Variable domino : Domino.client G.
Variable os : FileSystem.

(** [reconcile] up to the two restriction enforcements, when the environment
    exists, its fingerprint is not among the active tags and the revision is
    accepted. *)
Lemma reconcile_changed :
  forall location (w : World G) ec w1 envs g1 ee e g2 g3,
    parse_config_file os (new_EnvironmentConfig location) w = (Value ec, w1) ->
    PyStr.truthy (name ec) = true ->
    Domino.environments_list domino (remote w) = (Domino.Returns envs, g1) ->
    find (fun x => (Domino.env_name x =? name ec)%string) envs = Some ee ->
    PyStr.truthy (Domino.id ee) = true ->
    Domino.get_environment domino (Domino.id ee) g1 = (Domino.Returns e, g2) ->
    PyStr.mem (config_file_hash ec)
      (get_or truthy_list (Domino.activeRevisionTags e) []) = false ->
    Domino.create_environment_revision domino
      (create_revision_args (set_environment_id (Domino.id ee) ec)) g2
    = (Domino.Returns tt, g3) ->
    reconcile domino os location w
    = (restrict_environment_revision domino (set_environment_id (Domino.id ee) ec) ;;
       restrict_environment_revision domino (set_environment_id (Domino.id ee) ec))
        {| remote := g3;
           calls := calls w ++ [Domino.EnvironmentsList;
                                Domino.GetEnvironment (Domino.id ee);
                                Domino.CreateEnvironmentRevision
                                  (create_revision_args
                                     (set_environment_id (Domino.id ee) ec))];
           logs := logs w1 ++ [(INFO, AlreadyExists (name ec) (Domino.id ee))] |}.
Proof.
  intros location w ec w1 envs g1 ee e g2 g3 Hparse Hname Hlist Hfind Hid Hget Htag Hrev.
  destruct (offline_parse_config_file os (new_EnvironmentConfig location) w) as [Hr Hc].
  rewrite Hparse in Hr, Hc. cbn [snd] in Hr, Hc.
  unfold reconcile. unfold bind at 1. rewrite Hparse.
  unfold bind at 1.
  unfold create_environment_if_not_exist. rewrite Hname. cbn [negb].
  unfold bind at 1. unfold check_environment_exists. unfold bind at 1.
  unfold invoke at 1. rewrite Hr, Hlist. rewrite Hfind.
  cbn [ret fst environment_id set_environment_id]. rewrite Hid.
  unfold bind at 1. cbn [log ret fst name set_environment_id].
  unfold create_environment_revision at 1. rewrite bind_assoc.
  unfold get_latest_revision. rewrite bind_assoc, bind_invoke.
  cbn [remote calls logs environment_id set_environment_id].
  rewrite Hget. rewrite bind_ret.
  cbn [config_file_hash set_environment_id]. rewrite Htag.
  rewrite !bind_assoc, bind_invoke. cbn [remote calls logs]. rewrite Hrev.
  rewrite Hc, <- !app_assoc. reflexivity.
Qed.

End Changed.

(** X15: for an environment that exists and whose fingerprint is not among
    the active revision tags, one revision is submitted, with the id found in
    the listing and with the fingerprint as the last of its tags.  When the
    platform accepts it, nothing else is created or revised: the rest of the
    run is the restriction enforcement, which begins by reading the
    environment again. *)
Theorem X15_changed_declaration_is_revised_once :
  forall (G : Type) (domino : Domino.client G) (os : FileSystem)
         (environment target : string) (w w1 : World G) (f : File)
         (ec : EnvironmentConfig) (envs : list Domino.Summary) (g1 : G)
         (ee : Domino.Summary) (e : Domino.Environment) (g2 g3 : G),
    files os (config_location target environment) = Some f ->
    parse_config_file os (new_EnvironmentConfig (config_location target environment)) w
    = (Value ec, w1) ->
    PyStr.truthy (name ec) = true ->
    Domino.environments_list domino (remote w) = (Domino.Returns envs, g1) ->
    find (fun x => (Domino.env_name x =? name ec)%string) envs = Some ee ->
    PyStr.truthy (Domino.id ee) = true ->
    Domino.get_environment domino (Domino.id ee) g1 = (Domino.Returns e, g2) ->
    PyStr.mem (config_file_hash ec)
      (get_or truthy_list (Domino.activeRevisionTags e) []) = false ->
    Domino.create_environment_revision domino
      (create_revision_args (set_environment_id (Domino.id ee) ec)) g2
    = (Domino.Returns tt, g3) ->
    let args := create_revision_args (set_environment_id (Domino.id ee) ec) in
    exists w' rest,
      process_single_environment domino os environment target w = (Value tt, w')
      /\ calls w'
         = (calls w
            ++ [Domino.EnvironmentsList; Domino.GetEnvironment (Domino.id ee);
                Domino.CreateEnvironmentRevision args;
                Domino.GetEnvironment (Domino.id ee)]
            ++ rest)%list
      /\ Forall (fun c => is_create c = false /\ is_create_revision c = false) rest
      /\ Domino.r_environment_id args = Domino.id ee
      /\ exists declared,
           Domino.r_tags args = (declared ++ [SHA256.hexdigest (content f)])%list.
Proof.
  intros G domino os environment target w w1 f ec envs g1 ee e g2 g3
         Hf Hparse Hname Hlist Hfind Hid Hget Htag Hrev args.
  set (location := config_location target environment) in *.
  destruct (process_single_environment_returns domino os environment target w) as [w' Hrun].
  assert (Hw' : w' = snd (process_single_environment domino os environment target w))
    by (rewrite Hrun; reflexivity).
  unfold process_single_environment in Hw'. fold location in Hw'. rewrite Hf in Hw'.
  destruct (try_except_log_calls (reconcile domino os location) environment w)
    as [Hcalls _].
  rewrite <- Hw' in Hcalls.
  rewrite (reconcile_changed domino os location w ec w1 envs g1 ee e g2 g3
             Hparse Hname Hlist Hfind Hid Hget Htag Hrev) in Hcalls.
  match type of Hcalls with context [(_ ;; _) ?w4] =>
    destruct (restriction_twice_calls
                (fun c => is_create c = false /\ is_create_revision c = false) domino
                ltac:(intros; split; reflexivity) ltac:(intros; split; reflexivity)
                (set_environment_id (Domino.id ee) ec) w4)
      as (rest & logged & Hc & _ & Hall)
  end.
  exists w', rest. split; [exact Hrun |].
  rewrite Hcalls, Hc. cbn [calls environment_id set_environment_id].
  split; [rewrite <- !app_assoc; reflexivity |].
  split; [exact Hall |]. split; [reflexivity |].
  destruct (parse_config_file_value os _ w w1 ec Hparse)
    as (f' & d & resolved & clusters & tools & logged' & Hf' & _ & Hallp).
  cbn [environment_config_location new_EnvironmentConfig] in Hf'. fold location in Hf'.
  rewrite Hf in Hf'. inversion Hf'; subst f'.
  rewrite (Hallp _ w eq_refl) in Hparse.
  assert (Hec : ec = loaded d resolved clusters tools (SHA256.hexdigest (content f))
                       (new_EnvironmentConfig location))
    by (inversion Hparse; reflexivity).
  exists (get_or truthy_list (Doc.tags d) []). unfold args. rewrite Hec. reflexivity.
Qed.

(** The declaration of [base-env] against an environment with an older
    fingerprint. *)
Lemma X15_changed_declaration_is_revised_once_witness :
  exists w' args rest,
    process_single_environment Platform.client Cases.base_only "base-env"
      Examples.templates (Platform.start Cases.base_stale) = (Value tt, w')
    /\ calls w'
       = ([Domino.EnvironmentsList; Domino.GetEnvironment "env-base-env";
           Domino.CreateEnvironmentRevision args;
           Domino.GetEnvironment "env-base-env"] ++ rest)%list
    /\ Forall (fun c => is_create c = false /\ is_create_revision c = false) rest
    /\ Domino.r_environment_id args = "env-base-env".
Proof.
  assert (E : exists ec w1 g3,
             parse_config_file Cases.base_only
               (new_EnvironmentConfig (config_location Examples.templates "base-env"))
               (Platform.start Cases.base_stale) = (Value ec, w1)
             /\ PyStr.truthy (name ec) = true
             /\ find (fun x => (Domino.env_name x =? name ec)%string)
                  [{| Domino.id := "env-base-env"; Domino.env_name := "base-env" |}]
                = Some {| Domino.id := "env-base-env"; Domino.env_name := "base-env" |}
             /\ PyStr.mem (config_file_hash ec)
                  (get_or truthy_list
                     (Domino.activeRevisionTags
                        (Platform.describe
                           {| Platform.id := "env-base-env"; Platform.name := "base-env";
                              Platform.revisions := 1;
                              Platform.active_tags :=
                                ["0e5751c026e543b2e8ab2eb06099daa1d1e5df47778f7787faab45cdf12fe3a8"];
                              Platform.restricted := None |})) []) = false
             /\ Domino.create_environment_revision Platform.client
                  (create_revision_args (set_environment_id "env-base-env" ec))
                  Cases.base_stale = (Domino.Returns tt, g3)).
  { eexists. eexists. eexists.
    split; [vm_compute; reflexivity |].
    split; [reflexivity |]. split; [reflexivity |].
    split; [vm_compute; reflexivity |]. vm_compute. reflexivity. }
  destruct E as (ec & w1 & g3 & Hparse & Hname & Hfind & Htag & Hrev).
  destruct (X15_changed_declaration_is_revised_once Platform.t Platform.client
              Cases.base_only "base-env" Examples.templates
              (Platform.start Cases.base_stale) w1 Examples.restricted_base ec
              [{| Domino.id := "env-base-env"; Domino.env_name := "base-env" |}]
              Cases.base_stale
              {| Domino.id := "env-base-env"; Domino.env_name := "base-env" |}
              _ Cases.base_stale g3
              eq_refl Hparse Hname eq_refl Hfind eq_refl eq_refl Htag Hrev)
    as (w' & rest & Hrun & Hcalls & Hall & Hid & _).
  exists w', (create_revision_args (set_environment_id "env-base-env" ec)), rest.
  repeat split; assumption.
Defined.

(** ** An environment that does not exist yet *)

Section Fresh.

Context {G : Type}.
Variable domino : Domino.client G.
Variable os : FileSystem.

Lemma bind_value {A B : Type} (m : M G A) (k : A -> M G B) :
  forall w a w', m w = (Value a, w') -> bind m k w = k a w'.
Proof. intros w a w' H. unfold bind. rewrite H. reflexivity. Qed.

(** The calls of [reconcile] when no listed environment has the name and the
    creation is accepted. *)
Lemma reconcile_fresh_calls :
  forall location (w : World G) ec w1 envs g1 g2,
    parse_config_file os (new_EnvironmentConfig location) w = (Value ec, w1) ->
    PyStr.truthy (name ec) = true ->
    Domino.environments_list domino (remote w) = (Domino.Returns envs, g1) ->
    find (fun x => (Domino.env_name x =? name ec)%string) envs = None ->
    Domino.create_environment domino (create_environment_args ec) g1
    = (Domino.Returns tt, g2) ->
    exists rest,
      calls (snd (reconcile domino os location w))
      = (calls w
         ++ [Domino.EnvironmentsList; Domino.CreateEnvironment (create_environment_args ec);
             Domino.EnvironmentsList]
         ++ rest)%list
      /\ Forall (fun c => is_create c = false) rest.
Proof.
  intros location w ec w1 envs g1 g2 Hparse Hname Hlist Hfind Hcreate.
  destruct (offline_parse_config_file os (new_EnvironmentConfig location) w) as [Hr Hc].
  rewrite Hparse in Hr, Hc. cbn [snd] in Hr, Hc.
  destruct (parse_config_file_value os _ w w1 ec Hparse)
    as (f & d & resolved & clusters & tools & logged & Hf & Hy & Hall).
  assert (Hec : ec = loaded d resolved clusters tools (SHA256.hexdigest (content f))
                       (new_EnvironmentConfig location))
    by (rewrite (Hall _ w eq_refl) in Hparse; inversion Hparse; reflexivity).
  assert (Hagain : forall w2 : World G,
            parse_config_file os ec w2 = (Value ec, logged_more w2 logged)).
  { intros w2. rewrite Hec.
    match goal with |- parse_config_file os ?s w2 = _ =>
      rewrite (Hall s w2 eq_refl) end.
    reflexivity. }
  assert (Hid : PyStr.truthy (environment_id ec) = false) by (rewrite Hec; reflexivity).
  unfold reconcile. rewrite (bind_value _ _ _ _ _ Hparse).
  unfold create_environment_if_not_exist. rewrite Hname. cbn [negb].
  rewrite bind_assoc. unfold check_environment_exists at 1.
  rewrite bind_assoc, bind_invoke. rewrite Hr, Hlist, Hfind.
  rewrite bind_ret. cbn [fst]. rewrite Hid.
  rewrite !bind_assoc, bind_log.
  unfold create_environment. rewrite !bind_assoc.
  rewrite (bind_value _ _ _ _ _ (Hagain _)). cbv beta.
  rewrite !bind_assoc, bind_invoke. cbn [remote logged_more]. rewrite Hcreate.
  unfold check_environment_exists. rewrite !bind_assoc.
  match goal with |- context [bind (invoke ?first ?method) ?then_ ?w5] =>
    destruct (first_call_invoke (fun x => is_create x = false) first method then_)
      with (w := w5) as (rest & logged5 & Hc5 & _ & Hall5)
  end.
  - intros listed. cbv beta.
    apply runs_within_bind with (mid := fun _ => True).
    + destruct (find _ listed); apply runs_within_ret; exact I.
    + intros r _.
      apply runs_within_bind with (mid := fun _ => True); [apply runs_within_ret; exact I |].
      intros self _.
      apply runs_within_bind with (mid := fun _ => True); [apply runs_within_ret; exact I |].
      intros r2 _. cbv zeta.
      apply runs_within_bind with (mid := fun _ => True).
      * apply create_environment_revision_within; reflexivity.
      * intros _ _. apply restrict_environment_revision_within; reflexivity.
  - exists rest. rewrite Hc5. cbn [calls logged_more]. rewrite Hc.
    rewrite <- !app_assoc. auto.
Qed.

End Fresh.

(** X16: when no remote environment has the name of the declaration, the
    environment is created once, with the parsed declaration, whose last tag
    is the fingerprint; when the platform accepts the creation, the
    environments are listed again to find the new id, and nothing else is
    created in the run. *)
Theorem X16_absent_environment_is_created_once :
  forall (G : Type) (domino : Domino.client G) (os : FileSystem)
         (environment target : string) (w w1 : World G) (f : File)
         (ec : EnvironmentConfig) (envs : list Domino.Summary) (g1 g2 : G),
    files os (config_location target environment) = Some f ->
    parse_config_file os (new_EnvironmentConfig (config_location target environment)) w
    = (Value ec, w1) ->
    PyStr.truthy (name ec) = true ->
    Domino.environments_list domino (remote w) = (Domino.Returns envs, g1) ->
    find (fun x => (Domino.env_name x =? name ec)%string) envs = None ->
    Domino.create_environment domino (create_environment_args ec) g1
    = (Domino.Returns tt, g2) ->
    exists w' rest,
      process_single_environment domino os environment target w = (Value tt, w')
      /\ calls w'
         = (calls w
            ++ [Domino.EnvironmentsList;
                Domino.CreateEnvironment (create_environment_args ec);
                Domino.EnvironmentsList]
            ++ rest)%list
      /\ Forall (fun c => is_create c = false) rest
      /\ exists declared,
           Domino.tags (create_environment_args ec)
           = (declared ++ [SHA256.hexdigest (content f)])%list.
Proof.
  intros G domino os environment target w w1 f ec envs g1 g2
         Hf Hparse Hname Hlist Hfind Hcreate.
  set (location := config_location target environment) in *.
  destruct (process_single_environment_returns domino os environment target w) as [w' Hrun].
  assert (Hw' : w' = snd (process_single_environment domino os environment target w))
    by (rewrite Hrun; reflexivity).
  unfold process_single_environment in Hw'. fold location in Hw'. rewrite Hf in Hw'.
  destruct (try_except_log_calls (reconcile domino os location) environment w)
    as [Hcalls _].
  rewrite <- Hw' in Hcalls.
  destruct (reconcile_fresh_calls domino os location w ec w1 envs g1 g2
              Hparse Hname Hlist Hfind Hcreate) as (rest & Hc & Hall).
  exists w', rest. split; [exact Hrun |].
  split; [rewrite Hcalls; exact Hc |]. split; [exact Hall |].
  destruct (parse_config_file_value os _ w w1 ec Hparse)
    as (f' & d & resolved & clusters & tools & logged' & Hf' & _ & Hallp).
  cbn [environment_config_location new_EnvironmentConfig] in Hf'. fold location in Hf'.
  rewrite Hf in Hf'. inversion Hf'; subst f'.
  rewrite (Hallp _ w eq_refl) in Hparse.
  assert (Hec : ec = loaded d resolved clusters tools (SHA256.hexdigest (content f))
                       (new_EnvironmentConfig location))
    by (inversion Hparse; reflexivity).
  exists (get_or truthy_list (Doc.tags d) []). rewrite Hec. reflexivity.
Qed.

(** [base-env] on an empty platform. *)
Lemma X16_absent_environment_is_created_once_witness :
  exists w' args rest,
    process_single_environment Platform.client Cases.base_only "base-env"
      Examples.templates (Platform.start []) = (Value tt, w')
    /\ calls w'
       = ([Domino.EnvironmentsList; Domino.CreateEnvironment args;
           Domino.EnvironmentsList] ++ rest)%list
    /\ Forall (fun c => is_create c = false) rest.
Proof.
  assert (E : exists ec w1,
             parse_config_file Cases.base_only
               (new_EnvironmentConfig (config_location Examples.templates "base-env"))
               (Platform.start []) = (Value ec, w1)
             /\ PyStr.truthy (name ec) = true).
  { eexists. eexists. split; [vm_compute; reflexivity | reflexivity]. }
  destruct E as (ec & w1 & Hparse & Hname).
  destruct (X16_absent_environment_is_created_once Platform.t Platform.client
              Cases.base_only "base-env" Examples.templates (Platform.start []) w1
              Examples.restricted_base ec [] [] _
              eq_refl Hparse Hname eq_refl eq_refl eq_refl)
    as (w' & rest & Hrun & Hcalls & Hall & _).
  exists w', (create_environment_args ec), rest. repeat split; assumption.
Defined.

(** ** Start-up *)

Lemma endswith_append : forall a s : string, Startup.endswith (a ++ s) s = true.
Proof.
  induction a as [| c a IH]; intros s.
  - destruct s; simpl; rewrite ?Ascii.eqb_refl, ?String.eqb_refl; reflexivity.
  - cbn [append Startup.endswith]. rewrite IH. apply orb_true_r.
Qed.

Lemma ends_with_slash_split : forall a,
  PyStr.ends_with_slash a = true -> exists b, a = (b ++ "/")%string.
Proof.
  induction a as [| c a IH]; intros H; [discriminate |].
  destruct a as [| c' a'].
  - simpl in H. apply Ascii.eqb_eq in H. subst c. exists EmptyString. reflexivity.
  - change (PyStr.ends_with_slash (String c' a') = true) in H.
    destruct (IH H) as [b Hb]. exists (String c b). simpl. rewrite <- Hb. reflexivity.
Qed.

Lemma append_assoc : forall a b c : string, ((a ++ b) ++ c = a ++ (b ++ c))%string.
Proof. induction a as [| x a IH]; intros b c; simpl; [reflexivity | rewrite IH; reflexivity]. Qed.

(** Under a directory that is named, [environment_templates] is a path that
    ends with [/environment_templates]. *)
Lemma path_join_templates : forall a,
  a <> EmptyString ->
  Startup.endswith (path_join a "environment_templates") "/environment_templates" = true.
Proof.
  intros a Ha. unfold path_join. cbn [PyStr.starts_with_slash].
  destruct a as [| c a]; [congruence |]. cbn [PyStr.truthy negb orb].
  destruct (PyStr.ends_with_slash (String c a)) eqn:E.
  - destruct (ends_with_slash_split _ E) as [b Hb]. rewrite Hb.
    rewrite append_assoc. apply (endswith_append b "/environment_templates").
  - apply (endswith_append (String c a) "/environment_templates").
Qed.

Lemma parent_not_empty : forall p, Startup.parent p <> EmptyString.
Proof.
  intros p. unfold Startup.parent.
  destruct (Startup.drop_component (rev (list_ascii_of_string p))) as [| c [| c' r]];
    try discriminate.
  intros H.
  assert (Hl : list_ascii_of_string (string_of_list_ascii (rev (c' :: r))) = []).
  { rewrite H. reflexivity. }
  rewrite list_ascii_of_string_of_list_ascii in Hl.
  apply (f_equal (@List.length ascii)) in Hl. rewrite length_rev in Hl. discriminate Hl.
Qed.

Example parent_examples :
  Startup.parent "/repo/scripts" = "/repo" /\ Startup.parent "/repo" = "/"
  /\ Startup.parent "/" = "/".
Proof. repeat split. Qed.

(** The directory before the last check of [get_target_directory]. *)
Lemma target_candidate : forall p notes directory,
  Startup.getcwd p <> EmptyString ->
  (let target_directory := Startup.getenv p "TARGET_DIRECTORY" in
   if negb (get_truthy PyStr.truthy target_directory) then
     let cwd_candidate := path_join (Startup.getcwd p) "environment_templates" in
     let parent_candidate :=
       path_join (Startup.parent (Startup.getcwd p)) "environment_templates" in
     if Startup.isdir p cwd_candidate then Startup.done cwd_candidate
     else if Startup.isdir p parent_candidate then Startup.done parent_candidate
     else Startup.andthen (Startup.note_ ERROR Startup.TemplatesNotFound)
            (fun _ => Startup.exit 1)
   else
     let target_directory := get_or PyStr.truthy target_directory "" in
     if negb (Startup.endswith target_directory "/environment_templates") then
       if Startup.endswith target_directory "/"
       then Startup.done (path_join target_directory "environment_templates")
       else Startup.done (target_directory ++ "/environment_templates")
     else Startup.done target_directory)
  = (notes, Startup.Done directory) ->
  Startup.endswith directory "/environment_templates" = true.
Proof.
  intros p notes directory Hcwd. cbv zeta.
  destruct (Startup.getenv p "TARGET_DIRECTORY") as [t |]; cbn [get_truthy get_or].
  - destruct (PyStr.truthy t) eqn:Ht; cbn [negb].
    + destruct (Startup.endswith t "/environment_templates") eqn:E; cbn [negb].
      * intros H. inversion H; subst. exact E.
      * destruct (Startup.endswith t "/") eqn:E2; intros H; inversion H; subst.
        -- apply path_join_templates. intros ->. discriminate Ht.
        -- apply (endswith_append t "/environment_templates").
    + destruct (Startup.isdir p _); [| destruct (Startup.isdir p _)];
        intros H; inversion H; subst.
      * apply path_join_templates. exact Hcwd.
      * apply path_join_templates. apply parent_not_empty.
  - cbn [negb].
    destruct (Startup.isdir p _); [| destruct (Startup.isdir p _)];
      intros H; inversion H; subst.
    + apply path_join_templates. exact Hcwd.
    + apply path_join_templates. apply parent_not_empty.
Qed.

(** X17: whatever the variables, and for a working directory whose path is
    not empty (as [os.getcwd] gives it), the directory that
    [get_target_directory] returns is a directory that exists and whose path
    ends with [/environment_templates]; when it returns none, it exits with
    code 1. *)
Theorem X17_target_directory_is_a_templates_directory :
  forall (p : Startup.Process),
    Startup.getcwd p <> EmptyString ->
    (exists notes directory,
       Startup.get_target_directory p = (notes, Startup.Done directory)
       /\ Startup.isdir p directory = true
       /\ Startup.endswith directory "/environment_templates" = true)
    \/ (exists notes, Startup.get_target_directory p = (notes, Startup.Exit 1)).
Proof.
  intros p Hcwd. unfold Startup.get_target_directory.
  match goal with |- context [Startup.andthen ?m ?k] =>
    destruct m as [notes [directory | code]] eqn:E
  end.
  - pose proof (target_candidate p notes directory Hcwd E) as Hcand.
    cbn [Startup.andthen]. destruct (Startup.isdir p directory) eqn:Hd; cbn.
    + left. eexists. eexists. repeat split; [exact Hd | exact Hcand].
    + right. eexists. reflexivity.
  - right. cbn [Startup.andthen].
    assert (code = 1%Z).
    { revert E. cbv zeta.
      destruct (negb _); [destruct (Startup.isdir p _); [| destruct (Startup.isdir p _)] |
                          destruct (negb _); [destruct (Startup.endswith _ "/") |]];
        intros H; inversion H; reflexivity. }
    subst code. eexists. reflexivity.
Qed.

Lemma X17_target_directory_is_a_templates_directory_witness :
  (exists notes directory,
     Startup.get_target_directory (Cases.in_repository [("TARGET_DIRECTORY", "/repo/")])
     = (notes, Startup.Done directory)
     /\ Startup.isdir (Cases.in_repository [("TARGET_DIRECTORY", "/repo/")]) directory = true
     /\ Startup.endswith directory "/environment_templates" = true)
  \/ (exists notes,
        Startup.get_target_directory (Cases.in_repository [("TARGET_DIRECTORY", "/repo/")])
        = (notes, Startup.Exit 1)).
Proof.
  exact (X17_target_directory_is_a_templates_directory
           (Cases.in_repository [("TARGET_DIRECTORY", "/repo/")])
           ltac:(simpl; discriminate)).
Defined.

Example target_directory_examples :
  Startup.get_target_directory (Cases.in_repository [("TARGET_DIRECTORY", "/repo/")])
  = ([(INFO, Startup.TargetDirectory "/repo/environment_templates")],
     Startup.Done "/repo/environment_templates")
  /\ Startup.get_target_directory (Cases.in_repository [("TARGET_DIRECTORY", "/repo")])
     = ([(INFO, Startup.TargetDirectory "/repo/environment_templates")],
        Startup.Done "/repo/environment_templates")
  /\ Startup.get_target_directory (Cases.in_repository [])
     = ([(INFO, Startup.TargetDirectory "/repo/environment_templates")],
        Startup.Done "/repo/environment_templates")
  /\ Startup.get_target_directory (Cases.in_repository [("TARGET_DIRECTORY", "/elsewhere")])
     = ([(ERROR, Startup.TargetMissing "/elsewhere/environment_templates")],
        Startup.Exit 1).
Proof. repeat split. Qed.

(** *** Every exit of start-up has code 1 *)

Lemma exits_with_1_done {A : Type} (a : A) : exits_with_1 (Startup.done a).
Proof. intros notes code H. discriminate H. Qed.

Lemma exits_with_1_exit {A : Type} : exits_with_1 (@Startup.exit A 1).
Proof. intros notes code H. inversion H. reflexivity. Qed.

Lemma exits_with_1_note (l : level) (n : Startup.note) : exits_with_1 (Startup.note_ l n).
Proof. intros notes code H. discriminate H. Qed.

Lemma exits_with_1_andthen {A B : Type} (m : Startup.S A) (k : A -> Startup.S B) :
  exits_with_1 m -> (forall a, exits_with_1 (k a)) -> exits_with_1 (Startup.andthen m k).
Proof.
  intros Hm Hk notes code. unfold Startup.andthen.
  destruct m as [n [a | c]].
  - destruct (k a) as [more r] eqn:E. intros H. inversion H; subst.
    eapply Hk. exact E.
  - intros H. inversion H; subst. eapply Hm. reflexivity.
Qed.

Ltac through_start_up :=
  cbv zeta;
  repeat first
    [ apply exits_with_1_done | apply exits_with_1_exit | apply exits_with_1_note
    | apply exits_with_1_andthen; [| intros ?]
    | match goal with
      | |- exits_with_1 (if ?b then _ else _) => destruct b
      | |- exits_with_1 (match ?x with _ => _ end) => destruct x
      end ].

Section StartupFacts.

Variable with_https_scheme : string -> string.

Lemma get_domino_host_exits_with_1 : forall p,
  exits_with_1 (Startup.get_domino_host with_https_scheme p).
Proof. intros p. unfold Startup.get_domino_host. through_start_up. Qed.

Lemma get_target_directory_exits_with_1 : forall p,
  exits_with_1 (Startup.get_target_directory p).
Proof. intros p. unfold Startup.get_target_directory. through_start_up. Qed.

Lemma main_startup_exits_with_1 : forall p,
  exits_with_1 (Startup.main_startup with_https_scheme p).
Proof.
  intros p. unfold Startup.main_startup.
  apply exits_with_1_andthen; [through_start_up |]. intros domino_project.
  apply exits_with_1_andthen.
  - destruct (get_truthy _ _); [apply exits_with_1_done |].
    apply exits_with_1_andthen; [apply get_domino_host_exits_with_1 |].
    intros host_. through_start_up.
  - intros connection.
    apply exits_with_1_andthen; [apply get_target_directory_exits_with_1 |].
    intros t. apply exits_with_1_done.
Qed.

(** What [get_target_directory] returns is a directory. *)
Lemma get_target_directory_isdir : forall p notes directory,
  Startup.get_target_directory p = (notes, Startup.Done directory) ->
  Startup.isdir p directory = true.
Proof.
  intros p notes directory. unfold Startup.get_target_directory. cbv zeta.
  match goal with |- Startup.andthen ?m _ = _ -> _ => destruct m as [n [t | c]] end;
    cbn [Startup.andthen]; [| discriminate].
  destruct (Startup.isdir p t) eqn:E; cbn; intros H; inversion H; subst; exact E.
Qed.

Lemma andthen_done {A B : Type} (m : Startup.S A) (k : A -> Startup.S B) :
  forall notes b,
    Startup.andthen m k = (notes, Startup.Done b) ->
    exists n a more, m = (n, Startup.Done a) /\ k a = (more, Startup.Done b).
Proof.
  intros notes b. unfold Startup.andthen. destruct m as [n [a | c]]; [| discriminate].
  destruct (k a) as [more r] eqn:E. intros H. inversion H; subst.
  exists n, a, more. auto.
Qed.

Lemma main_startup_isdir : forall p notes connection directory,
  Startup.main_startup with_https_scheme p = (notes, Startup.Done (connection, directory)) ->
  Startup.isdir p directory = true.
Proof.
  intros p notes connection directory H. unfold Startup.main_startup in H.
  apply andthen_done in H. destruct H as (n1 & project & more1 & _ & H).
  apply andthen_done in H. destruct H as (n2 & c & more2 & _ & H).
  apply andthen_done in H. destruct H as (n3 & t & more3 & Ht & H).
  inversion H; subst. eapply get_target_directory_isdir. exact Ht.
Qed.

End StartupFacts.

Section BatchExit.

Context {G : Type}.
Variable domino : Domino.client G.
Variable os : FileSystem.

Lemma process_all_environments_exit : forall target (w : World G),
  exists w',
    process_all_environments domino os target w
    = (Raised (SystemExit (if truthy_list (listdir os target) then 0 else 1)%Z), w').
Proof.
  intros target w. unfold process_all_environments.
  destruct (listdir os target) as [| x xs] eqn:El.
  - eexists. reflexivity.
  - cbn [truthy_list negb]. unfold bind at 1. cbn [ret].
    unfold bind at 1. cbn [log]. unfold bind at 1.
    rewrite (for_each_returns
               (fun environment => process_single_environment domino os environment target)
               (fun x0 w0 => process_single_environment_returns domino os x0 target w0)).
    eexists. reflexivity.
Qed.

End BatchExit.

(** X18: [main] never returns to its caller, the constructor of the client
    being taken to return.  When start-up stops (a
    variable is missing, the target directory is not found), the exit code is
    1 and the world is as it was: no call to the client has been made.
    Otherwise the target directory exists and the exit code is that of the
    batch: 0 when the listing of the directory is not empty, 1 when it is. *)
Theorem X18_main_exit_codes :
  forall (G : Type) (with_https_scheme : string -> string)
         (connect : Startup.Connection -> Domino.client G) (os : FileSystem)
         (p : Startup.Process) (w : World G),
    (exists notes,
       Startup.main_startup with_https_scheme p = (notes, Startup.Exit 1)
       /\ Startup.main with_https_scheme connect os p w
          = (notes, (Raised (SystemExit 1), w)))
    \/ (exists notes connection target w',
          Startup.main_startup with_https_scheme p
          = (notes, Startup.Done (connection, target))
          /\ Startup.isdir p target = true
          /\ Startup.main with_https_scheme connect os p w
             = (notes,
                (Raised (SystemExit (if truthy_list (listdir os target) then 0 else 1)%Z),
                 w'))).
Proof.
  intros G with_https_scheme connect os p w. unfold Startup.main.
  destruct (Startup.main_startup with_https_scheme p) as [notes [[connection target] | code]]
    eqn:E.
  - right.
    destruct (process_all_environments_exit (connect connection) os target w) as [w' Hw'].
    exists notes, connection, target, w'. rewrite Hw'.
    repeat split. eapply main_startup_isdir. exact E.
  - left. pose proof (main_startup_exits_with_1 with_https_scheme p notes code E). subst code.
    exists notes. split; reflexivity.
Qed.

(** X19: what [main] asks of the process environment once the two project
    variables are set.  With [DOMINO_API_PROXY], neither the URL nor a
    credential is read: the client is built from the project alone.  Without
    it, a missing [DOMINO_URL] stops start-up, and so does the absence of
    both [DOMINO_API_KEY] and [DOMINO_AUTH_TOKEN], after the host, which ends
    with a slash, has been logged; in both cases the target directory is not
    looked for. *)
Theorem X19_start_up_requirements :
  forall (with_https_scheme : string -> string) (p : Startup.Process) (owner name : string),
    Startup.environ p "DOMINO_PROJECT_OWNER" = Some owner ->
    Startup.environ p "DOMINO_PROJECT_NAME" = Some name ->
    (get_truthy PyStr.truthy (Startup.getenv p "DOMINO_API_PROXY") = true ->
     Startup.main_startup with_https_scheme p
     = Startup.andthen (Startup.get_target_directory p)
         (fun target_directory =>
            Startup.done
              ({| Startup.project := owner ++ "/" ++ name; Startup.api_key := None;
                  Startup.host := None; Startup.auth_token := None |},
               target_directory)))
    /\ (get_truthy PyStr.truthy (Startup.getenv p "DOMINO_API_PROXY") = false ->
        (get_truthy PyStr.truthy (Startup.getenv p "DOMINO_URL") = false ->
         Startup.main_startup with_https_scheme p
         = ([(ERROR, Startup.UrlRequired)], Startup.Exit 1))
        /\ (get_truthy PyStr.truthy (Startup.getenv p "DOMINO_URL") = true ->
            get_truthy PyStr.truthy (Startup.getenv p "DOMINO_API_KEY") = false ->
            get_truthy PyStr.truthy (Startup.getenv p "DOMINO_AUTH_TOKEN") = false ->
            exists host,
              Startup.endswith host "/" = true
              /\ Startup.main_startup with_https_scheme p
                 = ([(INFO, Startup.Connecting host); (ERROR, Startup.CredentialsRequired)],
                    Startup.Exit 1))).
Proof.
  intros with_https_scheme p owner name Ho Hn.
  assert (Hset : Startup.is_set p "DOMINO_PROJECT_OWNER"
                 && Startup.is_set p "DOMINO_PROJECT_NAME" = true)
    by (unfold Startup.is_set; rewrite Ho, Hn; reflexivity).
  split; [| intros Hproxy; split].
  - intros Hproxy. unfold Startup.main_startup. rewrite Hset, Ho, Hn, Hproxy.
    cbn [Startup.andthen Startup.done].
    destruct (Startup.get_target_directory p) as [notes [t | c]]; reflexivity.
  - intros Hurl. unfold Startup.main_startup. rewrite Hset, Ho, Hn, Hproxy.
    unfold Startup.get_domino_host.
    destruct (Startup.getenv p "DOMINO_URL") as [u |]; cbn [get_truthy] in Hurl;
      [rewrite Hurl |]; reflexivity.
  - intros Hurl Hkey Htoken. unfold Startup.main_startup. rewrite Hset, Ho, Hn, Hproxy.
    unfold Startup.get_domino_host.
    destruct (Startup.getenv p "DOMINO_URL") as [u |]; cbn [get_truthy] in Hurl;
      [rewrite Hurl | discriminate Hurl].
    rewrite Hkey, Htoken. cbv zeta.
    set (parsed := with_https_scheme _).
    destruct (Startup.endswith parsed "/") eqn:E; cbn [negb].
    + exists parsed. split; [exact E | reflexivity].
    + exists (parsed ++ "/")%string. split; [apply endswith_append | reflexivity].
Qed.

(** The project and the URL are set, and no key or token. *)
Lemma X19_start_up_requirements_witness :
  exists host,
    Startup.endswith host "/" = true
    /\ Startup.main_startup (fun url => url)
         (Cases.in_repository [("DOMINO_PROJECT_OWNER", "ada"); ("DOMINO_PROJECT_NAME", "envs");
                               ("DOMINO_URL", "domino.example.com")])
       = ([(INFO, Startup.Connecting host); (ERROR, Startup.CredentialsRequired)],
          Startup.Exit 1).
Proof.
  exact (proj2 (proj2 (X19_start_up_requirements (fun url => url)
                         (Cases.in_repository
                            [("DOMINO_PROJECT_OWNER", "ada"); ("DOMINO_PROJECT_NAME", "envs");
                             ("DOMINO_URL", "domino.example.com")])
                         "ada" "envs" eq_refl eq_refl) eq_refl) eq_refl eq_refl eq_refl).
Defined.

(** ** A platform that does not answer *)

(** X20: when the listing of the environments fails, the run of that
    environment stops there: the failure is logged with the name of the
    environment, the listing is the only call, and
    [process_single_environment] returns. *)
Theorem X20_failed_listing_ends_the_run :
  forall (G : Type) (domino : Domino.client G) (os : FileSystem)
         (environment target : string) (w w1 : World G) (f : File)
         (ec : EnvironmentConfig) (msg : string) (g1 : G),
    files os (config_location target environment) = Some f ->
    parse_config_file os (new_EnvironmentConfig (config_location target environment)) w
    = (Value ec, w1) ->
    PyStr.truthy (name ec) = true ->
    Domino.environments_list domino (remote w) = (Domino.Fails msg, g1) ->
    process_single_environment domino os environment target w
    = (Value tt,
       {| remote := g1;
          calls := calls w ++ [Domino.EnvironmentsList];
          logs := logs w1 ++ [(ERROR, FailedToProcess environment (ClientError msg))] |}).
Proof.
  intros G domino os environment target w w1 f ec msg g1 Hf Hparse Hname Hlist.
  destruct (offline_parse_config_file os
              (new_EnvironmentConfig (config_location target environment)) w) as [Hr Hc].
  rewrite Hparse in Hr, Hc. cbn [snd] in Hr, Hc.
  unfold process_single_environment. rewrite Hf.
  unfold try_except_Exception, reconcile.
  rewrite (bind_value _ _ _ _ _ Hparse).
  unfold create_environment_if_not_exist. rewrite Hname. cbn [negb].
  rewrite bind_assoc. unfold check_environment_exists.
  rewrite !bind_assoc, bind_invoke. rewrite Hr, Hlist, Hc. reflexivity.
Qed.

Lemma X20_failed_listing_ends_the_run_witness :
  exists w1 : World unit,
    process_single_environment Cases.unreachable Cases.base_only "base-env"
      Examples.templates {| remote := tt; calls := []; logs := [] |}
    = (Value tt,
       {| remote := tt;
          calls := [] ++ [Domino.EnvironmentsList];
          logs := logs w1
                  ++ [(ERROR, FailedToProcess "base-env" (ClientError "connection refused"))] |}).
Proof.
  assert (E : exists ec w1,
             parse_config_file Cases.base_only
               (new_EnvironmentConfig (config_location Examples.templates "base-env"))
               {| remote := tt; calls := []; logs := [] |} = (Value ec, w1)
             /\ PyStr.truthy (name ec) = true).
  { eexists. eexists. split; [vm_compute; reflexivity | reflexivity]. }
  destruct E as (ec & w1 & Hparse & Hname).
  exists w1.
  exact (X20_failed_listing_ends_the_run unit Cases.unreachable Cases.base_only "base-env"
           Examples.templates {| remote := tt; calls := []; logs := [] |} w1
           Examples.restricted_base ec "connection refused" tt
           eq_refl Hparse Hname eq_refl).
Defined.
